(** * telefonica: period bookkeeping of warehouse tables and dataframe helpers

    A shallow embedding of [telefonica/tables.py] (class [Table]) and of the
    static helpers of [telefonica/process.py] (class [Process]), followed by
    the properties of the design document that were checked against them.

    Conventions of the embedding.
    - Python [str] values are [string]s; only ASCII text is considered, so
      [str.strip] and the [\d] of the [strptime] pattern range over the ASCII
      part of what CPython accepts.
    - A method is a computation over the object it mutates: it yields an
      [outcome] (a returned value or a raised exception) together with the
      final state, so that whatever was assigned before a [raise] stays
      assigned, as in Python.
    - The two functions of [telefonipy.dataman] are external: they are
      section variables, answering as a function of the calls issued so far.
    - [logging] calls are left out: they have no effect on the object. *)

From Stdlib Require Import ZArith List String Ascii Bool Lia DecimalString.
Import ListNotations.
Open Scope string_scope.
Open Scope Z_scope.

Set Implicit Arguments.

(** ** Exceptions, outcomes and the state-and-exception monad *)

Inductive exn : Type :=
| TypeError (msg : string)
| ValueError (msg : string)
| IndexError (msg : string)
| KeyError (key : string)
| ZeroDivisionError (msg : string)
| GatewayError (msg : string).

Inductive outcome (A : Type) : Type :=
| Return (a : A)
| Raise (e : exn).
Arguments Return {A} a.
Arguments Raise {A} e.

Definition M (S A : Type) : Type := S -> outcome A * S.

Definition ret {S A} (a : A) : M S A := fun s => (Return a, s).
Definition throw {S A} (e : exn) : M S A := fun s => (Raise e, s).
Definition bind {S A B} (c : M S A) (k : A -> M S B) : M S B :=
  fun s => match c s with
           | (Return a, s') => k a s'
           | (Raise e, s') => (Raise e, s')
           end.
Definition get {S} : M S S := fun s => (Return s, s).
Definition modify {S} (f : S -> S) : M S unit := fun s => (Return tt, f s).
Definition lift {S A} (o : outcome A) : M S A := fun s => (o, s).

Declare Scope py_scope.
Delimit Scope py_scope with py.
Notation "x <- c ;; k" := (bind c (fun x => k))
  (at level 61, c at next level, right associativity) : py_scope.
Notation "c ;; k" := (bind c (fun _ => k))
  (at level 61, right associativity) : py_scope.
Open Scope py_scope.

(** Dynamically typed arguments, for the parameters the code tests with
    [isinstance]. *)
Definition dict : Type := list (string * string).

Inductive pyobj : Type :=
| PyNone
| PyBool (b : bool)
| PyInt (z : Z)
| PyStr (s : string)
| PyDict (d : dict).

Definition is_str (o : pyobj) : bool :=
  match o with PyStr _ => true | _ => false end.

(** ** Calendar dates: [datetime.date] *)

Record date : Type := mkdate { year : Z; month : Z; day : Z }.

Definition is_leap (y : Z) : bool :=
  (y mod 4 =? 0) && (negb (y mod 100 =? 0) || (y mod 400 =? 0)).

Definition days_in_month (y m : Z) : Z :=
  if m =? 2 then (if is_leap y then 29 else 28)
  else if (m =? 4) || (m =? 6) || (m =? 9) || (m =? 11) then 30
  else 31.

(** What the [date] constructor accepts: MINYEAR = 1, MAXYEAR = 9999. *)
Definition valid_date (d : date) : bool :=
  (1 <=? year d) && (year d <=? 9999) &&
  (1 <=? month d) && (month d <=? 12) &&
  (1 <=? day d) && (day d <=? days_in_month (year d) (month d)).

(** [date.__gt__]: the order of the triples (year, month, day). *)
Definition date_gt (a b : date) : bool :=
  (year b <? year a)
  || ((year a =? year b)
      && ((month b <? month a)
          || ((month a =? month b) && (day b <? day a)))).

(** ** [datetime.strptime(s, "%Y-%m-%d")]

    CPython turns the format into the regular expression
    [(?P<Y>\d\d\d\d)-(?P<m>1[0-2]|0[1-9]|[1-9])-(?P<d>3[01]|[12]\d|0[1-9]|[1-9]| [1-9])],
    matches it at the start of the text, rejects text left over after the
    match, and hands the three numbers to the [date] constructor. *)

Definition digit (c : ascii) : option Z :=
  let n := Z.of_N (N_of_ascii c) in
  if (48 <=? n) && (n <=? 57) then Some (n - 48) else None.

Definition digit_in (lo hi : Z) (c : ascii) : option Z :=
  match digit c with
  | Some v => if (lo <=? v) && (v <=? hi) then Some v else None
  | None => None
  end.

(** [%Y]: exactly four digits. *)
Definition directive_Y (s : string) : option (Z * string) :=
  match s with
  | String a (String b (String c (String d rest))) =>
      match digit a, digit b, digit c, digit d with
      | Some va, Some vb, Some vc, Some vd =>
          Some (1000 * va + 100 * vb + 10 * vc + vd, rest)
      | _, _, _, _ => None
      end
  | _ => None
  end.

(** One alternative made of a fixed first character class and a second
    digit class; the value is [10 * first + second]. *)
Definition two_chars (f : ascii -> option Z) (g : ascii -> option Z)
    (s : string) : list (Z * string) :=
  match s with
  | String a (String b rest) =>
      match f a, g b with
      | Some va, Some vb => [(10 * va + vb, rest)]
      | _, _ => []
      end
  | _ => []
  end.

Definition one_char (f : ascii -> option Z) (s : string) : list (Z * string) :=
  match s with
  | String a rest => match f a with Some va => [(va, rest)] | None => [] end
  | _ => []
  end.

Definition blank (c : ascii) : option Z :=
  if Ascii.eqb c " "%char then Some 0 else None.

(** [%m]: [1[0-2]|0[1-9]|[1-9]], the alternatives in the order the matcher
    tries them. *)
Definition directive_m (s : string) : list (Z * string) :=
  two_chars (digit_in 1 1) (digit_in 0 2) s
  ++ two_chars (digit_in 0 0) (digit_in 1 9) s
  ++ one_char (digit_in 1 9) s.

(** [%d]: [3[01]|[12]\d|0[1-9]|[1-9]| [1-9]]. *)
Definition directive_d (s : string) : list (Z * string) :=
  two_chars (digit_in 3 3) (digit_in 0 1) s
  ++ two_chars (digit_in 1 2) (digit_in 0 9) s
  ++ two_chars (digit_in 0 0) (digit_in 1 9) s
  ++ one_char (digit_in 1 9) s
  ++ two_chars blank (digit_in 1 9) s.

Definition expect (c : ascii) (s : string) : option string :=
  match s with
  | String a rest => if Ascii.eqb a c then Some rest else None
  | EmptyString => None
  end.

(** Backtracking over the alternatives of a group: the first one after
    which the rest of the pattern matches. *)
Fixpoint first_match {A B} (cands : list A) (k : A -> option B) : option B :=
  match cands with
  | [] => None
  | c :: cs => match k c with Some r => Some r | None => first_match cs k end
  end.

(** The match object: the three groups and the unmatched remainder. *)
Definition regex_match (s : string) : option (Z * Z * Z * string) :=
  match directive_Y s with
  | None => None
  | Some (y, s1) =>
      match expect "-" s1 with
      | None => None
      | Some s2 =>
          first_match (directive_m s2) (fun ms =>
            match expect "-" (snd ms) with
            | None => None
            | Some s4 =>
                first_match (directive_d s4) (fun ds =>
                  Some (y, fst ms, fst ds, snd ds))
            end)
      end
  end.

(** [strptime] raises [ValueError] in three situations; [None] stands for
    all of them where the caller catches the exception. *)
Definition strptime (s : string) : option date :=
  match regex_match s with
  | None => None
  | Some (y, m, d, rest) =>
      match rest with
      | EmptyString =>
          let r := mkdate y m d in
          if valid_date r then Some r else None
      | String _ _ => None
      end
  end.

(** [date.isoformat], which is also [str] of a date: ["%04d-%02d-%02d"].
    Every [datetime.date] has a year below 10000, so four digits suffice. *)
Definition digit_char (k : Z) : ascii := ascii_of_N (Z.to_N (48 + k)).

Definition pad2 (n : Z) : string :=
  String (digit_char (n / 10 mod 10))
    (String (digit_char (n mod 10)) EmptyString).

Definition pad4 (n : Z) : string :=
  String (digit_char (n / 1000 mod 10))
    (String (digit_char (n / 100 mod 10)) (pad2 n)).

Definition isoformat (d : date) : string :=
  pad4 (year d) ++ "-" ++ pad2 (month d) ++ "-" ++ pad2 (day d).

(** ** [str.strip()] *)

Definition is_space (c : ascii) : bool :=
  let n := Z.of_N (N_of_ascii c) in
  ((9 <=? n) && (n <=? 13)) || ((28 <=? n) && (n <=? 32)).

Fixpoint lstrip (s : string) : string :=
  match s with
  | String c rest => if is_space c then lstrip rest else s
  | EmptyString => EmptyString
  end.

Fixpoint rstrip (s : string) : string :=
  match s with
  | String c rest =>
      match rstrip rest with
      | EmptyString => if is_space c then EmptyString else String c EmptyString
      | r => String c r
      end
  | EmptyString => EmptyString
  end.

Definition strip (s : string) : string := rstrip (lstrip s).

(** ** The part of pandas the code relies on

    A frame is an index length and an ordered list of labelled columns; it
    is generic in what a cell holds, because [tables.py] only prints cells
    while [process.py] computes with them. *)

Inductive dtype : Type :=
| int8 | int16 | int32 | int64 | float64 | object | category.

Definition dtype_eqb (a b : dtype) : bool :=
  match a, b with
  | int8, int8 | int16, int16 | int32, int32 | int64, int64
  | float64, float64 | object, object | category, category => true
  | _, _ => false
  end.

Record Series (C : Type) : Type := mkSeries { sdtype : dtype; values : list C }.

Record DataFrame (C : Type) : Type :=
  mkFrame { nrows : nat; columns : list (string * Series C) }.

(** [len(df)] *)
Definition len {C} (df : DataFrame C) : Z := Z.of_nat (nrows df).

(** [df.empty]: some axis has length zero. *)
Definition empty {C} (df : DataFrame C) : bool :=
  match nrows df, columns df with
  | O, _ => true
  | _, [] => true
  | _, _ => false
  end.

(** [df.iloc[r, c]] *)
Definition iloc {C} (df : DataFrame C) (r c : nat) : outcome C :=
  match nth_error (columns df) c with
  | None => Raise (IndexError "index out of bounds")
  | Some (_, col) =>
      match nth_error (values col) r with
      | None => Raise (IndexError "index out of bounds")
      | Some v => Return v
      end
  end.

(** The message of the [ValueError] that [strptime] itself raises, for the
    one call site that does not replace it (the text is quoted as [repr]
    quotes a string without quotes or escapes). *)
Definition strptime_error (s : string) : string :=
  match regex_match s with
  | None => "time data '" ++ s ++ "' does not match format '%Y-%m-%d'"
  | Some (y, _, _, rest) =>
      match rest with
      | String _ _ => "unconverted data remains: " ++ rest
      | EmptyString =>
          if y =? 0 then "year 0 is out of range"
          else "day is out of range for month"
      end
  end.

(** * tables.py *)

Module Tables.

(** A value found in a query result, as far as [str] can tell. *)
Inductive scalar : Type :=
| SNull                      (* SQL NULL, delivered as [None] *)
| SNaN                       (* a missing number *)
| SInt (z : Z)
| SText (s : string)
| SDate (d : date)           (* a [datetime.date] *)
| SObject (text : string).   (* any other object, with what [str] prints *)

(** [str(v)] *)
Definition py_str (v : scalar) : string :=
  match v with
  | SNull => "None"
  | SNaN => "nan"
  | SInt z => NilZero.string_of_int (Z.to_int z)
  | SText s => s
  | SDate d => isoformat d
  | SObject text => text
  end.

Definition Frame : Type := DataFrame scalar.

(** The attributes of a [Table] instance. *)
Record Table : Type := mkTable {
  name : string;
  schema : string;
  dsn : string;
  sql_name : string;
  motor : string;
  period_column : option string;
  max_period : option string;
  min_period : option string;
  date_column : option string;
  max_date : option string;
  min_date : option string
}.

Definition set_period_column (v : option string) (t : Table) : Table :=
  mkTable (name t) (schema t) (dsn t) (sql_name t) (motor t)
    v (max_period t) (min_period t) (date_column t) (max_date t) (min_date t).
Definition set_max_period (v : option string) (t : Table) : Table :=
  mkTable (name t) (schema t) (dsn t) (sql_name t) (motor t)
    (period_column t) v (min_period t) (date_column t) (max_date t) (min_date t).
Definition set_min_period (v : option string) (t : Table) : Table :=
  mkTable (name t) (schema t) (dsn t) (sql_name t) (motor t)
    (period_column t) (max_period t) v (date_column t) (max_date t) (min_date t).
Definition set_date_column (v : option string) (t : Table) : Table :=
  mkTable (name t) (schema t) (dsn t) (sql_name t) (motor t)
    (period_column t) (max_period t) (min_period t) v (max_date t) (min_date t).
Definition set_max_date (v : option string) (t : Table) : Table :=
  mkTable (name t) (schema t) (dsn t) (sql_name t) (motor t)
    (period_column t) (max_period t) (min_period t) (date_column t) v (min_date t).
Definition set_min_date (v : option string) (t : Table) : Table :=
  mkTable (name t) (schema t) (dsn t) (sql_name t) (motor t)
    (period_column t) (max_period t) (min_period t) (date_column t) (max_date t) v.

(** What reaches [telefonipy.dataman]. *)
Inductive call : Type :=
| Query (sql : string) (dsn : string)
| Script (file : string) (dsn : string) (silent : option bool)
    (params : option dict).

(** The instance together with the calls issued so far, oldest first. *)
Record world : Type := mkWorld { self : Table; calls : list call }.

Definition assign (f : Table -> Table) : M world unit :=
  modify (fun w => mkWorld (f (self w)) (calls w)).
Definition emit (c : call) : M world unit :=
  modify (fun w => mkWorld (self w) (calls w ++ [c])).
Definition attr {A} (f : Table -> A) : M world A :=
  fun w => (Return (f (self w)), w).

(** Truth value of an attribute that is [None] or a [str]. *)
Definition truthy (v : option string) : option string :=
  match v with
  | Some (String c r) => Some (String c r)
  | _ => None
  end.

Definition which (max : bool) : string := if max then "max" else "min".

(** [Table.__init__]; nothing is sent to the data source, the computation
    runs over the log of calls only to make that visible. *)
Definition __init__ (name schema dsn : pyobj) (period_column : option string)
  : M (list call) Table :=
  match name, schema, dsn with
  | PyStr name, PyStr schema, PyStr dsn =>
      if String.eqb dsn "DWH_TERADATA" || String.eqb dsn "BIGDATA_CDP" then
        let name' := strip name in
        let schema' := strip schema in
        ret (mkTable name' schema' dsn (schema' ++ "." ++ name')
               (if String.eqb dsn "DWH_TERADATA" then "teradata" else "hive")
               period_column None None None None None)
      else
        throw (ValueError "dsn parameter should be 'DWH_TERADATA' or 'BIGDATA_CDP'.")
  | _, _, _ => throw (TypeError "All arguments must be of string type.")
  end.

Section Gateway.

(** [telefonipy.dataman]: the answer to a call, given the earlier calls. *)
Variable get_df_from_query : list call -> string -> string -> outcome Frame.
Variable run_sql_file :
  list call -> string -> string -> option bool -> option dict -> outcome pyobj.

Definition send_query (q : string) : M world Frame :=
  w <- get ;;
  emit (Query q (dsn (self w))) ;;
  lift (get_df_from_query (calls w) q (dsn (self w))).

Definition query_data (query : pyobj) : M world Frame :=
  match query with
  | PyStr q => send_query q
  | _ => throw (TypeError "The 'query' argument must be a string.")
  end.

Definition bounds_query (column sql_name : string) : string :=
  "SELECT MAX(" ++ column ++ "), MIN(" ++ column ++ ") FROM " ++ sql_name.

Definition update_periods (period_column : pyobj) : M world unit :=
  match period_column with
  | PyStr column =>
      assign (set_period_column (Some column)) ;;
      sql_name <- attr sql_name ;;
      df <- query_data (PyStr (bounds_query column sql_name)) ;;
      if empty df then
        throw (ValueError ("No data found for column '" ++ column
                           ++ "' in table '" ++ sql_name ++ "'."))
      else
        hi <- lift (iloc df 0 0) ;;
        assign (set_max_period (Some (py_str hi))) ;;
        lo <- lift (iloc df 0 1) ;;
        assign (set_min_period (Some (py_str lo)))
  | _ => throw (TypeError "'period_column' must be a string.")
  end.

Definition update_dates (date_column : pyobj) : M world unit :=
  match date_column with
  | PyStr column =>
      assign (set_date_column (Some column)) ;;
      sql_name <- attr sql_name ;;
      df <- query_data (PyStr (bounds_query column sql_name)) ;;
      if empty df then
        throw (ValueError ("No data found for column '" ++ column
                           ++ "' in table '" ++ sql_name ++ "'."))
      else
        hi <- lift (iloc df 0 0) ;;
        assign (set_max_date (Some (py_str hi))) ;;
        lo <- lift (iloc df 0 1) ;;
        assign (set_min_date (Some (py_str lo)))
  | _ => throw (TypeError "'date_column' must be a string.")
  end.

Definition compare_period (comparison_period : string) (greater max : bool)
  : M world bool :=
  match strptime comparison_period with
  | None => throw (ValueError "comparison_period must be in 'YYYY-MM-DD' format.")
  | Some candidate =>
      table_period_str <- attr (if max then max_period else min_period) ;;
      match truthy table_period_str with
      | None =>
          throw (ValueError ("The " ++ which max
                             ++ " period is not set. Please run 'update_periods' first."))
      | Some text =>
          match strptime text with
          | None =>
              throw (ValueError (which max ++ " period must be in 'YYYY-MM-DD' format."))
          | Some table_period =>
              ret (if greater then date_gt candidate table_period
                   else date_gt table_period candidate)
          end
      end
  end.

Definition compare_date (comparison_date : string) (greater max : bool)
  : M world bool :=
  match strptime comparison_date with
  | None => throw (ValueError "comparison_date must be in 'YYYY-MM-DD' format.")
  | Some candidate =>
      table_date_str <- attr (if max then max_date else min_date) ;;
      match truthy table_date_str with
      | None =>
          throw (ValueError ("The " ++ which max
                             ++ " date is not set. Please run 'update_dates' first."))
      | Some text =>
          match strptime text with
          | None => throw (ValueError (strptime_error text))
          | Some table_date =>
              ret (if greater then date_gt candidate table_date
                   else date_gt table_date candidate)
          end
      end
  end.

(** A [datetime.date], or the [datetime.datetime] at midnight of that day. *)
Inductive moment : Type :=
| ADate (d : date)
| ADatetime (d : date).

Definition get_period_datetime (max date : bool) : M world moment :=
  period <- attr (if max then max_period else min_period) ;;
  match truthy period with
  | None =>
      throw (ValueError ("The " ++ which max
                         ++ " period is not set. Please run 'update_periods' first."))
  | Some text =>
      match strptime text with
      | None => throw (ValueError "The period must be in 'YYYY-MM-DD' format.")
      | Some d => ret (if date then ADate d else ADatetime d)
      end
  end.

Definition send_script (file : string) (silent : option bool)
    (params : option dict) : M world pyobj :=
  w <- get ;;
  emit (Script file (dsn (self w)) silent params) ;;
  lift (run_sql_file (calls w) file (dsn (self w)) silent params).

Definition run_modification_script (file : pyobj) (silent : option bool)
    (params : pyobj) : M world pyobj :=
  match file with
  | PyStr path =>
      match params with
      | PyNone => send_script path silent None
      | PyDict d => send_script path silent (Some d)
      | _ => throw (TypeError "'params' argument must be a dictionary.")
      end
  | _ => throw (TypeError "'file' argument must be a string.")
  end.

Definition insert_if (period file : pyobj) (silent : option bool)
    (params : pyobj) : M world bool :=
  match period with
  | PyStr p =>
      match strptime p with
      | None => throw (ValueError "The 'period' must be in 'YYYY-MM-DD' format.")
      | Some _ =>
          required <- compare_period p true true ;;
          if required then
            run_modification_script file silent params ;;
            ret true
          else ret false
      end
  | _ => throw (TypeError "'period' argument should be a string")
  end.

Definition delete_if (period file : pyobj) (silent : option bool)
    (params : pyobj) : M world bool :=
  column <- attr period_column ;;
  match truthy column with
  | None =>
      throw (ValueError "The 'period_column' is not set. Update periods using the 'update_periods' method first.")
  | Some _ =>
      match period with
      | PyStr p =>
          match strptime p with
          | None => throw (ValueError "The 'period' must be in 'YYYY-MM-DD' format.")
          | Some _ =>
              required <- compare_period p true false ;;
              if required then
                run_modification_script file silent params ;;
                ret true
              else ret false
          end
      | _ => throw (TypeError "'period' argument should be a string")
      end
  end.

Definition nl : string := String (ascii_of_nat 10) EmptyString.

Definition get_df : M world Frame :=
  sql_name <- attr sql_name ;;
  send_query (nl ++ "            SELECT" ++ nl ++ "                *" ++ nl
              ++ "            FROM " ++ sql_name ++ nl ++ "        ").

(** [f"{self.period_column}"] *)
Definition str_opt (v : option string) : string :=
  match v with Some s => s | None => "None" end.

Definition delete_period (period deletion_file_path : string)
    (silent : option bool) : M world pyobj :=
  t <- attr (fun t => t) ;;
  let params_dict :=
    [("name", sql_name t);
     ("column", str_opt (period_column t));
     ("mes", "'" ++ period ++ "'")] in
  run_modification_script (PyStr deletion_file_path) silent (PyDict params_dict).

(** One method call on an instance. *)
Inductive operation : Type :=
| Op_query_data (query : pyobj)
| Op_update_periods (period_column : pyobj)
| Op_update_dates (date_column : pyobj)
| Op_compare_period (comparison_period : string) (greater max : bool)
| Op_compare_date (comparison_date : string) (greater max : bool)
| Op_get_period_datetime (max date : bool)
| Op_run_modification_script (file : pyobj) (silent : option bool) (params : pyobj)
| Op_insert_if (period file : pyobj) (silent : option bool) (params : pyobj)
| Op_delete_if (period file : pyobj) (silent : option bool) (params : pyobj)
| Op_get_df
| Op_delete_period (period deletion_file_path : string) (silent : option bool).

Definition discard {A} (c : M world A) : M world unit := _ <- c ;; ret tt.

(** The effect of a call on the instance and on the log, and whether it
    raised. *)
Definition perform (op : operation) : M world unit :=
  match op with
  | Op_query_data q => discard (query_data q)
  | Op_update_periods c => update_periods c
  | Op_update_dates c => update_dates c
  | Op_compare_period p g m => discard (compare_period p g m)
  | Op_compare_date p g m => discard (compare_date p g m)
  | Op_get_period_datetime m d => discard (get_period_datetime m d)
  | Op_run_modification_script f s p => discard (run_modification_script f s p)
  | Op_insert_if p f s ps => discard (insert_if p f s ps)
  | Op_delete_if p f s ps => discard (delete_if p f s ps)
  | Op_get_df => discard get_df
  | Op_delete_period p f s => discard (delete_period p f s)
  end.

(** A sequence of calls; an exception does not end the life of the
    instance, the caller may go on using it. *)
Fixpoint session (ops : list operation) (w : world) : world :=
  match ops with
  | [] => w
  | op :: rest => session rest (snd (perform op w))
  end.

End Gateway.

End Tables.

(** * process.py: the static dataframe helpers of [Process] *)

Module Process.

(** What a cell of a frame holds.  A [float64] is kept as its IEEE 754 bit
    pattern; arithmetic on floats is not interpreted (see [Section Floats]). *)
Inductive cell : Type :=
| VNone
| VBool (b : bool)
| VInt (z : Z)
| VFloat (bits : Z)
| VStr (s : string).

Definition cell_eq_dec (a b : cell) : {a = b} + {a <> b}.
Proof.
  decide equality;
    solve [apply Bool.bool_dec | apply Z.eq_dec | apply string_dec].
Defined.

(** NaN: exponent bits all set and a mantissa other than zero. *)
Definition is_nan (bits : Z) : bool :=
  (Z.land (Z.shiftr bits 52) 2047 =? 2047)
  && negb (Z.land bits (2 ^ 52 - 1) =? 0).

(** [pandas.isna] on one cell *)
Definition isna (c : cell) : bool :=
  match c with
  | VNone => true
  | VFloat bits => is_nan bits
  | _ => false
  end.

Definition Column : Type := Series cell.
Definition Frame : Type := DataFrame cell.

(** [column in df.columns] *)
Definition has_column (label : string) (df : Frame) : bool :=
  existsb (fun lc => String.eqb (fst lc) label) (columns df).

(** [df[label]], for a frame whose labels are distinct. *)
Definition getitem (label : string) : M Frame Column :=
  fun df =>
    match find (fun lc => String.eqb (fst lc) label) (columns df) with
    | Some (_, col) => (Return col, df)
    | None => (Raise (KeyError label), df)
    end.

(** [df[label] = col]: the labelled column is replaced where it stands, a
    new label is appended. *)
Definition replace_column (label : string) (col : Column)
    (cols : list (string * Column)) : list (string * Column) :=
  map (fun lc => if String.eqb (fst lc) label then (fst lc, col) else lc) cols.

Definition setitem (label : string) (col : Column) : M Frame unit :=
  modify (fun df =>
    if has_column label df
    then mkFrame (nrows df) (replace_column label col (columns df))
    else mkFrame (nrows df) (columns df ++ [(label, col)])).

(** The integers of an integer column. *)
Definition ints (col : Column) : list Z :=
  flat_map (fun c => match c with VInt z => [z] | _ => [] end) (values col).

(** [Series.min()] and [Series.max()] of an integer column; [None] is the
    NaN that pandas returns for a column without rows. *)
Definition int_min (col : Column) : option Z :=
  match ints col with
  | [] => None
  | z :: zs => Some (fold_left Z.min zs z)
  end.

Definition int_max (col : Column) : option Z :=
  match ints col with
  | [] => None
  | z :: zs => Some (fold_left Z.max zs z)
  end.

(** Comparisons with NaN are false. *)
Definition ge (v : option Z) (bound : Z) : bool :=
  match v with Some z => bound <=? z | None => false end.
Definition le (v : option Z) (bound : Z) : bool :=
  match v with Some z => z <=? bound | None => false end.

Definition bits_of (d : dtype) : Z :=
  match d with
  | int8 => 8 | int16 => 16 | int32 => 32 | _ => 64
  end.

(** Conversion of a 64-bit integer to a signed integer of [w] bits keeps the
    low [w] bits (two's complement). *)
Definition wrap (w z : Z) : Z :=
  (z + 2 ^ (w - 1)) mod 2 ^ w - 2 ^ (w - 1).

(** [Series.astype(d)], for the three targets the code uses. *)
Definition astype (d : dtype) (col : Column) : Column :=
  match d with
  | int8 | int16 | int32 | int64 =>
      mkSeries d (map (fun c => match c with
                                | VInt z => VInt (wrap (bits_of d) z)
                                | other => other
                                end) (values col))
  | _ => mkSeries d (values col)
  end.

(** What Python's [==] and [hash] know of a cell, which is how the cells of
    an [object] column are told apart: [True], [1] and [1.0] are one value,
    and so are [0.0] and [-0.0]. *)
Inductive key : Type :=
| KNull
| KNumber (z : Z)          (* a boolean, an integer, or a float equal to one *)
| KFloat (bits : Z)        (* any other float, by its bits *)
| KText (s : string).

Definition key_eq_dec (a b : key) : {a = b} + {a <> b}.
Proof.
  decide equality; solve [apply Z.eq_dec | apply string_dec].
Defined.

(** The integer that a float is equal to, if there is one: of the 64 bits,
    one of sign, eleven of exponent (biased by 1023) and 52 of fraction. *)
Definition float_integer (bits : Z) : option Z :=
  let b := bits mod 2 ^ 64 in
  let negative := Z.testbit b 63 in
  let e := Z.land (Z.shiftr b 52) 2047 in
  let m := Z.land b (2 ^ 52 - 1) in
  let signed (z : Z) := if negative then - z else z in
  if e =? 2047 then None
  else if e =? 0 then (if m =? 0 then Some 0 else None)
  else
    let significand := 2 ^ 52 + m in
    if 1075 <=? e then Some (signed (significand * 2 ^ (e - 1075)))
    else
      let k := 1075 - e in
      if (k <=? 52) && (significand mod 2 ^ k =? 0)
      then Some (signed (significand / 2 ^ k))
      else None.

Definition key_of (c : cell) : key :=
  match c with
  | VNone => KNull
  | VBool b => KNumber (if b then 1 else 0)
  | VInt z => KNumber z
  | VFloat bits =>
      match float_integer bits with
      | Some z => KNumber z
      | None => KFloat (bits mod 2 ^ 64)
      end
  | VStr s => KText s
  end.

(** [Series.nunique()]: the number of distinct values that are not null. *)
Definition nunique (col : Column) : Z :=
  Z.of_nat (List.length
              (nodup key_eq_dec
                 (map key_of (filter (fun c => negb (isna c)) (values col))))).

(** The body of the loop of [optimize_dtypes] for one label.  The quotient
    [nunique / len(df)] is below one half exactly when twice the count is
    below the length (the quotient is correctly rounded and a frame has far
    fewer than [2^53] rows). *)
Definition optimize_column (col : string) : M Frame unit :=
  s <- getitem col ;;
  if dtype_eqb (sdtype s) int64 then
    if ge (int_min s) (-32768) && le (int_max s) 32767
    then setitem col (astype int16 s)
    else setitem col (astype int32 s)
  else if dtype_eqb (sdtype s) object then
    df <- get ;;
    if len df =? 0 then throw (ZeroDivisionError "division by zero")
    else if 2 * nunique s <? len df
         then setitem col (astype category s)
         else ret tt
  else ret tt.

Fixpoint for_each {S A} (items : list A) (body : A -> M S unit) : M S unit :=
  match items with
  | [] => ret tt
  | x :: rest => body x ;; for_each rest body
  end.

(** [optimize_dtypes(df)]: the frame is the state; the object returned is
    the frame itself, that is, the final state. *)
Definition optimize_dtypes : M Frame unit :=
  df <- get ;;
  for_each (map fst (columns df)) optimize_column.

(** The nulls of a column replaced by a value, cell by cell, with the
    value stored as it is given and the dtype kept.  This is one of the
    things [Series.fillna] does, not the method itself. *)
Definition fill_cells (v : cell) (col : Column) : Column :=
  mkSeries (sdtype col) (map (fun c => if isna c then v else c) (values col)).

(** The value argument when [isinstance(value, int)] holds. *)
Definition as_int (value : pyobj) : option cell :=
  match value with
  | PyInt z => Some (VInt z)
  | PyBool b => Some (VBool b)
  | _ => None
  end.

Definition is_text (value : pyobj) (text : string) : bool :=
  match value with
  | PyStr s => String.eqb s text
  | _ => false
  end.

Section Floats.

(** Reductions of a column and the product with a factor involve floating
    point numbers; they are parameters, and may raise. *)
Variable series_max : Column -> outcome cell.
Variable series_mean : Column -> outcome cell.
Variable times : cell -> cell -> outcome cell.

(** [col.fillna(v)] is pandas' own as well: depending on the dtype of the
    column it stores the value converted, changes the dtype, or raises (a
    categorical column refuses a value that is not among its categories).
    It is a parameter, of which nothing is assumed. *)
Variable fillna : cell -> Column -> outcome Column.

(** The body of the loop of [nulls_imputation] for one label. *)
Definition impute_column (value : pyobj) (max_factor mean_factor : cell)
    (column : string) : M Frame unit :=
  df <- get ;;
  if negb (has_column column df) then
    throw (ValueError ("Column `" ++ column ++ "` does not exist in the DataFrame."))
  else
    match as_int value with
    | Some v =>
        s <- getitem column ;;
        filled <- lift (fillna v s) ;;
        setitem column filled
    | None =>
        if is_text value "max" then
          s <- getitem column ;;
          max_val <- lift (series_max s) ;;
          s' <- getitem column ;;
          v <- lift (times max_val max_factor) ;;
          filled <- lift (fillna v s') ;;
          setitem column filled
        else if is_text value "mean" then
          s <- getitem column ;;
          mean_val <- lift (series_mean s) ;;
          s' <- getitem column ;;
          v <- lift (times mean_val mean_factor) ;;
          filled <- lift (fillna v s') ;;
          setitem column filled
        else
          throw (ValueError "The `value` argument should be an integer, 'max', or 'mean'.")
    end.

(** [nulls_imputation(df, columns, value, max_factor, mean_factor)], for a
    [df] that is a DataFrame. *)
Definition nulls_imputation (columns : list string) (value : pyobj)
    (max_factor mean_factor : cell) : M Frame unit :=
  for_each columns (impute_column value max_factor mean_factor).

End Floats.

End Process.

(** * process.py: the configuration of a [Process] *)

Module ProcessConfig.

(** A value as [json.load] builds it; a float is kept as its text. *)
Unset Elimination Schemes.
Inductive jvalue : Type :=
| JNull
| JBool (b : bool)
| JInt (z : Z)
| JFloat (text : string)
| JStr (s : string)
| JList (items : list jvalue)
| JDict (items : list (string * jvalue)).
Set Elimination Schemes.

(** [type(v).__name__] *)
Definition type_name (v : jvalue) : string :=
  match v with
  | JNull => "NoneType"
  | JBool _ => "bool"
  | JInt _ => "int"
  | JFloat _ => "float"
  | JStr _ => "str"
  | JList _ => "list"
  | JDict _ => "dict"
  end.

(** What this part of the code raises. *)
Inductive fault : Type :=
| FileNotFoundError (path : string)
| ValueError (msg : string)
| AttributeError (msg : string)
| OtherError (msg : string).

Inductive attempt (A : Type) : Type :=
| Done (a : A)
| Failed (e : fault).
Arguments Done {A} a.
Arguments Failed {A} e.

(** The attributes of a [Process] that the configuration concerns. *)
Record Process : Type := mkProcess {
  base_path : string;
  parameters : jvalue;
  dsn_dwh : jvalue;
  dsn_hive : jvalue
}.

(** What opening the file and [json.load] come to. *)
Inductive reading : Type :=
| Parsed (v : jvalue)
| NoSuchFile
| Malformed (msg : string)        (* [json.JSONDecodeError], with [str(e)] *)
| Broken (msg : string).          (* any other exception *)

(** [v.get(key, default)]: only a dictionary has the method. *)
Definition py_get (v : jvalue) (key : string) (default : jvalue)
  : attempt jvalue :=
  match v with
  | JDict items =>
      match find (fun kv => String.eqb (fst kv) key) items with
      | Some (_, found) => Done found
      | None => Done default
      end
  | other =>
      Failed (AttributeError ("'" ++ type_name other
                              ++ "' object has no attribute 'get'"))
  end.

Section Files.

(** The file system and the JSON parser, and [pathlib]'s [/]. *)
Variable open_and_load : string -> reading.
Variable joinpath : string -> string -> string.

Definition _load_json (file_path : string) : attempt jvalue :=
  match open_and_load file_path with
  | Parsed v => Done v
  | NoSuchFile => Failed (FileNotFoundError file_path)
  | Malformed msg =>
      Failed (ValueError ("Invalid JSON in " ++ file_path ++ ": " ++ msg))
  | Broken msg => Failed (OtherError msg)
  end.

(** [Process.load_config]; both handlers of the [try] raise again what
    they caught. *)
Definition load_config (p : Process) : attempt unit * Process :=
  let params_path := joinpath (base_path p) "parameters_proc.json" in
  match _load_json params_path with
  | Failed e => (Failed e, p)
  | Done v =>
      let p1 := mkProcess (base_path p) v (dsn_dwh p) (dsn_hive p) in
      match py_get (parameters p1) "dsn_dwh" (JStr "DWH_TERADATA") with
      | Failed e => (Failed e, p1)
      | Done dwh =>
          let p2 := mkProcess (base_path p1) (parameters p1) dwh (dsn_hive p1) in
          match py_get (parameters p2) "dsn_hive" (JStr "BIGDATA_CDP") with
          | Failed e => (Failed e, p2)
          | Done hive =>
              (Done tt,
               mkProcess (base_path p2) (parameters p2) (dsn_dwh p2) hive)
          end
      end
  end.

End Files.

(** A configured data source name as an argument of [Table]. *)
Definition as_argument (v : jvalue) : option pyobj :=
  match v with
  | JNull => Some PyNone
  | JBool b => Some (PyBool b)
  | JInt z => Some (PyInt z)
  | JStr s => Some (PyStr s)
  | _ => None
  end.

End ProcessConfig.

(** * Vocabulary of the design document *)

Import Tables.

(** The document names the errors by role; in the code each is a
    [ValueError] told apart by the statement that raises it. *)
Definition PreconditionError : exn :=
  ValueError "The 'period_column' is not set. Update periods using the 'update_periods' method first.".

Definition BoundsNotSetError (max : bool) : exn :=
  ValueError ("The " ++ which max
              ++ " period is not set. Please run 'update_periods' first.").

(** What [compare_period] raises for a stored bound that is text but no
    calendar date; the document has no name for it. *)
Definition BoundFormatError (max : bool) : exn :=
  ValueError (which max ++ " period must be in 'YYYY-MM-DD' format.").

(** The error of [compare_period] for a stored bound that is no date. *)
Definition bound_error (max : bool) (stored : string) : exn :=
  match stored with
  | EmptyString => BoundsNotSetError max
  | String _ _ => BoundFormatError max
  end.

Definition NoDataError (column sql_name : string) : exn :=
  ValueError ("No data found for column '" ++ column
              ++ "' in table '" ++ sql_name ++ "'.").

Definition InvalidConfiguration : exn :=
  ValueError "dsn parameter should be 'DWH_TERADATA' or 'BIGDATA_CDP'.".

Definition UnknownColumnError (column : string) : exn :=
  ValueError ("Column `" ++ column ++ "` does not exist in the DataFrame.").

(** The [params] argument when it is [None] or a dictionary. *)
Definition of_params (params : option dict) : pyobj :=
  match params with
  | None => PyNone
  | Some d => PyDict d
  end.

(** The answer of the script runner as seen by a caller that discards the
    value: the exception, if any, passes through. *)
Definition then_true (r : outcome pyobj) : outcome bool :=
  match r with
  | Return _ => Return true
  | Raise e => Raise e
  end.

Definition is_script (c : call) : bool :=
  match c with Script _ _ _ _ => true | Query _ _ => false end.

(** Number of script executions in a log. *)
Definition script_runs (log : list call) : nat :=
  List.length (filter is_script log).

(** A frame whose columns all have as many cells as the index. *)
Definition well_formed {C} (df : DataFrame C) : Prop :=
  Forall (fun lc => List.length (values (snd lc)) = nrows df) (columns df).

(** The data source answers [SELECT MAX(c), MIN(c) FROM t] with a frame of
    two columns. *)
Definition two_column_answers
    (get_df_from_query : list call -> string -> string -> outcome Tables.Frame)
  : Prop :=
  forall log column sql_name dsn df,
    get_df_from_query log (bounds_query column sql_name) dsn = Return df ->
    well_formed df /\ List.length (columns df) = 2%nat.

(** The table and the log once the column is recorded and the query sent. *)
Definition asked (column : string) (w : world) : world :=
  mkWorld (set_period_column (Some column) (self w))
    (calls w ++ [Query (bounds_query column (sql_name (self w))) (dsn (self w))]).

(** The operation that refreshes the period bounds. *)
Definition is_refresh (op : operation) : bool :=
  match op with
  | Op_update_periods _ => true
  | _ => false
  end.

(** The two recognised data source names and their engines. *)
Definition engine_of (dsn : string) : option string :=
  if String.eqb dsn "DWH_TERADATA" then Some "teradata"
  else if String.eqb dsn "BIGDATA_CDP" then Some "hive"
  else None.

(** The invariant on the period bounds. *)
Definition bounds_paired (t : Table) : Prop :=
  (max_period t = None <-> min_period t = None)
  /\ (max_period t <> None -> period_column t <> None).

(** The parameter bundle of a deletion. *)
Definition deletion_bundle (t : Table) (period : string) : dict :=
  [("name", sql_name t);
   ("column", str_opt (period_column t));
   ("mes", "'" ++ period ++ "'")].

(** ** Vocabulary for the dataframe helpers *)

(** [z] is a value of the signed integers of [w] bits. *)
Definition fits (w z : Z) : bool :=
  (- 2 ^ (w - 1) <=? z) && (z <? 2 ^ (w - 1)).


(** What [optimize_dtypes] makes of one column of a frame of [n] rows. *)
Definition narrowed (n : nat) (col : Process.Column) : Process.Column :=
  if dtype_eqb (sdtype col) int64 then
    if Process.ge (Process.int_min col) (-32768)
       && Process.le (Process.int_max col) 32767
    then Process.astype int16 col
    else Process.astype int32 col
  else if dtype_eqb (sdtype col) object then
    if 2 * Process.nunique col <? Z.of_nat n
    then Process.astype category col
    else col
  else col.

Definition labels {C} (df : DataFrame C) : list string :=
  map fst (columns df).

(** ** Further vocabulary *)

(** The data source a call is addressed to. *)
Definition call_dsn (c : call) : string :=
  match c with
  | Query _ d => d
  | Script _ d _ _ => d
  end.

(** From one state to the next, nothing or one call was sent, and to the
    table's own data source. *)
Definition one_call_at_most (w w' : world) : Prop :=
  calls w' = calls w
  \/ exists c, calls w' = (calls w ++ [c])%list /\ call_dsn c = dsn (self w).

(** A [period] argument that is the text of a date. *)
Definition period_is_date (period : pyobj) : bool :=
  match period with
  | PyStr p => match strptime p with Some _ => true | None => false end
  | _ => false
  end.

(** A [params] argument that [run_modification_script] accepts. *)
Definition is_params (params : pyobj) : bool :=
  match params with
  | PyNone | PyDict _ => true
  | _ => false
  end.

(** The attributes that identify a table. *)
Definition same_identity (t t' : Table) : Prop :=
  name t' = name t /\ schema t' = schema t /\ dsn t' = dsn t
  /\ sql_name t' = sql_name t /\ motor t' = motor t.

Definition same_periods (t t' : Table) : Prop :=
  period_column t' = period_column t
  /\ max_period t' = max_period t /\ min_period t' = min_period t.

Definition same_dates (t t' : Table) : Prop :=
  date_column t' = date_column t
  /\ max_date t' = max_date t /\ min_date t' = min_date t.

(** The invariant on the date bounds. *)
Definition dates_paired (t : Table) : Prop :=
  (max_date t = None <-> min_date t = None)
  /\ (max_date t <> None -> date_column t <> None).

Definition head_is_space (s : string) : bool :=
  match s with
  | String c _ => is_space c
  | EmptyString => false
  end.

Fixpoint last_is_space (s : string) : bool :=
  match s with
  | EmptyString => false
  | String c EmptyString => is_space c
  | String _ rest => last_is_space rest
  end.

(** What one turn of the loop of [nulls_imputation] makes of the column
    it finds under the label. *)
Definition imputed
    (series_max series_mean : Process.Column -> outcome Process.cell)
    (times : Process.cell -> Process.cell -> outcome Process.cell)
    (fillna : Process.cell -> Process.Column -> outcome Process.Column)
    (value : pyobj) (max_factor mean_factor : Process.cell)
    (col : Process.Column) : outcome Process.Column :=
  match Process.as_int value with
  | Some v => fillna v col
  | None =>
      if Process.is_text value "max" then
        match series_max col with
        | Return max_val =>
            match times max_val max_factor with
            | Return v => fillna v col
            | Raise e => Raise e
            end
        | Raise e => Raise e
        end
      else if Process.is_text value "mean" then
        match series_mean col with
        | Return mean_val =>
            match times mean_val mean_factor with
            | Return v => fillna v col
            | Raise e => Raise e
            end
        | Raise e => Raise e
        end
      else
        Raise (ValueError "The `value` argument should be an integer, 'max', or 'mean'.")
  end.

(** The same, repeated. *)
Fixpoint repeatedly {A} (f : A -> outcome A) (k : nat) (a : A) : outcome A :=
  match k with
  | O => Return a
  | S k' => match f a with
            | Return a' => repeatedly f k' a'
            | Raise e => Raise e
            end
  end.

(** How many times a label is listed. *)
Fixpoint times_listed (label : string) (listed : list string) : nat :=
  match listed with
  | [] => O
  | c :: rest =>
      if String.eqb c label then S (times_listed label rest)
      else times_listed label rest
  end.

(** A labelled column and what it has become once every listed column has
    had its turn. *)
Definition column_after (f : Process.Column -> outcome Process.Column)
    (listed : list string) (lc lc' : string * Process.Column) : Prop :=
  fst lc' = fst lc
  /\ repeatedly f (times_listed (fst lc) listed) (snd lc) = Return (snd lc').

Definition is_object (col : Process.Column) : bool :=
  dtype_eqb (sdtype col) object.

(** * Fixtures: a table, data sources and frames used in examples *)

Definition ventas (column hi lo : option string) : Table :=
  mkTable "ventas" "prod" "DWH_TERADATA" "prod.ventas" "teradata"
    column hi lo None None None.

Definition fresh (t : Table) : world := mkWorld t [].

Definition quiet_runner
  : list call -> string -> string -> option bool -> option dict -> outcome pyobj :=
  fun _ _ _ _ _ => Return PyNone.

Definition answering (df : Tables.Frame)
  : list call -> string -> string -> outcome Tables.Frame :=
  fun _ _ _ => Return df.

Definition one_row (hi lo : scalar) : Tables.Frame :=
  mkFrame 1 [("Maximum(periodo)", mkSeries object [hi]);
             ("Minimum(periodo)", mkSeries object [lo])].

Definition no_rows : Tables.Frame :=
  mkFrame 0 [("Maximum(periodo)", mkSeries object []);
             ("Minimum(periodo)", mkSeries object [])].

(** A [fillna] for columns that keep what they are given. *)
Definition plain_fillna (v : Process.cell) (col : Process.Column)
  : outcome Process.Column :=
  Return (Process.fill_cells v col).

(** Integer-only stand-ins for the floating point parameters. *)
Definition int_series_max (col : Process.Column) : outcome Process.cell :=
  match Process.int_max col with
  | Some z => Return (Process.VInt z)
  | None => Return (Process.VFloat 9221120237041090560)
  end.

Definition no_mean (col : Process.Column) : outcome Process.cell :=
  Raise (TypeError "Could not convert to numeric").

Definition int_times (a b : Process.cell) : outcome Process.cell :=
  match a, b with
  | Process.VInt x, Process.VInt y => Return (Process.VInt (x * y))
  | _, _ => Raise (TypeError "unsupported operand type(s) for *")
  end.

(** A directory with one configuration file, and none. *)
Definition plain_join (dir file : string) : string := dir ++ "/" ++ file.

Definition with_file (path : string) (v : ProcessConfig.jvalue)
  : string -> ProcessConfig.reading :=
  fun asked_path =>
    if String.eqb asked_path path then ProcessConfig.Parsed v
    else ProcessConfig.NoSuchFile.

Definition no_files : string -> ProcessConfig.reading :=
  fun _ => ProcessConfig.NoSuchFile.

(** * Properties *)

(** ** Dates and parsing *)

Lemma date_gt_irrefl (d : date) : date_gt d d = false.
Proof.
  unfold date_gt.
  rewrite !Z.ltb_irrefl, !Z.eqb_refl. reflexivity.
Qed.

Lemma date_gt_asym (a b : date) : date_gt a b = true -> date_gt b a = false.
Proof.
  unfold date_gt. intros H.
  destruct (Z.ltb_spec (year b) (year a)), (Z.ltb_spec (year a) (year b)),
    (Z.eqb_spec (year a) (year b)), (Z.eqb_spec (year b) (year a)),
    (Z.ltb_spec (month b) (month a)), (Z.ltb_spec (month a) (month b)),
    (Z.eqb_spec (month a) (month b)), (Z.eqb_spec (month b) (month a)),
    (Z.ltb_spec (day b) (day a)), (Z.ltb_spec (day a) (day b));
    simpl in *; try reflexivity; try discriminate; lia.
Qed.

(** [date_gt] is the strict lexicographic order of the triples. *)
Lemma date_gt_spec (a b : date) :
  date_gt a b = true <->
  (year b < year a
   \/ (year a = year b
       /\ (month b < month a \/ (month a = month b /\ day b < day a)))).
Proof.
  unfold date_gt.
  rewrite !orb_true_iff, !andb_true_iff, !orb_true_iff, !andb_true_iff,
    !Z.ltb_lt, !Z.eqb_eq.
  tauto.
Qed.

Lemma strptime_nonempty (s : string) (d : date) :
  strptime s = Some d -> truthy (Some s) = Some s.
Proof.
  destruct s as [|c r]; [discriminate | reflexivity].
Qed.

(** ** Comparison *)

Lemma compare_period_run (w : world) (a b : string) (da db : date)
    (greater max : bool) :
  strptime a = Some da ->
  (if max then max_period (self w) else min_period (self w)) = Some b ->
  strptime b = Some db ->
  compare_period a greater max w
  = (Return (if greater then date_gt da db else date_gt db da), w).
Proof.
  intros Ha Hb Hdb.
  unfold compare_period. rewrite Ha.
  unfold bind, attr, ret.
  replace ((if max then max_period else min_period) (self w)) with (Some b)
    by (destruct max; symmetry; exact Hb).
  rewrite (strptime_nonempty _ Hdb), Hdb. reflexivity.
Qed.

(** C1.  For text [a] and a stored bound [b] that both parse as calendar
    dates, [compare_period a greater max] returns [a > b] when [greater]
    holds and [b > a] otherwise; both comparisons are strict, so equal
    dates give [False] whatever [greater] is.  The table is left as it was
    and nothing is sent to the data source. *)
Theorem compare_period_strict (w : world) (a b : string) (da db : date)
    (greater max : bool) :
  strptime a = Some da ->
  (if max then max_period (self w) else min_period (self w)) = Some b ->
  strptime b = Some db ->
  compare_period a true max w = (Return (date_gt da db), w)
  /\ compare_period a false max w = (Return (date_gt db da), w)
  /\ (da = db -> compare_period a greater max w = (Return false, w)).
Proof.
  intros Ha Hb Hdb.
  rewrite (compare_period_run w a true max Ha Hb Hdb).
  rewrite (compare_period_run w a false max Ha Hb Hdb).
  rewrite (compare_period_run w a greater max Ha Hb Hdb).
  repeat split.
  intros ->. rewrite date_gt_irrefl. destruct greater; reflexivity.
Qed.

Lemma compare_period_strict_witness :
  compare_period "2024-02-01" true true
    (fresh (ventas (Some "periodo") (Some "2024-01-01") (Some "2023-01-01")))
  = (Return true,
     fresh (ventas (Some "periodo") (Some "2024-01-01") (Some "2023-01-01"))).
Proof.
  pose proof (@compare_period_strict
    (fresh (ventas (Some "periodo") (Some "2024-01-01") (Some "2023-01-01")))
    "2024-02-01" "2024-01-01" (mkdate 2024 2 1) (mkdate 2024 1 1) true true
    eq_refl eq_refl eq_refl) as H.
  exact (proj1 H).
Defined.
Example strptime_plain : strptime "2024-02-29" = Some (mkdate 2024 2 29).
Proof. reflexivity. Qed.
Example strptime_short : strptime "2024-1-5" = Some (mkdate 2024 1 5).
Proof. reflexivity. Qed.
Example strptime_no_leap : strptime "2023-02-29" = None.
Proof. reflexivity. Qed.
Example strptime_month13 : strptime "2024-13-01" = None.
Proof. reflexivity. Qed.
Example strptime_trailing : strptime "2024-01-01 00:00:00" = None.
Proof. reflexivity. Qed.
Example strptime_year0 : strptime "0000-01-01" = None.
Proof. reflexivity. Qed.
Example strptime_none : strptime "None" = None.
Proof. reflexivity. Qed.

(** ** Conditional execution *)

Lemma script_runs_app (l : list call) (c : call) :
  script_runs (l ++ [c]) = (script_runs l + (if is_script c then 1 else 0))%nat.
Proof.
  unfold script_runs. rewrite filter_app, length_app. simpl.
  destruct (is_script c); reflexivity.
Qed.

Section Runner.

Variable run_sql_file :
  list call -> string -> string -> option bool -> option dict -> outcome pyobj.

Lemma run_modification_script_run (w : world) (file : string)
    (silent : option bool) (params : option dict) :
  run_modification_script run_sql_file (PyStr file) silent (of_params params) w
  = (run_sql_file (calls w) file (dsn (self w)) silent params,
     mkWorld (self w) (calls w ++ [Script file (dsn (self w)) silent params])).
Proof.
  destruct params; reflexivity.
Qed.

(** The whole behaviour of [insert_if] on a table whose maximum is a date. *)
Lemma insert_if_run (w : world) (p b file : string) (dp db : date)
    (silent : option bool) (params : option dict) :
  max_period (self w) = Some b ->
  strptime b = Some db ->
  strptime p = Some dp ->
  insert_if run_sql_file (PyStr p) (PyStr file) silent (of_params params) w
  = if date_gt dp db
    then (then_true (run_sql_file (calls w) file (dsn (self w)) silent params),
          mkWorld (self w) (calls w ++ [Script file (dsn (self w)) silent params]))
    else (Return false, w).
Proof.
  intros Hb Hdb Hp.
  unfold insert_if. rewrite Hp.
  unfold bind at 1.
  rewrite (@compare_period_run w p b dp db true true Hp Hb Hdb).
  destruct (date_gt dp db); [|reflexivity].
  unfold bind. rewrite run_modification_script_run.
  destruct (run_sql_file _ _ _ _ _); reflexivity.
Qed.

(** [insert_if] on a table whose maximum is text that is no date. *)
Lemma insert_if_stops (w : world) (p b file : string) (dp : date)
    (silent : option bool) (params : option dict) :
  max_period (self w) = Some b ->
  strptime b = None ->
  strptime p = Some dp ->
  insert_if run_sql_file (PyStr p) (PyStr file) silent (of_params params) w
  = (Raise (bound_error true b), w).
Proof.
  intros Hb Hn Hp.
  unfold insert_if. rewrite Hp.
  unfold bind at 1, compare_period. rewrite Hp.
  unfold bind at 1, attr. rewrite Hb.
  destruct b as [|c r]; [reflexivity|].
  cbn [truthy]. rewrite Hn. reflexivity.
Qed.

(** C2, as the code has it.  On a table whose [max_period] is set, and for
    a candidate [p] that is a date: when the stored text is a date,
    [insert_if] runs the script exactly once when [p] is strictly after
    [max_period] and then returns [True] (an exception of the script runner
    passes through); otherwise it returns [False] and runs nothing; it
    returns [True] exactly when [p] is strictly after [max_period] and the
    script runner returned.  When the stored text is no date, [insert_if]
    raises the [ValueError] of [compare_period] and runs nothing.  No
    attribute of the table, in particular no bound, is changed in any
    case. *)
Theorem insert_if_gate (w : world) (p b file : string) (dp : date)
    (silent : option bool) (params : option dict) :
  max_period (self w) = Some b ->
  strptime p = Some dp ->
  let answer := run_sql_file (calls w) file (dsn (self w)) silent params in
  let result :=
    insert_if run_sql_file (PyStr p) (PyStr file) silent (of_params params) w in
  self (snd result) = self w
  /\ (forall db, strptime b = Some db ->
      (date_gt dp db = true ->
       fst result = then_true answer
       /\ calls (snd result)
          = (calls w ++ [Script file (dsn (self w)) silent params])%list
       /\ script_runs (calls (snd result)) = S (script_runs (calls w)))
      /\ (date_gt dp db = false ->
          fst result = Return false /\ calls (snd result) = calls w)
      /\ (fst result = Return true <->
          date_gt dp db = true /\ exists v, answer = Return v))
  /\ (strptime b = None -> result = (Raise (bound_error true b), w)).
Proof.
  intros Hb Hp answer result. subst result.
  destruct (strptime b) as [db|] eqn:Hdb.
  - rewrite (@insert_if_run w p b file dp db silent params Hb Hdb Hp).
    fold answer. split; [destruct (date_gt dp db); reflexivity|].
    split; [|discriminate].
    intros db' Hdb'. inversion Hdb'; subst db'.
    destruct (date_gt dp db) eqn:Hgt; simpl.
    + split.
      * intros _. split; [reflexivity|]. split; [reflexivity|].
        rewrite script_runs_app. simpl. lia.
      * split; [discriminate|]. split.
        -- intros H. split; [reflexivity|].
           destruct answer as [v|e]; [eauto | discriminate].
        -- intros [_ [v Hv]]. rewrite Hv. reflexivity.
    + split; [discriminate|]. split.
      * intros _. split; reflexivity.
      * split; [discriminate|]. intros [H _]. discriminate.
  - rewrite (@insert_if_stops w p b file dp silent params Hb Hdb Hp).
    split; [reflexivity|]. split; [discriminate|]. reflexivity.
Qed.

End Runner.

Lemma insert_if_gate_witness :
  fst (insert_if quiet_runner (PyStr "2024-02-01") (PyStr "insert.sql") None
         PyNone (fresh (ventas None (Some "2024-01-01") (Some "2023-01-01"))))
  = Return true
  /\ script_runs
       (calls (snd (insert_if quiet_runner (PyStr "2024-02-01")
                      (PyStr "insert.sql") None PyNone
                      (fresh (ventas None (Some "2024-01-01")
                                (Some "2023-01-01"))))))
     = 1%nat.
Proof.
  destruct (@insert_if_gate quiet_runner
    (fresh (ventas None (Some "2024-01-01") (Some "2023-01-01")))
    "2024-02-01" "2024-01-01" "insert.sql" (mkdate 2024 2 1)
    None None eq_refl eq_refl) as [_ [H _]].
  destruct (H (mkdate 2024 1 1) eq_refl) as [H1 _].
  destruct (H1 eq_refl) as [Hr [_ Hn]].
  split; [exact Hr | exact Hn].
Defined.

(** The claim C2 as written fails: a refresh sets [max_period] to the text
    of an integer period, and [insert_if] then neither runs the script nor
    returns [False]: it raises. *)
Lemma insert_if_on_stored_text :
  update_periods (answering (one_row (SInt 202401) (SInt 202301)))
    (PyStr "periodo") (fresh (ventas None None None))
  = (Return tt,
     mkWorld (ventas (Some "periodo") (Some "202401") (Some "202301"))
       [Query "SELECT MAX(periodo), MIN(periodo) FROM prod.ventas" "DWH_TERADATA"])
  /\ strptime "2024-02-01" = Some (mkdate 2024 2 1)
  /\ insert_if quiet_runner (PyStr "2024-02-01") (PyStr "insert.sql") None
       PyNone
       (mkWorld (ventas (Some "periodo") (Some "202401") (Some "202301"))
          [Query "SELECT MAX(periodo), MIN(periodo) FROM prod.ventas"
             "DWH_TERADATA"])
     = (Raise (ValueError "max period must be in 'YYYY-MM-DD' format."),
        mkWorld (ventas (Some "periodo") (Some "202401") (Some "202301"))
          [Query "SELECT MAX(periodo), MIN(periodo) FROM prod.ventas"
             "DWH_TERADATA"]).
Proof. repeat split. Qed.

Section Deletion.

Variable run_sql_file :
  list call -> string -> string -> option bool -> option dict -> outcome pyobj.

(** The whole behaviour of [delete_if] for a candidate that is a date. *)
Lemma delete_if_run (w : world) (p file : string) (dp : date)
    (silent : option bool) (params : option dict) :
  strptime p = Some dp ->
  delete_if run_sql_file (PyStr p) (PyStr file) silent (of_params params) w
  = match truthy (period_column (self w)) with
    | None => (Raise PreconditionError, w)
    | Some _ =>
        match truthy (min_period (self w)) with
        | None => (Raise (BoundsNotSetError false), w)
        | Some b =>
            match strptime b with
            | None =>
                (Raise (ValueError "min period must be in 'YYYY-MM-DD' format."), w)
            | Some db =>
                if date_gt dp db
                then (then_true
                        (run_sql_file (calls w) file (dsn (self w)) silent params),
                      mkWorld (self w)
                        (calls w ++ [Script file (dsn (self w)) silent params]))
                else (Return false, w)
            end
        end
    end.
Proof.
  intros Hp.
  unfold delete_if, bind at 1, attr.
  destruct (truthy (period_column (self w))); [|reflexivity].
  rewrite Hp. unfold bind at 1, compare_period. rewrite Hp.
  unfold bind at 1, attr.
  destruct (truthy (min_period (self w))) as [b|]; [|reflexivity].
  destruct (strptime b) as [db|]; [|reflexivity].
  unfold ret. destruct (date_gt dp db); [|reflexivity].
  unfold bind. rewrite run_modification_script_run.
  destruct (run_sql_file _ _ _ _ _); reflexivity.
Qed.

End Deletion.

(** ** Bounds refresh *)

Section Refresh.

Variable get_df_from_query : list call -> string -> string -> outcome Tables.Frame.

(** The whole behaviour of [update_periods] on a column name. *)
Lemma update_periods_run (column : string) (w : world) :
  update_periods get_df_from_query (PyStr column) w
  = match get_df_from_query (calls w)
            (bounds_query column (sql_name (self w))) (dsn (self w)) with
    | Raise e => (Raise e, asked column w)
    | Return df =>
        if empty df then
          (Raise (NoDataError column (sql_name (self w))), asked column w)
        else
          match iloc df 0 0 with
          | Raise e => (Raise e, asked column w)
          | Return hi =>
              match iloc df 0 1 with
              | Raise e =>
                  (Raise e,
                   mkWorld (set_max_period (Some (py_str hi))
                              (self (asked column w)))
                     (calls (asked column w)))
              | Return lo =>
                  (Return tt,
                   mkWorld (set_min_period (Some (py_str lo))
                              (set_max_period (Some (py_str hi))
                                 (self (asked column w))))
                     (calls (asked column w)))
              end
          end
    end.
Proof.
  unfold update_periods, query_data, send_query, bind, assign, attr, get,
    modify, emit, lift, throw, asked, NoDataError.
  simpl.
  destruct (get_df_from_query _ _ _) as [df|e]; [|reflexivity].
  destruct (empty df); [reflexivity|].
  destruct (iloc df 0 0) as [hi|e]; [|reflexivity].
  destruct (iloc df 0 1) as [lo|e]; reflexivity.
Qed.

(** The same for the second pair of bounds. *)
Lemma update_dates_run (column : string) (w : world) :
  update_dates get_df_from_query (PyStr column) w
  = let t := set_date_column (Some column) (self w) in
    let log :=
      (calls w ++ [Query (bounds_query column (sql_name (self w)))
                     (dsn (self w))])%list in
    match get_df_from_query (calls w)
            (bounds_query column (sql_name (self w))) (dsn (self w)) with
    | Raise e => (Raise e, mkWorld t log)
    | Return df =>
        if empty df then
          (Raise (NoDataError column (sql_name (self w))), mkWorld t log)
        else
          match iloc df 0 0 with
          | Raise e => (Raise e, mkWorld t log)
          | Return hi =>
              match iloc df 0 1 with
              | Raise e => (Raise e, mkWorld (set_max_date (Some (py_str hi)) t) log)
              | Return lo =>
                  (Return tt,
                   mkWorld (set_min_date (Some (py_str lo))
                              (set_max_date (Some (py_str hi)) t)) log)
              end
          end
    end.
Proof.
  unfold update_dates, query_data, send_query, bind, assign, attr, get,
    modify, emit, lift, throw, NoDataError.
  simpl.
  destruct (get_df_from_query _ _ _) as [df|e]; [|reflexivity].
  destruct (empty df); [reflexivity|].
  destruct (iloc df 0 0) as [hi|e]; [|reflexivity].
  destruct (iloc df 0 1) as [lo|e]; reflexivity.
Qed.

End Refresh.

(** A frame with rows and two full columns has both cells of its first row. *)
Lemma first_row_of_two_columns {C} (df : DataFrame C) :
  well_formed df -> List.length (columns df) = 2%nat -> empty df = false ->
  exists hi lo, iloc df 0 0 = Return hi /\ iloc df 0 1 = Return lo.
Proof.
  destruct df as [n cols]. unfold well_formed, empty, iloc. simpl.
  intros Hwf Hlen Hne.
  destruct cols as [|[l0 c0] [|[l1 c1] [|]]]; try discriminate.
  destruct n as [|n]; [discriminate|].
  inversion Hwf as [|x xs H0 Hrest]; subst.
  inversion Hrest as [|y ys H1 _]; subst. simpl in *.
  destruct (values c0) as [|hi r0]; [discriminate|].
  destruct (values c1) as [|lo r1]; [discriminate|].
  exists hi, lo. split; reflexivity.
Qed.

(** ** Canonical text of a date *)

Lemma digit_digit_char (k : Z) : 0 <= k <= 9 -> digit (digit_char k) = Some k.
Proof.
  intros H.
  assert (Hk : k = 0 \/ k = 1 \/ k = 2 \/ k = 3 \/ k = 4 \/ k = 5 \/ k = 6
               \/ k = 7 \/ k = 8 \/ k = 9) by lia.
  repeat (destruct Hk as [-> | Hk]; [reflexivity|]).
  subst k. reflexivity.
Qed.

Lemma directive_Y_pad4 (y : Z) (rest : string) :
  0 <= y <= 9999 -> directive_Y (pad4 y ++ rest) = Some (y, rest).
Proof.
  intros Hy. unfold pad4, pad2, directive_Y. cbn [append].
  rewrite !digit_digit_char
    by (match goal with
        | |- 0 <= ?a mod 10 <= 9 =>
            pose proof (Z.mod_pos_bound a 10 ltac:(lia)); lia
        end).
  f_equal. f_equal.
  pose proof (Z.div_mod y 10 ltac:(lia)).
  pose proof (Z.div_mod (y / 10) 10 ltac:(lia)).
  pose proof (Z.div_mod (y / 10 / 10) 10 ltac:(lia)).
  pose proof (Z.div_mod (y / 10 / 10 / 10) 10 ltac:(lia)).
  replace (y / 100) with (y / 10 / 10) by (rewrite Z.div_div by lia; reflexivity).
  replace (y / 1000) with (y / 10 / 10 / 10)
    by (rewrite !Z.div_div by lia; reflexivity).
  assert (y / 10 / 10 / 10 / 10 = 0).
  { rewrite !Z.div_div by lia. apply Z.div_small. lia. }
  lia.
Qed.

(** After the year, the pattern reads back the month and the day that
    [isoformat] printed. *)
Lemma month_day_read_back (y m d : Z) :
  1 <= m <= 12 -> 1 <= d <= 31 ->
  first_match (directive_m (pad2 m ++ "-" ++ pad2 d)) (fun ms =>
    match expect "-" (snd ms) with
    | None => None
    | Some s4 =>
        first_match (directive_d s4) (fun ds => Some (y, fst ms, fst ds, snd ds))
    end)
  = Some (y, m, d, EmptyString).
Proof.
  intros Hm Hd.
  assert (Hm' : In m [1;2;3;4;5;6;7;8;9;10;11;12]) by (simpl; lia).
  assert (Hd' : In d [1;2;3;4;5;6;7;8;9;10;11;12;13;14;15;16;17;18;19;20;
                      21;22;23;24;25;26;27;28;29;30;31]) by (simpl; lia).
  clear Hm Hd. simpl in Hm', Hd'.
  repeat (destruct Hm' as [<- | Hm']);
    try contradiction;
    repeat (destruct Hd' as [<- | Hd']); try contradiction; reflexivity.
Qed.

(** Round trip: the canonical text of a date parses back to that date. *)
Lemma strptime_isoformat (d : date) :
  valid_date d = true -> strptime (isoformat d) = Some d.
Proof.
  intros Hv. pose proof Hv as Hv'.
  unfold valid_date in Hv'.
  rewrite !andb_true_iff, !Z.leb_le in Hv'.
  destruct Hv' as [[[[[Hy1 Hy2] Hm1] Hm2] Hd1] Hd2].
  assert (Hd3 : day d <= 31).
  { unfold days_in_month in Hd2.
    destruct (month d =? 2); [destruct (is_leap (year d)); lia|].
    destruct ((month d =? 4) || (month d =? 6) || (month d =? 9)
              || (month d =? 11)); lia. }
  unfold strptime, regex_match, isoformat.
  rewrite directive_Y_pad4 by lia.
  change (expect "-" ("-" ++ pad2 (month d) ++ "-" ++ pad2 (day d)))
    with (Some (pad2 (month d) ++ "-" ++ pad2 (day d))).
  cbv beta iota.
  rewrite month_day_read_back by lia.
  destruct d as [y m dd]. simpl in *. rewrite Hv. reflexivity.
Qed.

(** ** What a refresh stores *)

Section RefreshFacts.

Variable get_df_from_query : list call -> string -> string -> outcome Tables.Frame.

(** C5, as the code has it.  When the query answers with a frame that has a
    first row of two cells, [update_periods] and [update_dates] succeed
    whatever the two cells are and store [str] of each one, unparsed: a
    calendar date is thereby stored as its canonical text, which parses
    back to the same date, text is stored as it is, and no value makes the
    refresh fail.  A stored bound that is no date is refused later, by
    the comparison that parses it. *)
Theorem refresh_stores_printed_scalars (column : string) (w : world)
    (df : Tables.Frame) (hi lo : scalar) :
  get_df_from_query (calls w) (bounds_query column (sql_name (self w)))
    (dsn (self w)) = Return df ->
  empty df = false ->
  iloc df 0 0 = Return hi ->
  iloc df 0 1 = Return lo ->
  update_periods get_df_from_query (PyStr column) w
  = (Return tt,
     mkWorld (set_min_period (Some (py_str lo))
                (set_max_period (Some (py_str hi))
                   (set_period_column (Some column) (self w))))
       (calls (asked column w)))
  /\ update_dates get_df_from_query (PyStr column) w
     = (Return tt,
        mkWorld (set_min_date (Some (py_str lo))
                   (set_max_date (Some (py_str hi))
                      (set_date_column (Some column) (self w))))
          (calls (asked column w)))
  /\ (forall d, valid_date d = true -> strptime (py_str (SDate d)) = Some d)
  /\ (forall s, py_str (SText s) = s)
  /\ (forall (w' : world) (a : string) (da : date) (c : ascii) (r : string)
             (greater max : bool),
        strptime a = Some da ->
        (if max then max_period (self w') else min_period (self w'))
        = Some (String c r) ->
        strptime (String c r) = None ->
        compare_period a greater max w'
        = (Raise (ValueError (which max
                              ++ " period must be in 'YYYY-MM-DD' format.")),
           w')).
Proof.
  intros Hq Hne Hhi Hlo.
  rewrite update_periods_run, update_dates_run.
  cbv zeta. rewrite Hq, Hne, Hhi, Hlo.
  split; [reflexivity|]. split; [reflexivity|].
  split; [intros d Hd; apply strptime_isoformat, Hd|].
  split; [reflexivity|].
  intros w' a da c r greater max Ha Hb Hbad.
  unfold compare_period, bind, attr. rewrite Ha.
  replace ((if max then max_period else min_period) (self w'))
    with (Some (String c r)) by (destruct max; symmetry; exact Hb).
  cbn [truthy]. rewrite Hbad. reflexivity.
Qed.

(** C6, as the code has it.  When the query answers with an empty frame,
    [update_periods] raises the no-data [ValueError]; [max_period],
    [min_period] and every other attribute keep their value, except
    [period_column], which already holds the requested column.  One query
    was sent. *)
Theorem refresh_without_data (column : string) (w : world) (df : Tables.Frame) :
  get_df_from_query (calls w) (bounds_query column (sql_name (self w)))
    (dsn (self w)) = Return df ->
  empty df = true ->
  let result := update_periods get_df_from_query (PyStr column) w in
  fst result = Raise (NoDataError column (sql_name (self w)))
  /\ max_period (self (snd result)) = max_period (self w)
  /\ min_period (self (snd result)) = min_period (self w)
  /\ self (snd result) = set_period_column (Some column) (self w)
  /\ calls (snd result)
     = (calls w ++ [Query (bounds_query column (sql_name (self w)))
                      (dsn (self w))])%list.
Proof.
  intros Hq He result. subst result.
  rewrite update_periods_run, Hq, He.
  repeat split.
Qed.

End RefreshFacts.

Lemma refresh_stores_printed_scalars_witness :
  update_periods (answering (one_row (SDate (mkdate 2024 6 1)) (SText "2023-01-01")))
    (PyStr "periodo") (fresh (ventas None None None))
  = (Return tt,
     mkWorld (ventas (Some "periodo") (Some "2024-06-01") (Some "2023-01-01"))
       [Query "SELECT MAX(periodo), MIN(periodo) FROM prod.ventas" "DWH_TERADATA"]).
Proof.
  exact (proj1 (@refresh_stores_printed_scalars
    (answering (one_row (SDate (mkdate 2024 6 1)) (SText "2023-01-01")))
    "periodo" (fresh (ventas None None None))
    (one_row (SDate (mkdate 2024 6 1)) (SText "2023-01-01"))
    (SDate (mkdate 2024 6 1)) (SText "2023-01-01")
    eq_refl eq_refl eq_refl eq_refl)).
Defined.

(** The claim C5 as written fails: a refresh whose query returns a NULL and
    an integer period succeeds and stores text that is no calendar date. *)
Lemma refresh_accepts_unparsable_values :
  update_periods (answering (one_row SNull (SInt 202401)))
    (PyStr "periodo") (fresh (ventas None None None))
  = (Return tt,
     mkWorld (ventas (Some "periodo") (Some "None") (Some "202401"))
       [Query "SELECT MAX(periodo), MIN(periodo) FROM prod.ventas" "DWH_TERADATA"])
  /\ strptime "None" = None
  /\ strptime "202401" = None.
Proof. repeat split. Qed.

Lemma refresh_without_data_witness :
  fst (update_periods (answering no_rows) (PyStr "periodo")
         (fresh (ventas None (Some "2024-06-01") (Some "2023-01-01"))))
  = Raise (NoDataError "periodo" "prod.ventas")
  /\ max_period (self (snd (update_periods (answering no_rows) (PyStr "periodo")
         (fresh (ventas None (Some "2024-06-01") (Some "2023-01-01"))))))
     = Some "2024-06-01".
Proof.
  destruct (@refresh_without_data (answering no_rows) "periodo"
    (fresh (ventas None (Some "2024-06-01") (Some "2023-01-01"))) no_rows
    eq_refl eq_refl) as [Hr [Hmax _]].
  split; [exact Hr | exact Hmax].
Defined.

(** The claim C6 as written fails: after the failed refresh one attribute
    of the table differs from what it was. *)
Lemma failed_refresh_changes_period_column :
  fst (update_periods (answering no_rows) (PyStr "periodo")
         (fresh (ventas None None None)))
  = Raise (NoDataError "periodo" "prod.ventas")
  /\ period_column (self (fresh (ventas None None None))) = None
  /\ period_column
       (self (snd (update_periods (answering no_rows) (PyStr "periodo")
                     (fresh (ventas None None None)))))
     = Some "periodo"
  /\ self (snd (update_periods (answering no_rows) (PyStr "periodo")
                  (fresh (ventas None None None))))
     <> self (fresh (ventas None None None)).
Proof. repeat split. discriminate. Qed.

(** ** Which operations write the bounds *)

Lemma snd_discard {A} (c : M world A) (w : world) :
  snd (discard c w) = snd (c w).
Proof.
  unfold discard, bind, ret. destruct (c w) as [[a|e] w']; reflexivity.
Qed.

Lemma compare_period_same (a : string) (greater max : bool) (w : world) :
  snd (compare_period a greater max w) = w.
Proof.
  unfold compare_period, bind, attr, ret, throw.
  destruct (strptime a); [|reflexivity].
  destruct (truthy _) as [text|]; [|reflexivity].
  destruct (strptime text); reflexivity.
Qed.

Lemma compare_date_same (a : string) (greater max : bool) (w : world) :
  snd (compare_date a greater max w) = w.
Proof.
  unfold compare_date, bind, attr, ret, throw.
  destruct (strptime a); [|reflexivity].
  destruct (truthy _) as [text|]; [|reflexivity].
  destruct (strptime text); reflexivity.
Qed.

Lemma get_period_datetime_same (max date : bool) (w : world) :
  snd (get_period_datetime max date w) = w.
Proof.
  unfold get_period_datetime, bind, attr, ret, throw.
  destruct (truthy _) as [text|]; [|reflexivity].
  destruct (strptime text); reflexivity.
Qed.

Section Frame.

Variable get_df_from_query : list call -> string -> string -> outcome Tables.Frame.
Variable run_sql_file :
  list call -> string -> string -> option bool -> option dict -> outcome pyobj.

Lemma send_query_self (q : string) (w : world) :
  self (snd (send_query get_df_from_query q w)) = self w.
Proof.
  reflexivity.
Qed.

Lemma query_data_self (q : pyobj) (w : world) :
  self (snd (query_data get_df_from_query q w)) = self w.
Proof.
  destruct q; reflexivity.
Qed.

Lemma send_script_self (file : string) (silent : option bool)
    (params : option dict) (w : world) :
  self (snd (send_script run_sql_file file silent params w)) = self w.
Proof.
  reflexivity.
Qed.

Lemma run_modification_script_self (file : pyobj) (silent : option bool)
    (params : pyobj) (w : world) :
  self (snd (run_modification_script run_sql_file file silent params w)) = self w.
Proof.
  destruct file; try reflexivity.
  destruct params; reflexivity.
Qed.

(** A comparison followed, when it says so, by one script execution. *)
Lemma gated_script_self (cmp : M world bool) (file : pyobj)
    (silent : option bool) (params : pyobj) (w : world) :
  snd (cmp w) = w ->
  self (snd ((required <- cmp ;;
              if required
              then run_modification_script run_sql_file file silent params ;;
                   ret true
              else ret false) w)) = self w.
Proof.
  intros Hc. unfold bind at 1.
  destruct (cmp w) as [[[|]|e] w']; simpl in Hc; subst w'; try reflexivity.
  unfold bind, ret.
  pose proof (run_modification_script_self file silent params w) as H.
  destruct (run_modification_script _ _ _ _ _) as [[v|e] w']; exact H.
Qed.

Lemma insert_if_self (period file : pyobj) (silent : option bool)
    (params : pyobj) (w : world) :
  self (snd (insert_if run_sql_file period file silent params w)) = self w.
Proof.
  unfold insert_if.
  destruct period as [| | |p|]; try reflexivity.
  destruct (strptime p); [|reflexivity].
  apply gated_script_self, compare_period_same.
Qed.

Lemma delete_if_self (period file : pyobj) (silent : option bool)
    (params : pyobj) (w : world) :
  self (snd (delete_if run_sql_file period file silent params w)) = self w.
Proof.
  unfold delete_if, bind at 1, attr.
  destruct (truthy _); [|reflexivity].
  destruct period as [| | |p|]; try reflexivity.
  destruct (strptime p); [|reflexivity].
  apply gated_script_self, compare_period_same.
Qed.

Lemma get_df_self (w : world) :
  self (snd (get_df get_df_from_query w)) = self w.
Proof.
  unfold get_df, bind at 1, attr. apply send_query_self.
Qed.

Lemma delete_period_self (period file : string) (silent : option bool)
    (w : world) :
  self (snd (delete_period run_sql_file period file silent w)) = self w.
Proof.
  unfold delete_period, bind at 1, attr.
  apply (run_modification_script_self (PyStr file) silent (PyDict _) w).
Qed.

(** [update_dates] writes the other pair only. *)
Lemma update_dates_periods (column : pyobj) (w : world) :
  let t := self (snd (update_dates get_df_from_query column w)) in
  period_column t = period_column (self w)
  /\ max_period t = max_period (self w)
  /\ min_period t = min_period (self w).
Proof.
  destruct column as [| | |c|]; try (repeat split; fail).
  cbv zeta. rewrite update_dates_run. cbv zeta.
  destruct (get_df_from_query _ _ _) as [df|e]; [|repeat split].
  destruct (empty df); [repeat split|].
  destruct (iloc df 0 0) as [hi|e]; [|repeat split].
  destruct (iloc df 0 1) as [lo|e]; repeat split.
Qed.

(** Every operation but [update_periods] leaves [period_column] and both
    period bounds as they were. *)
Lemma perform_keeps_periods (op : operation) (w : world) :
  (forall c, op <> Op_update_periods c) ->
  let t := self (snd (perform get_df_from_query run_sql_file op w)) in
  period_column t = period_column (self w)
  /\ max_period t = max_period (self w)
  /\ min_period t = min_period (self w).
Proof.
  intros Hop. cbv zeta.
  destruct op; simpl perform; rewrite ?snd_discard;
    rewrite ?query_data_self, ?compare_period_same, ?compare_date_same,
      ?get_period_datetime_same, ?run_modification_script_self,
      ?insert_if_self, ?delete_if_self, ?get_df_self, ?delete_period_self;
    try (repeat split; fail).
  - exfalso. eapply Hop. reflexivity.
  - apply update_dates_periods.
Qed.

(** When the data source answers the bounds query with two columns,
    [update_periods] either leaves both bounds alone or writes both, and
    [period_column] is set by then. *)
Lemma update_periods_writes_both (column : pyobj) (w : world) :
  two_column_answers get_df_from_query ->
  let result := update_periods get_df_from_query column w in
  (max_period (self (snd result)) = max_period (self w)
   /\ min_period (self (snd result)) = min_period (self w)
   /\ (period_column (self (snd result)) = period_column (self w)
       \/ exists c, period_column (self (snd result)) = Some c))
  \/ (exists c hi lo,
        column = PyStr c /\ fst result = Return tt
        /\ max_period (self (snd result)) = Some hi
        /\ min_period (self (snd result)) = Some lo
        /\ period_column (self (snd result)) = Some c).
Proof.
  intros Hgw. cbv zeta.
  destruct column as [| | |c|]; try (left; repeat split; left; reflexivity).
  rewrite update_periods_run.
  destruct (get_df_from_query _ _ _) as [df|e] eqn:Hq;
    [|left; repeat split; right; eexists; reflexivity].
  destruct (empty df) eqn:He;
    [left; repeat split; right; eexists; reflexivity|].
  destruct (Hgw _ _ _ _ _ Hq) as [Hwf Hlen].
  destruct (first_row_of_two_columns Hwf Hlen He) as [hi [lo [Hhi Hlo]]].
  rewrite Hhi, Hlo.
  right. exists c, (py_str hi), (py_str lo). repeat split.
Qed.

End Frame.

Section Invariant.

Variable get_df_from_query : list call -> string -> string -> outcome Tables.Frame.
Variable run_sql_file :
  list call -> string -> string -> option bool -> option dict -> outcome pyobj.
Hypothesis two_columns : two_column_answers get_df_from_query.

Lemma perform_step (op : operation) (w : world) :
  let t := self (snd (perform get_df_from_query run_sql_file op w)) in
  (max_period t = max_period (self w)
   /\ min_period t = min_period (self w)
   /\ (period_column t = period_column (self w)
       \/ exists c, period_column t = Some c))
  \/ (exists c hi lo,
        op = Op_update_periods (PyStr c)
        /\ max_period t = Some hi /\ min_period t = Some lo
        /\ period_column t = Some c).
Proof.
  cbv zeta.
  destruct op as [q|c|c|p g m|p g m|m d|f s ps|p f s ps|p f s ps| |p f s];
    try (left;
         match goal with
         | |- context [perform _ _ ?o _] =>
             destruct (@perform_keeps_periods get_df_from_query run_sql_file
                         o w ltac:(intros ? ?; discriminate)) as [Hc [Hmax Hmin]]
         end;
         repeat split; [exact Hmax | exact Hmin | left; exact Hc]).
  simpl perform.
  destruct (update_periods_writes_both c w two_columns)
    as [H | [col [hi [lo [-> [_ [Hmax [Hmin Hc]]]]]]]].
  - left. exact H.
  - right. exists col, hi, lo. repeat split; assumption.
Qed.

Lemma perform_keeps_paired (op : operation) (w : world) :
  bounds_paired (self w) ->
  bounds_paired (self (snd (perform get_df_from_query run_sql_file op w))).
Proof.
  intros [Hpair Hcol].
  destruct (perform_step op w)
    as [[Hmax [Hmin Hc]] | [c [hi [lo [_ [Hmax [Hmin Hc]]]]]]];
    unfold bounds_paired; rewrite Hmax, Hmin.
  - split; [exact Hpair|].
    intros Hset. destruct Hc as [Hc | [c Hc]]; rewrite Hc.
    + apply Hcol, Hset.
    + discriminate.
  - rewrite Hc. split; [split; discriminate | discriminate].
Qed.

(** C8.  Provided the data source answers the bounds query with two
    columns: a new table has neither period bound; every operation either
    leaves [max_period] and [min_period] both untouched, or it is
    [update_periods], it assigned both, and [period_column] is set; hence,
    through any sequence of operations, one bound is set exactly when the
    other is, and only on a table whose [period_column] is set. *)
Theorem bounds_assigned_together :
  (forall n s d column log t log',
      __init__ n s d column log = (Return t, log') ->
      bounds_paired t /\ max_period t = None /\ min_period t = None)
  /\ (forall op w,
        let t := self (snd (perform get_df_from_query run_sql_file op w)) in
        (max_period t = max_period (self w)
         /\ min_period t = min_period (self w))
        \/ (exists c hi lo,
              op = Op_update_periods (PyStr c)
              /\ max_period t = Some hi /\ min_period t = Some lo
              /\ period_column t = Some c))
  /\ (forall ops w,
        bounds_paired (self w) ->
        bounds_paired (self (session get_df_from_query run_sql_file ops w))).
Proof.
  split; [|split].
  - intros n s d column log t log' H.
    unfold __init__ in H.
    destruct n as [| | |n|]; try discriminate.
    destruct s as [| | |s|]; try discriminate.
    destruct d as [| | |d|]; try discriminate.
    destruct (_ || _); [|discriminate].
    inversion H; subst. unfold bounds_paired. simpl.
    repeat split; congruence.
  - intros op w. cbv zeta.
    destruct (perform_step op w) as [[Hmax [Hmin _]] | H].
    + left. split; assumption.
    + right. exact H.
  - induction ops as [|op ops IH]; intros w Hw; simpl.
    + exact Hw.
    + apply IH, perform_keeps_paired, Hw.
Qed.

End Invariant.

Lemma answering_two_columns (hi lo : scalar) :
  two_column_answers (answering (one_row hi lo)).
Proof.
  intros log column sqln d df H. unfold answering in H.
  inversion H; subst. split; [repeat constructor | reflexivity].
Qed.

Lemma bounds_assigned_together_witness :
  bounds_paired
    (self (session (answering (one_row (SText "2024-06-01") (SText "2023-01-01")))
             quiet_runner
             [Op_update_periods (PyStr "periodo");
              Op_insert_if (PyStr "2024-07-01") (PyStr "insert.sql") None PyNone]
             (fresh (ventas None None None)))).
Proof.
  apply (proj2 (proj2 (@bounds_assigned_together
    (answering (one_row (SText "2024-06-01") (SText "2023-01-01"))) quiet_runner
    (@answering_two_columns (SText "2024-06-01") (SText "2023-01-01"))))).
  unfold bounds_paired. simpl. split; [split; reflexivity | congruence].
Defined.

(** ** Deletion before and after a refresh *)

Section DeletionFacts.

Variable get_df_from_query : list call -> string -> string -> outcome Tables.Frame.
Variable run_sql_file :
  list call -> string -> string -> option bool -> option dict -> outcome pyobj.

Lemma session_without_refresh (ops : list operation) (w : world) :
  forallb (fun op => negb (is_refresh op)) ops = true ->
  let t := self (session get_df_from_query run_sql_file ops w) in
  period_column t = period_column (self w)
  /\ max_period t = max_period (self w)
  /\ min_period t = min_period (self w).
Proof.
  revert w. induction ops as [|op ops IH]; intros w Hops; simpl.
  - repeat split.
  - simpl in Hops. apply andb_true_iff in Hops. destruct Hops as [Hop Hops].
    destruct (IH (snd (perform get_df_from_query run_sql_file op w)) Hops)
      as [Hc [Hmax Hmin]].
    destruct (@perform_keeps_periods get_df_from_query run_sql_file op w)
      as [Hc' [Hmax' Hmin']].
    { intros c ->. discriminate. }
    rewrite Hc, Hmax, Hmin. repeat split; assumption.
Qed.

Lemma init_fields (n s d : pyobj) (column : option string)
    (log log' : list call) (t : Table) :
  __init__ n s d column log = (Return t, log') ->
  period_column t = column /\ max_period t = None /\ min_period t = None
  /\ log' = log.
Proof.
  unfold __init__. intros H.
  destruct n as [| | |n|]; try discriminate.
  destruct s as [| | |s|]; try discriminate.
  destruct d as [| | |d|]; try discriminate.
  destruct (_ || _); [|discriminate].
  inversion H; subst. repeat split.
Qed.

(** What a successful refresh leaves in the table. *)
Lemma refreshed_fields (column : string) (w0 w : world) :
  update_periods get_df_from_query (PyStr column) w0 = (Return tt, w) ->
  period_column (self w) = Some column
  /\ (exists b, max_period (self w) = Some b)
  /\ (exists b, min_period (self w) = Some b).
Proof.
  intros Hup. rewrite update_periods_run in Hup.
  destruct (get_df_from_query _ _ _) as [df|e]; [|discriminate].
  destruct (empty df); [discriminate|].
  destruct (iloc df 0 0) as [hi|]; [|discriminate].
  destruct (iloc df 0 1) as [lo|]; [|discriminate].
  inversion Hup; subst. simpl. split; [reflexivity|]. split; eauto.
Qed.

(** C3, as the code has it.  For a candidate that is a date: on a table
    that was constructed and then used without any [update_periods],
    [delete_if] raises a [ValueError] and runs nothing; the error is the one
    about [period_column] when no (or an empty) column was given at
    construction, and the one [compare_period] raises for an unset minimum
    when a column was given.  A successful [update_periods] stores the
    column name and some text as the minimum.  After it, [delete_if] raises
    the error about [period_column] when the name is empty, and the
    [ValueError] of [compare_period] when the stored minimum is no date;
    when the name is not empty and the minimum is a date, it returns [True]
    exactly when the minimum is strictly before the candidate and the
    script runner returned, and [False] when the minimum is not before the
    candidate. *)
Theorem delete_if_around_refresh (p file : string) (dp : date)
    (silent : option bool) (params : option dict) :
  strptime p = Some dp ->
  (forall n s d column log t log' ops,
      __init__ n s d column log = (Return t, log') ->
      forallb (fun op => negb (is_refresh op)) ops = true ->
      let w := session get_df_from_query run_sql_file ops (mkWorld t log') in
      delete_if run_sql_file (PyStr p) (PyStr file) silent (of_params params) w
      = (Raise (match truthy column with
                | None => PreconditionError
                | Some _ => BoundsNotSetError false
                end), w))
  /\ (forall column w0 w,
        update_periods get_df_from_query (PyStr column) w0 = (Return tt, w) ->
        let answer := run_sql_file (calls w) file (dsn (self w)) silent params in
        let result :=
          delete_if run_sql_file (PyStr p) (PyStr file) silent
            (of_params params) w in
        (exists b, min_period (self w) = Some b)
        /\ (column = EmptyString -> result = (Raise PreconditionError, w))
        /\ (forall b,
              column <> EmptyString ->
              min_period (self w) = Some b ->
              (strptime b = None ->
               result = (Raise (bound_error false b), w))
              /\ (forall db,
                    strptime b = Some db ->
                    (fst result = Return true <->
                     date_gt dp db = true /\ exists v, answer = Return v)
                    /\ (date_gt dp db = false -> result = (Return false, w))
                    /\ (date_gt dp db = true ->
                        fst result = then_true answer)))).
Proof.
  intros Hp. split.
  - intros n s d column log t log' ops Hinit Hops w.
    destruct (init_fields _ _ _ _ _ Hinit) as [Hc [_ [Hmin _]]].
    destruct (@session_without_refresh ops (mkWorld t log') Hops)
      as [Hc' [_ Hmin']].
    fold w in Hc', Hmin'. simpl in Hc', Hmin'.
    rewrite (@delete_if_run run_sql_file w p file dp silent params Hp).
    rewrite Hc', Hc, Hmin', Hmin.
    destruct (truthy column); reflexivity.
  - intros column w0 w Hup answer result.
    destruct (@refreshed_fields column w0 w Hup) as [Hcol [_ Hsome]].
    subst result.
    rewrite (@delete_if_run run_sql_file w p file dp silent params Hp).
    rewrite Hcol. fold answer.
    split; [exact Hsome|]. split.
    + intros ->. reflexivity.
    + intros b Hne Hmin.
      destruct column as [|c0 cs]; [congruence|]. cbn [truthy].
      rewrite Hmin. split.
      * intros Hn. destruct b as [|c r]; [reflexivity|].
        cbn [truthy]. rewrite Hn. reflexivity.
      * intros db Hdb. rewrite (strptime_nonempty _ Hdb), Hdb.
        destruct (date_gt dp db); simpl.
        -- split; [|split].
           ++ split.
              ** intros H. split; [reflexivity|].
                 destruct answer as [v|e]; [eauto | discriminate].
              ** intros [_ [v Hv]]. rewrite Hv. reflexivity.
           ++ discriminate.
           ++ reflexivity.
        -- split; [|split].
           ++ split; [discriminate | intros [H _]; discriminate].
           ++ reflexivity.
           ++ discriminate.
Qed.

(** C4, as the code has it.  On a table with a column name and a minimum
    that is a date, [delete_if] runs the script, when the deletion is
    required, with the file, the [silent] flag and the [params] it was
    given, unchanged, and returns [True]; otherwise it returns [False] and
    runs nothing.  The bundle made of the qualified name, the period column
    and the quoted period is what [delete_period] sends, unconditionally. *)
Theorem delete_if_forwards_params (w : world) (p b file : string) (dp db : date)
    (silent : option bool) (params : option dict) :
  strptime p = Some dp ->
  truthy (period_column (self w)) <> None ->
  min_period (self w) = Some b ->
  strptime b = Some db ->
  delete_if run_sql_file (PyStr p) (PyStr file) silent (of_params params) w
  = (if date_gt dp db
     then (then_true (run_sql_file (calls w) file (dsn (self w)) silent params),
           mkWorld (self w)
             (calls w ++ [Script file (dsn (self w)) silent params]))
     else (Return false, w))
  /\ delete_period run_sql_file p file silent w
     = (run_sql_file (calls w) file (dsn (self w)) silent
          (Some (deletion_bundle (self w) p)),
        mkWorld (self w)
          (calls w ++ [Script file (dsn (self w)) silent
                         (Some (deletion_bundle (self w) p))])).
Proof.
  intros Hp Hc Hmin Hdb. split.
  - rewrite (@delete_if_run run_sql_file w p file dp silent params Hp).
    destruct (truthy (period_column (self w))); [|congruence].
    rewrite Hmin, (strptime_nonempty _ Hdb), Hdb. reflexivity.
  - reflexivity.
Qed.

End DeletionFacts.

Lemma delete_if_around_refresh_witness :
  delete_if quiet_runner (PyStr "2024-03-01") (PyStr "delete.sql") None PyNone
    (fresh (ventas None None None))
  = (Raise PreconditionError, fresh (ventas None None None))
  /\ (fst (delete_if quiet_runner (PyStr "2024-03-01") (PyStr "delete.sql") None
             PyNone
             (mkWorld (ventas (Some "periodo") (Some "2024-06-01")
                         (Some "2024-01-01"))
                [Query "SELECT MAX(periodo), MIN(periodo) FROM prod.ventas"
                   "DWH_TERADATA"]))
      = Return true <->
      date_gt (mkdate 2024 3 1) (mkdate 2024 1 1) = true
      /\ exists v, quiet_runner
                     [Query "SELECT MAX(periodo), MIN(periodo) FROM prod.ventas"
                        "DWH_TERADATA"]
                     "delete.sql" "DWH_TERADATA" None None = Return v).
Proof.
  destruct (@delete_if_around_refresh
    (answering (one_row (SText "2024-06-01") (SText "2024-01-01")))
    quiet_runner "2024-03-01" "delete.sql" (mkdate 2024 3 1) None None eq_refl)
    as [Hbefore Hafter].
  split.
  - exact (Hbefore (PyStr "ventas") (PyStr "prod") (PyStr "DWH_TERADATA") None
             [] (ventas None None None) [] [] eq_refl eq_refl).
  - exact (proj1 (proj2 (proj2 (proj2
             (Hafter "periodo" (fresh (ventas None None None))
                (mkWorld (ventas (Some "periodo") (Some "2024-06-01")
                            (Some "2024-01-01"))
                   [Query "SELECT MAX(periodo), MIN(periodo) FROM prod.ventas"
                      "DWH_TERADATA"])
                eq_refl))
             "2024-01-01" ltac:(discriminate) eq_refl)
             (mkdate 2024 1 1) eq_refl)).
Defined.

(** The claim C3 as written fails: with a period column given at
    construction and no refresh, [delete_if] passes its own check and the
    error is the one of [compare_period], not the one about [period_column]. *)
Lemma delete_if_with_constructor_column :
  __init__ (PyStr "ventas") (PyStr "prod") (PyStr "DWH_TERADATA")
    (Some "periodo") []
  = (Return (ventas (Some "periodo") None None), [])
  /\ fst (delete_if quiet_runner (PyStr "2024-03-01") (PyStr "delete.sql") None
            PyNone (fresh (ventas (Some "periodo") None None)))
     = Raise (ValueError "The min period is not set. Please run 'update_periods' first.")
  /\ fst (delete_if quiet_runner (PyStr "2024-03-01") (PyStr "delete.sql") None
            PyNone (fresh (ventas (Some "periodo") None None)))
     <> Raise PreconditionError.
Proof. repeat split. discriminate. Qed.

Lemma delete_if_forwards_params_witness :
  delete_if quiet_runner (PyStr "2024-03-01") (PyStr "delete.sql") None
    (PyDict [("tabla", "prod.ventas")])
    (fresh (ventas (Some "periodo") (Some "2024-06-01") (Some "2024-01-01")))
  = (Return true,
     mkWorld (ventas (Some "periodo") (Some "2024-06-01") (Some "2024-01-01"))
       [Script "delete.sql" "DWH_TERADATA" None (Some [("tabla", "prod.ventas")])]).
Proof.
  exact (proj1 (@delete_if_forwards_params quiet_runner
    (fresh (ventas (Some "periodo") (Some "2024-06-01") (Some "2024-01-01")))
    "2024-03-01" "2024-01-01" "delete.sql" (mkdate 2024 3 1) (mkdate 2024 1 1)
    None (Some [("tabla", "prod.ventas")])
    eq_refl ltac:(discriminate) eq_refl eq_refl)).
Defined.

(** The claim C4 as written fails: the script of a required deletion is run
    without the bundle of qualified name, period column and period. *)
Lemma delete_if_sends_no_bundle :
  delete_if quiet_runner (PyStr "2024-03-01") (PyStr "delete.sql") None PyNone
    (fresh (ventas (Some "periodo") (Some "2024-06-01") (Some "2024-01-01")))
  = (Return true,
     mkWorld (ventas (Some "periodo") (Some "2024-06-01") (Some "2024-01-01"))
       [Script "delete.sql" "DWH_TERADATA" None None])
  /\ deletion_bundle
       (ventas (Some "periodo") (Some "2024-06-01") (Some "2024-01-01"))
       "2024-03-01"
     = [("name", "prod.ventas"); ("column", "periodo"); ("mes", "'2024-03-01'")]
  /\ Script "delete.sql" "DWH_TERADATA" None None
     <> Script "delete.sql" "DWH_TERADATA" None
          (Some (deletion_bundle
                   (ventas (Some "periodo") (Some "2024-06-01")
                      (Some "2024-01-01"))
                   "2024-03-01")).
Proof. repeat split. discriminate. Qed.

(** ** Construction *)

Lemma engine_of_cases (d : string) :
  (d = "DWH_TERADATA" /\ engine_of d = Some "teradata")
  \/ (d = "BIGDATA_CDP" /\ engine_of d = Some "hive")
  \/ (d <> "DWH_TERADATA" /\ d <> "BIGDATA_CDP" /\ engine_of d = None).
Proof.
  unfold engine_of.
  destruct (String.eqb_spec d "DWH_TERADATA") as [->|H1]; [left; split; reflexivity|].
  destruct (String.eqb_spec d "BIGDATA_CDP") as [->|H2];
    [right; left; split; reflexivity|].
  right; right. repeat split; assumption.
Qed.

(** C7, as the code has it.  Construction raises the configuration
    [ValueError] exactly when the three arguments are strings and the data
    source name is neither of the two recognised ones, and a [TypeError]
    when one of them is not a string.  Otherwise it succeeds, also for a
    name or schema that is empty or blank: name and schema are stored
    trimmed, the qualified name is the stored schema, a dot and the stored
    name, the engine is the one mapped to the data source name, both pairs
    of bounds are unset.  Nothing is sent to the data source. *)
Theorem construction_contract (n s d : string) (column : option string)
    (log : list call) :
  (d <> "DWH_TERADATA" -> d <> "BIGDATA_CDP" ->
   __init__ (PyStr n) (PyStr s) (PyStr d) column log
   = (Raise InvalidConfiguration, log))
  /\ (forall engine,
        engine_of d = Some engine ->
        exists t,
          __init__ (PyStr n) (PyStr s) (PyStr d) column log = (Return t, log)
          /\ name t = strip n /\ schema t = strip s /\ dsn t = d
          /\ sql_name t = schema t ++ "." ++ name t
          /\ motor t = engine
          /\ period_column t = column
          /\ max_period t = None /\ min_period t = None
          /\ date_column t = None /\ max_date t = None /\ min_date t = None)
  /\ (forall a b c,
        is_str a && is_str b && is_str c = false ->
        __init__ a b c column log
        = (Raise (TypeError "All arguments must be of string type."), log))
  /\ (engine_of d = Some "teradata" <-> d = "DWH_TERADATA")
  /\ (engine_of d = Some "hive" <-> d = "BIGDATA_CDP").
Proof.
  split; [|split; [|split; [|split]]].
  - intros H1 H2. unfold __init__.
    apply String.eqb_neq in H1, H2. rewrite H1, H2. reflexivity.
  - intros engine H. unfold __init__.
    destruct (engine_of_cases d) as [[-> H']|[[-> H']|[_ [_ H']]]];
      rewrite H' in H; inversion H; subst;
      (eexists; split; [reflexivity|]); repeat split.
  - intros a b c H. unfold __init__.
    destruct a, b, c; try reflexivity; discriminate.
  - destruct (engine_of_cases d) as [[-> H']|[[-> H']|[H1 [H2 H']]]];
      rewrite H'; split; intros H; try reflexivity; try discriminate;
      congruence.
  - destruct (engine_of_cases d) as [[-> H']|[[-> H']|[H1 [H2 H']]]];
      rewrite H'; split; intros H; try reflexivity; try discriminate;
      congruence.
Qed.

Lemma construction_contract_witness :
  __init__ (PyStr "ventas") (PyStr "prod") (PyStr "UNKNOWN") None []
  = (Raise InvalidConfiguration, [])
  /\ exists t,
       __init__ (PyStr " ventas ") (PyStr "prod") (PyStr "BIGDATA_CDP") None []
       = (Return t, [])
       /\ sql_name t = "prod.ventas" /\ motor t = "hive".
Proof.
  split.
  - exact (proj1 (@construction_contract "ventas" "prod" "UNKNOWN" None [])
             ltac:(discriminate) ltac:(discriminate)).
  - destruct (proj1 (proj2 (@construction_contract " ventas " "prod"
                              "BIGDATA_CDP" None [])) "hive" eq_refl)
      as [t [Ht [Hn [Hs [_ [Hq [Hm _]]]]]]].
    exists t. split; [exact Ht|]. split; [|exact Hm].
    rewrite Hq, Hs, Hn. reflexivity.
Defined.

(** The claim C7 as written fails: an empty name and a blank schema are
    accepted. *)
Lemma construction_accepts_blank_names :
  strip EmptyString = EmptyString /\ strip "   " = EmptyString
  /\ __init__ (PyStr EmptyString) (PyStr "   ") (PyStr "BIGDATA_CDP") None []
     = (Return (mkTable EmptyString EmptyString "BIGDATA_CDP" "." "hive"
                  None None None None None None), []).
Proof. repeat split. Qed.

(** * process.py *)

Import Process.

Unset Implicit Arguments.

(** ** Loops and labelled columns *)

Lemma for_each_app {S A} (xs ys : list A) (body : A -> M S unit) (s : S) :
  for_each (xs ++ ys) body s
  = match for_each xs body s with
    | (Return _, s') => for_each ys body s'
    | (Raise e, s') => (Raise e, s')
    end.
Proof.
  revert s. induction xs as [|x xs IH]; intros s; simpl.
  - reflexivity.
  - unfold bind. destruct (body x s) as [[[]|e] s']; [apply IH | reflexivity].
Qed.

Lemma find_label_skip (label : string) (before after : list (string * Column)) :
  ~ In label (map fst before) ->
  find (fun lc => String.eqb (fst lc) label) (before ++ after)
  = find (fun lc => String.eqb (fst lc) label) after.
Proof.
  induction before as [|[l c] before IH]; intros Hn; simpl.
  - reflexivity.
  - simpl in Hn.
    destruct (String.eqb_spec l label) as [->|Hne]; [tauto|].
    apply IH. tauto.
Qed.

Lemma replace_column_absent (label : string) (col : Column)
    (cols : list (string * Column)) :
  ~ In label (map fst cols) -> replace_column label col cols = cols.
Proof.
  induction cols as [|[l c] cols IH]; intros Hn; simpl.
  - reflexivity.
  - simpl in Hn.
    destruct (String.eqb_spec l label) as [->|Hne]; [tauto|].
    f_equal. apply IH. tauto.
Qed.

Lemma has_column_in (label : string) (df : Frame) :
  has_column label df = true <-> In label (labels df).
Proof.
  unfold has_column, labels. rewrite existsb_exists. split.
  - intros [[l c] [Hin Heq]]. apply String.eqb_eq in Heq. simpl in Heq. subst l.
    apply (in_map fst) in Hin. exact Hin.
  - intros Hin. apply in_map_iff in Hin. destruct Hin as [[l c] [Heq Hin]].
    simpl in Heq. subst l. exists (label, c). split; [exact Hin|].
    apply String.eqb_refl.
Qed.

Lemma replace_column_labels (label : string) (col : Column)
    (cols : list (string * Column)) :
  map fst (replace_column label col cols) = map fst cols.
Proof.
  induction cols as [|[l c] cols IH]; simpl; [reflexivity|].
  destruct (String.eqb l label); simpl; f_equal; exact IH.
Qed.

(** Reading and then replacing the column of a label that occurs once. *)
Lemma getitem_at (n : nat) (label : string) (col : Column)
    (before after : list (string * Column)) :
  ~ In label (map fst before) ->
  getitem label (mkFrame n (before ++ (label, col) :: after))
  = (Return col, mkFrame n (before ++ (label, col) :: after)).
Proof.
  intros Hb. unfold getitem. simpl.
  rewrite (find_label_skip _ _ _ Hb). simpl.
  rewrite String.eqb_refl. reflexivity.
Qed.

Lemma setitem_at (n : nat) (label : string) (col col' : Column)
    (before after : list (string * Column)) :
  ~ In label (map fst before) ->
  ~ In label (map fst after) ->
  setitem label col' (mkFrame n (before ++ (label, col) :: after))
  = (Return tt, mkFrame n (before ++ (label, col') :: after)).
Proof.
  intros Hb Ha. unfold setitem, modify.
  assert (Hin : has_column label (mkFrame n (before ++ (label, col) :: after))
                = true).
  { apply has_column_in. unfold labels. simpl.
    rewrite map_app. apply in_or_app. right. left. reflexivity. }
  rewrite Hin. simpl. f_equal. f_equal.
  unfold replace_column. rewrite map_app. simpl.
  rewrite String.eqb_refl. simpl.
  fold (replace_column label col' before). fold (replace_column label col' after).
  rewrite (replace_column_absent _ _ _ Hb), (replace_column_absent _ _ _ Ha).
  reflexivity.
Qed.

(** ** optimize_dtypes *)

Lemma optimize_column_at (n : nat) (label : string) (col : Column)
    (before after : list (string * Column)) :
  n <> 0%nat ->
  ~ In label (map fst before) ->
  ~ In label (map fst after) ->
  optimize_column label (mkFrame n (before ++ (label, col) :: after))
  = (Return tt, mkFrame n (before ++ (label, narrowed n col) :: after)).
Proof.
  intros Hn Hb Ha. unfold optimize_column, bind at 1.
  rewrite (getitem_at _ _ _ _ _ Hb). unfold narrowed.
  destruct (dtype_eqb (sdtype col) int64).
  - destruct (_ && _); apply setitem_at; assumption.
  - destruct (dtype_eqb (sdtype col) object); [|reflexivity].
    unfold bind, get, len. cbn [nrows].
    destruct (Z.eqb_spec (Z.of_nat n) 0) as [H0|_]; [lia|].
    destruct (_ <? _); [apply setitem_at; assumption | reflexivity].
Qed.

Lemma optimize_loop (n : nat) (todo before : list (string * Column)) :
  n <> 0%nat ->
  NoDup (map fst (before ++ todo)) ->
  for_each (map fst todo) optimize_column (mkFrame n (before ++ todo))
  = (Return tt,
     mkFrame n (before ++ map (fun lc => (fst lc, narrowed n (snd lc))) todo)).
Proof.
  intros Hn. revert before.
  induction todo as [|[l c] todo IH]; intros before Hnd; simpl.
  - reflexivity.
  - rewrite map_app in Hnd. simpl in Hnd.
    pose proof (NoDup_remove_2 _ _ _ Hnd) as Hnot.
    assert (Hb : ~ In l (map fst before))
      by (intros H; apply Hnot, in_or_app; left; exact H).
    assert (Ha : ~ In l (map fst todo))
      by (intros H; apply Hnot, in_or_app; right; exact H).
    unfold bind. rewrite (optimize_column_at _ _ c _ _ Hn Hb Ha).
    specialize (IH (before ++ [(l, narrowed n c)])%list).
    rewrite <- !app_assoc in IH. simpl in IH. apply IH.
    rewrite map_app. simpl. exact Hnd.
Qed.










(** ** nulls_imputation *)

Lemma setitem_labels (label : string) (col : Column) (df : Frame) :
  has_column label df = true ->
  labels (snd (setitem label col df)) = labels df.
Proof.
  intros H. unfold setitem, modify, labels. simpl. rewrite H. simpl.
  apply replace_column_labels.
Qed.

Lemma getitem_same (label : string) (df : Frame) :
  snd (getitem label df) = df.
Proof.
  unfold getitem. destruct (find _ _) as [[l c]|]; reflexivity.
Qed.

Lemma first_occurrence (label : string) (cols : list (string * Column)) :
  In label (map fst cols) ->
  exists before col after,
    cols = (before ++ (label, col) :: after)%list
    /\ ~ In label (map fst before).
Proof.
  induction cols as [|[l c] cols IH]; simpl; [tauto|].
  intros Hin. destruct (String.eqb_spec l label) as [->|Hne].
  - exists [], c, cols. split; [reflexivity | simpl; tauto].
  - destruct Hin as [Heq|Hin]; [congruence|].
    destruct (IH Hin) as [before [col [after [-> Hb]]]].
    exists ((l, c) :: before), col, after. split; [reflexivity|].
    simpl. tauto.
Qed.

Lemma Forall2_same {A} (R : A -> A -> Prop) (l : list A) :
  (forall x, In x l -> R x x) -> Forall2 R l l.
Proof.
  induction l as [|x l IH]; intros H; constructor.
  - apply H. left. reflexivity.
  - apply IH. intros y Hy. apply H. right. exact Hy.
Qed.

Lemma Forall2_diagonal {A} (R : A -> A -> Prop) (l : list A) :
  Forall2 R l l -> forall x, In x l -> R x x.
Proof.
  induction l as [|x l IH]; intros H y Hy; [contradiction|].
  inversion H; subst. destruct Hy as [<-|Hy]; [assumption|].
  apply IH; assumption.
Qed.

Lemma Forall2_weaken_in {A B} (R R' : A -> B -> Prop) (l : list A)
    (l' : list B) :
  (forall x y, In x l -> R x y -> R' x y) ->
  Forall2 R l l' -> Forall2 R' l l'.
Proof.
  intros H F. induction F as [|x y l l' Hxy F IH]; constructor.
  - apply H; [left; reflexivity | exact Hxy].
  - apply IH. intros a b Ha. apply H. right. exact Ha.
Qed.

Section Imputation.

Variable series_max : Column -> outcome cell.
Variable series_mean : Column -> outcome cell.
Variable times : cell -> cell -> outcome cell.
Variable fillna : cell -> Column -> outcome Column.
Variable value : pyobj.
Variable max_factor mean_factor : cell.

(** One turn of the loop on a label that occurs once in the frame: the
    column found there is imputed and put back, or the exception of the
    imputation leaves the frame as it was. *)
Lemma impute_column_at (n : nat) (column : string) (col : Column)
    (before after : list (string * Column)) :
  ~ In column (map fst before) ->
  ~ In column (map fst after) ->
  impute_column series_max series_mean times fillna value max_factor
    mean_factor column (mkFrame n (before ++ (column, col) :: after))
  = match imputed series_max series_mean times fillna value max_factor
            mean_factor col with
    | Return col' =>
        (Return tt, mkFrame n (before ++ (column, col') :: after))
    | Raise e => (Raise e, mkFrame n (before ++ (column, col) :: after))
    end.
Proof.
  intros Hb Ha.
  assert (Hin : has_column column (mkFrame n (before ++ (column, col) :: after))
                = true).
  { apply has_column_in. unfold labels. simpl. rewrite map_app.
    apply in_or_app. right. left. reflexivity. }
  unfold impute_column, imputed, bind at 1, get. rewrite Hin. cbn [negb].
  destruct (as_int value) as [v|].
  - unfold bind, lift. rewrite (getitem_at _ _ _ _ _ Hb).
    destruct (fillna v col) as [col'|e]; [|reflexivity].
    apply setitem_at; assumption.
  - destruct (is_text value "max").
    + unfold bind, lift. rewrite (getitem_at _ _ _ _ _ Hb).
      destruct (series_max col) as [m|e]; [|reflexivity].
      rewrite (getitem_at _ _ _ _ _ Hb).
      destruct (times m max_factor) as [v|e]; [|reflexivity].
      destruct (fillna v col) as [col'|e]; [|reflexivity].
      apply setitem_at; assumption.
    + destruct (is_text value "mean"); [|reflexivity].
      unfold bind, lift. rewrite (getitem_at _ _ _ _ _ Hb).
      destruct (series_mean col) as [m|e]; [|reflexivity].
      rewrite (getitem_at _ _ _ _ _ Hb).
      destruct (times m mean_factor) as [v|e]; [|reflexivity].
      destruct (fillna v col) as [col'|e]; [|reflexivity].
      apply setitem_at; assumption.
Qed.

(** Writing back a column under a label that is in the frame keeps the
    labels; so does everything that only reads. *)
Lemma write_back_labels (column : string) (df : Frame)
    (filled : outcome Column) :
  has_column column df = true ->
  labels (snd ((c <- lift filled ;; setitem column c) df)) = labels df.
Proof.
  intros H. unfold bind, lift. destruct filled as [c|e]; [|reflexivity].
  apply setitem_labels, H.
Qed.

Lemma fill_keeps_labels (reduce : Column -> outcome cell) (factor : cell)
    (column : string) (df : Frame) :
  has_column column df = true ->
  labels (snd ((s <- getitem column ;;
                v0 <- lift (reduce s) ;;
                s' <- getitem column ;;
                v <- lift (times v0 factor) ;;
                filled <- lift (fillna v s') ;;
                setitem column filled) df)) = labels df.
Proof.
  intros H. unfold bind at 1.
  pose proof (getitem_same column df) as Hg.
  destruct (getitem column df) as [[s|e] df1]; simpl in Hg; subst df1;
    [|reflexivity].
  unfold bind at 1, lift at 1.
  destruct (reduce s) as [v0|e]; [|reflexivity].
  unfold bind at 1.
  pose proof (getitem_same column df) as Hg.
  destruct (getitem column df) as [[s'|e] df1]; simpl in Hg; subst df1;
    [|reflexivity].
  unfold bind at 1, lift at 1.
  destruct (times v0 factor) as [v|e]; [|reflexivity].
  apply write_back_labels, H.
Qed.

(** One turn of the loop never adds, removes or renames a column, whether
    it raises or not. *)
Lemma impute_column_labels (column : string) (df : Frame) :
  labels (snd (impute_column series_max series_mean times fillna value
                 max_factor mean_factor column df)) = labels df.
Proof.
  unfold impute_column, bind at 1, get.
  destruct (has_column column df) eqn:H; cbn [negb]; [|reflexivity].
  destruct (as_int value) as [v|].
  - unfold bind at 1.
    pose proof (getitem_same column df) as Hg.
    destruct (getitem column df) as [[s|e] df1]; simpl in Hg; subst df1;
      [|reflexivity].
    apply write_back_labels, H.
  - destruct (is_text value "max"); [apply fill_keeps_labels, H|].
    destruct (is_text value "mean"); [apply fill_keeps_labels, H|].
    reflexivity.
Qed.

Lemma nulls_imputation_labels (columns : list string) (df : Frame) :
  labels (snd (nulls_imputation series_max series_mean times fillna columns
                 value max_factor mean_factor df)) = labels df.
Proof.
  unfold nulls_imputation.
  revert df. induction columns as [|c cs IH]; intros df; simpl.
  - reflexivity.
  - unfold bind. pose proof (impute_column_labels c df) as Hc.
    destruct (impute_column _ _ _ _ _ _ _ c df) as [[[]|e] df1]; simpl in Hc.
    + rewrite IH. exact Hc.
    + exact Hc.
Qed.

(** What a run that returns has done: each column of the frame has been
    imputed as many times as its label is listed. *)
Lemma imputation_loop (listed : list string) (df df' : Frame) :
  NoDup (labels df) ->
  nulls_imputation series_max series_mean times fillna listed value
    max_factor mean_factor df = (Return tt, df') ->
  nrows df' = nrows df
  /\ Forall2 (column_after
                (imputed series_max series_mean times fillna value max_factor
                   mean_factor) listed)
       (columns df) (columns df').
Proof.
  unfold nulls_imputation. revert df.
  induction listed as [|c cs IH]; intros df Hnd Hrun; simpl in Hrun.
  - inversion Hrun; subst. split; [reflexivity|].
    apply Forall2_same. intros lc _. split; reflexivity.
  - unfold bind in Hrun.
    destruct (has_column c df) eqn:Hin.
    2:{ unfold impute_column, bind at 1, get in Hrun. rewrite Hin in Hrun.
        discriminate. }
    apply has_column_in in Hin. unfold labels in Hin, Hnd.
    destruct (first_occurrence c (columns df) Hin)
      as [before [col [after [Hcols Hb]]]].
    destruct df as [n cols]. simpl in Hcols, Hnd, Hin |- *. subst cols.
    assert (Ha : ~ In c (map fst after)).
    { rewrite map_app in Hnd. simpl in Hnd.
      pose proof (NoDup_remove_2 _ _ _ Hnd) as Hnot.
      intros H. apply Hnot, in_or_app. right. exact H. }
    rewrite (impute_column_at n c col before after Hb Ha) in Hrun.
    destruct (imputed series_max series_mean times fillna value max_factor
                mean_factor col) as [col'|e] eqn:Himp; [|discriminate].
    destruct (IH (mkFrame n (before ++ (c, col') :: after))) as [Hn F].
    { unfold labels. simpl. rewrite map_app in *. simpl in *. exact Hnd. }
    { exact Hrun. }
    split; [exact Hn|]. simpl in F.
    apply Forall2_app_inv_l in F.
    destruct F as [b' [rest' [Fb [Fr Heq]]]]. rewrite Heq.
    inversion Fr as [|x x' a a' Hx Fa]; subst.
    apply Forall2_app.
    + refine (Forall2_weaken_in _ _ _ _ _ Fb).
      intros [l k] y Hl [H1 H2]. split; [exact H1|].
      simpl in *. destruct (String.eqb_spec c l) as [->|_]; [|exact H2].
      exfalso. apply Hb. apply (in_map fst) in Hl. exact Hl.
    + constructor.
      * destruct Hx as [H1 H2]. split; [exact H1|].
        simpl in *. rewrite String.eqb_refl. simpl. rewrite Himp. exact H2.
      * refine (Forall2_weaken_in _ _ _ _ _ Fa).
        intros [l k] y Hl [H1 H2]. split; [exact H1|].
        simpl in *. destruct (String.eqb_spec c l) as [->|_]; [|exact H2].
        exfalso. apply Ha. apply (in_map fst) in Hl. exact Hl.
Qed.

(** C10.  If the imputation of the columns listed first succeeds and the
    next listed column is not in the frame, the call raises the
    unknown-column [ValueError] and leaves the frame as the earlier turns
    of the loop made it.  On a frame with distinct labels that frame has
    the same rows and labels, and each of its columns is the given one
    imputed as many times as its label is listed before the missing one;
    so it is the given frame only if every one of those imputations
    changed nothing. *)
Theorem nulls_imputation_not_atomic (earlier later : list string)
    (missing : string) (df df' : Frame) :
  nulls_imputation series_max series_mean times fillna earlier value
    max_factor mean_factor df = (Return tt, df') ->
  has_column missing df = false ->
  nulls_imputation series_max series_mean times fillna
    (earlier ++ missing :: later) value max_factor mean_factor df
  = (Raise (UnknownColumnError missing), df')
  /\ (NoDup (labels df) ->
      nrows df' = nrows df
      /\ Forall2 (column_after
                    (imputed series_max series_mean times fillna value
                       max_factor mean_factor) earlier)
           (columns df) (columns df')
      /\ (df' = df ->
          forall lc, In lc (columns df) ->
          repeatedly
            (imputed series_max series_mean times fillna value max_factor
               mean_factor)
            (times_listed (fst lc) earlier) (snd lc)
          = Return (snd lc))).
Proof.
  intros Hpre Hmiss. split.
  - pose proof (nulls_imputation_labels earlier df) as Hlab.
    rewrite Hpre in Hlab. simpl in Hlab.
    unfold nulls_imputation in *.
    rewrite for_each_app, Hpre. simpl.
    unfold bind at 1, impute_column at 1, bind at 1, get.
    assert (Hmiss' : has_column missing df' = false).
    { destruct (has_column missing df') eqn:H; [|reflexivity].
      apply has_column_in in H. rewrite Hlab in H.
      apply has_column_in in H. congruence. }
    rewrite Hmiss'. reflexivity.
  - intros Hnd. destruct (imputation_loop earlier df df' Hnd Hpre) as [Hn F].
    split; [exact Hn|]. split; [exact F|].
    intros -> lc Hlc.
    destruct (Forall2_diagonal _ _ F lc Hlc) as [_ H]. exact H.
Qed.

End Imputation.

Lemma nulls_imputation_not_atomic_witness :
  nulls_imputation int_series_max no_mean int_times plain_fillna
    ["saldo"; "cuota"; "edad"] (PyStr "max") (VInt 2) (VInt 1)
    (mkFrame 2 [("saldo", mkSeries object [VNone; VInt 5]);
                ("edad", mkSeries object [VInt 40; VNone])])
  = (Raise (UnknownColumnError "cuota"),
     mkFrame 2 [("saldo", mkSeries object [VInt 10; VInt 5]);
                ("edad", mkSeries object [VInt 40; VNone])]).
Proof.
  exact (proj1 (nulls_imputation_not_atomic int_series_max no_mean int_times
    plain_fillna (PyStr "max") (VInt 2) (VInt 1) ["saldo"] ["edad"] "cuota"
    (mkFrame 2 [("saldo", mkSeries object [VNone; VInt 5]);
                ("edad", mkSeries object [VInt 40; VNone])])
    (mkFrame 2 [("saldo", mkSeries object [VInt 10; VInt 5]);
                ("edad", mkSeries object [VInt 40; VNone])])
    eq_refl eq_refl)).
Defined.

(** * The scenarios of the design document, run on the model *)

Example scenario_A_newer_period :
  insert_if quiet_runner (PyStr "2024-02-01") (PyStr "insert.sql") None PyNone
    (fresh (ventas (Some "periodo") (Some "2024-01-01") (Some "2023-01-01")))
  = (Return true,
     mkWorld (ventas (Some "periodo") (Some "2024-01-01") (Some "2023-01-01"))
       [Script "insert.sql" "DWH_TERADATA" None None]).
Proof. reflexivity. Qed.

Example scenario_A_older_period :
  insert_if quiet_runner (PyStr "2023-12-01") (PyStr "insert.sql") None PyNone
    (fresh (ventas (Some "periodo") (Some "2024-01-01") (Some "2023-01-01")))
  = (Return false,
     fresh (ventas (Some "periodo") (Some "2024-01-01") (Some "2023-01-01"))).
Proof. reflexivity. Qed.

Example scenario_A_same_period :
  insert_if quiet_runner (PyStr "2024-01-01") (PyStr "insert.sql") None PyNone
    (fresh (ventas (Some "periodo") (Some "2024-01-01") (Some "2023-01-01")))
  = (Return false,
     fresh (ventas (Some "periodo") (Some "2024-01-01") (Some "2023-01-01"))).
Proof. reflexivity. Qed.

Example scenario_B_floor_after_minimum :
  fst (delete_if quiet_runner (PyStr "2024-03-01") (PyStr "delete.sql") None
         PyNone
         (fresh (ventas (Some "periodo") (Some "2024-06-01") (Some "2024-01-01"))))
  = Return true.
Proof. reflexivity. Qed.

Example scenario_B_floor_before_minimum :
  delete_if quiet_runner (PyStr "2023-01-01") (PyStr "delete.sql") None PyNone
    (fresh (ventas (Some "periodo") (Some "2024-06-01") (Some "2024-01-01")))
  = (Return false,
     fresh (ventas (Some "periodo") (Some "2024-06-01") (Some "2024-01-01"))).
Proof. reflexivity. Qed.

Example scenario_C_unknown_source :
  __init__ (PyStr "ventas") (PyStr "prod") (PyStr "UNKNOWN") None []
  = (Raise InvalidConfiguration, []).
Proof. reflexivity. Qed.

Example scenario_C_teradata :
  __init__ (PyStr "ventas") (PyStr "prod") (PyStr "DWH_TERADATA") None []
  = (Return (ventas None None None), []).
Proof. reflexivity. Qed.

Example scenario_D_twice_the_maximum :
  nulls_imputation int_series_max no_mean int_times plain_fillna ["x"]
    (PyStr "max") (VInt 2) (VInt 1)
    (mkFrame 3 [("x", mkSeries object [VInt 10; VNone; VInt 4])])
  = (Return tt, mkFrame 3 [("x", mkSeries object [VInt 10; VInt 20; VInt 4])]).
Proof. reflexivity. Qed.

Example unknown_imputation_mode :
  fst (nulls_imputation int_series_max no_mean int_times plain_fillna ["x"]
         (PyStr "median") (VInt 2) (VInt 1)
         (mkFrame 1 [("x", mkSeries object [VNone])]))
  = Raise (ValueError "The `value` argument should be an integer, 'max', or 'mean'.").
Proof. reflexivity. Qed.

(** Cells that Python holds equal count once: of [1, True, 1.0, 1] one
    value is distinct, and the column becomes categorical. *)
Example equal_cells_count_once :
  nunique (mkSeries object [VInt 1; VBool true; VFloat 4607182418800017408;
                            VInt 1]) = 1
  /\ optimize_dtypes
       (mkFrame 4 [("x", mkSeries object [VInt 1; VBool true;
                                          VFloat 4607182418800017408; VInt 1])])
     = (Return tt,
        mkFrame 4 [("x", mkSeries category [VInt 1; VBool true;
                                            VFloat 4607182418800017408;
                                            VInt 1])]).
Proof. split; reflexivity. Qed.

Example empty_frame_division :
  fst (optimize_dtypes (mkFrame 0 [("plan", mkSeries object [])]))
  = Raise (ZeroDivisionError "division by zero").
Proof. reflexivity. Qed.

(** * Further properties of tables.py *)

(** ** Comparisons *)

Lemma date_gt_total (a b : date) :
  date_gt a b = false -> date_gt b a = false -> a = b.
Proof.
  destruct a as [y m d], b as [y' m' d']. unfold date_gt. simpl.
  intros H1 H2.
  assert (H : y = y' /\ m = m' /\ d = d').
  { destruct (Z.ltb_spec y' y), (Z.ltb_spec y y'),
      (Z.eqb_spec y y'), (Z.eqb_spec y' y),
      (Z.ltb_spec m' m), (Z.ltb_spec m m'),
      (Z.eqb_spec m m'), (Z.eqb_spec m' m),
      (Z.ltb_spec d' d), (Z.ltb_spec d d');
      simpl in *; try discriminate; lia. }
  destruct H as [-> [-> ->]]. reflexivity.
Qed.

(** X1.  For a candidate and a selected bound that are dates, the two
    directions of [compare_period] never both answer [True], and both
    answer [False] exactly when the two dates are the same day. *)
Theorem compare_period_trichotomy (w : world) (a b : string) (da db : date)
    (max : bool) :
  strptime a = Some da ->
  (if max then max_period (self w) else min_period (self w)) = Some b ->
  strptime b = Some db ->
  let ahead := fst (compare_period a true max w) in
  let behind := fst (compare_period a false max w) in
  ~ (ahead = Return true /\ behind = Return true)
  /\ ((ahead = Return false /\ behind = Return false) <-> da = db).
Proof.
  intros Ha Hb Hdb ahead behind. subst ahead behind.
  rewrite (@compare_period_run w a b da db true max Ha Hb Hdb).
  rewrite (@compare_period_run w a b da db false max Ha Hb Hdb).
  simpl. split.
  - intros [H1 H2]. inversion H1 as [H1']. inversion H2 as [H2'].
    rewrite (date_gt_asym da db H1') in H2'. discriminate.
  - split.
    + intros [H1 H2]. inversion H1. inversion H2.
      apply date_gt_total; assumption.
    + intros ->. rewrite date_gt_irrefl. split; reflexivity.
Qed.

Lemma compare_period_trichotomy_witness :
  (fst (compare_period "2024-01-01" true false
          (fresh (ventas None (Some "2024-06-01") (Some "2024-01-01"))))
   = Return false
   /\ fst (compare_period "2024-01-01" false false
             (fresh (ventas None (Some "2024-06-01") (Some "2024-01-01"))))
      = Return false)
  <-> mkdate 2024 1 1 = mkdate 2024 1 1.
Proof.
  exact (proj2 (@compare_period_trichotomy
    (fresh (ventas None (Some "2024-06-01") (Some "2024-01-01")))
    "2024-01-01" "2024-01-01" (mkdate 2024 1 1) (mkdate 2024 1 1) false
    eq_refl eq_refl eq_refl)).
Defined.

(** X2.  [compare_date] compares strictly against the selected date bound, like
    [compare_period]; but a stored date bound that does not parse makes it
    raise the [ValueError] of [strptime] itself, with no message of its
    own.  The table and the log stay as they were. *)
Theorem compare_date_strict (w : world) (a b : string) (da : date)
    (greater max : bool) :
  strptime a = Some da ->
  (if max then max_date (self w) else min_date (self w)) = Some b ->
  b <> EmptyString ->
  compare_date a greater max w
  = match strptime b with
    | Some db =>
        (Return (if greater then date_gt da db else date_gt db da), w)
    | None => (Raise (ValueError (strptime_error b)), w)
    end.
Proof.
  intros Ha Hb Hne.
  unfold compare_date, bind, attr, ret, throw. rewrite Ha.
  replace ((if max then max_date else min_date) (self w)) with (Some b)
    by (destruct max; symmetry; exact Hb).
  destruct b as [|c r]; [congruence|]. cbn [truthy].
  destruct (strptime (String c r)); reflexivity.
Qed.

Lemma compare_date_strict_witness :
  compare_date "2024-02-01" true true
    (fresh (mkTable "ventas" "prod" "DWH_TERADATA" "prod.ventas" "teradata"
              None None None (Some "fecha") (Some "2024-01-15")
              (Some "2023-01-01")))
  = (Return true,
     fresh (mkTable "ventas" "prod" "DWH_TERADATA" "prod.ventas" "teradata"
              None None None (Some "fecha") (Some "2024-01-15")
              (Some "2023-01-01"))).
Proof.
  exact (@compare_date_strict
    (fresh (mkTable "ventas" "prod" "DWH_TERADATA" "prod.ventas" "teradata"
              None None None (Some "fecha") (Some "2024-01-15")
              (Some "2023-01-01")))
    "2024-02-01" "2024-01-15" (mkdate 2024 2 1) true true
    eq_refl eq_refl ltac:(discriminate)).
Defined.

(** X3.  The three readers, [compare_period], [compare_date] and
    [get_period_datetime], change no attribute and send nothing, whatever
    their arguments and whether they return or raise. *)
Theorem readers_touch_nothing (w : world) (text : string)
    (greater max date : bool) :
  snd (compare_period text greater max w) = w
  /\ snd (compare_date text greater max w) = w
  /\ snd (get_period_datetime max date w) = w.
Proof.
  split; [apply compare_period_same|].
  split; [apply compare_date_same | apply get_period_datetime_same].
Qed.

(** ** Refresh *)

Section RefreshMore.

Variable get_df_from_query : list call -> string -> string -> outcome Tables.Frame.

(** X4.  Round trip: when the query returns two calendar dates, the refreshed
    table gives them back through [get_period_datetime], and
    [compare_period] compares against them. *)
Theorem refresh_then_read_back (column : string) (w : world)
    (df : Tables.Frame) (hi lo : date) :
  get_df_from_query (calls w) (bounds_query column (sql_name (self w)))
    (dsn (self w)) = Return df ->
  empty df = false ->
  iloc df 0 0 = Return (SDate hi) ->
  iloc df 0 1 = Return (SDate lo) ->
  valid_date hi = true ->
  valid_date lo = true ->
  let w' := snd (update_periods get_df_from_query (PyStr column) w) in
  get_period_datetime true true w' = (Return (ADate hi), w')
  /\ get_period_datetime false true w' = (Return (ADate lo), w')
  /\ get_period_datetime true false w' = (Return (ADatetime hi), w')
  /\ (forall a da greater,
        strptime a = Some da ->
        compare_period a greater true w'
        = (Return (if greater then date_gt da hi else date_gt hi da), w')).
Proof.
  intros Hq Hne Hhi Hlo Hvh Hvl w'. subst w'.
  rewrite update_periods_run, Hq, Hne, Hhi, Hlo. cbn [snd].
  pose proof (strptime_isoformat hi Hvh) as Ph.
  pose proof (strptime_isoformat lo Hvl) as Pl.
  assert (Th : truthy (Some (isoformat hi)) = Some (isoformat hi))
    by (apply (@strptime_nonempty _ hi Ph)).
  assert (Tl : truthy (Some (isoformat lo)) = Some (isoformat lo))
    by (apply (@strptime_nonempty _ lo Pl)).
  unfold get_period_datetime, bind, attr, ret. cbn [self max_period min_period
    set_min_period set_max_period set_period_column py_str].
  rewrite Th, Tl, Ph, Pl.
  repeat split.
  intros a da greater Ha.
  apply (@compare_period_run _ a (isoformat hi) da hi greater true Ha);
    [reflexivity | exact Ph].
Qed.

(** X5.  Last refresh wins: what a successful [update_periods] leaves does not
    depend on the period column and bounds the table had before. *)
Theorem last_refresh_wins (column : string) (w w' : world)
    (old_column old_max old_min : option string) :
  update_periods get_df_from_query (PyStr column) w = (Return tt, w') ->
  update_periods get_df_from_query (PyStr column)
    (mkWorld (set_min_period old_min
                (set_max_period old_max
                   (set_period_column old_column (self w))))
       (calls w))
  = (Return tt, w').
Proof.
  intros H. rewrite update_periods_run in H. rewrite update_periods_run.
  cbn [self calls sql_name dsn set_min_period set_max_period
         set_period_column].
  destruct (get_df_from_query _ _ _) as [df|e]; [|discriminate].
  destruct (empty df); [discriminate|].
  destruct (iloc df 0 0) as [hi|e]; [|discriminate].
  destruct (iloc df 0 1) as [lo|e]; [|discriminate].
  inversion H; subst. reflexivity.
Qed.

Lemma update_periods_dates (column : pyobj) (w : world) :
  same_dates (self w)
    (self (snd (update_periods get_df_from_query column w))).
Proof.
  unfold same_dates.
  destruct column as [| | |c|]; try (repeat split; fail).
  rewrite update_periods_run.
  destruct (get_df_from_query _ _ _) as [df|e]; [|repeat split].
  destruct (empty df); [repeat split|].
  destruct (iloc df 0 0) as [hi|e]; [|repeat split].
  destruct (iloc df 0 1) as [lo|e]; repeat split.
Qed.

(** X6.  The two pairs of bounds are kept apart: [update_periods] never changes
    the date column or a date bound, [update_dates] never changes the
    period column or a period bound, whatever the data source answers. *)
Theorem refreshes_are_independent (column : pyobj) (w : world) :
  same_dates (self w)
    (self (snd (update_periods get_df_from_query column w)))
  /\ same_periods (self w)
       (self (snd (update_dates get_df_from_query column w))).
Proof.
  split; [apply update_periods_dates|].
  apply (@update_dates_periods get_df_from_query column w).
Qed.

End RefreshMore.

Lemma refresh_then_read_back_witness :
  get_period_datetime false true
    (snd (update_periods
            (answering (one_row (SDate (mkdate 2024 6 1)) (SDate (mkdate 2023 2 28))))
            (PyStr "periodo") (fresh (ventas None None None))))
  = (Return (ADate (mkdate 2023 2 28)),
     snd (update_periods
            (answering (one_row (SDate (mkdate 2024 6 1)) (SDate (mkdate 2023 2 28))))
            (PyStr "periodo") (fresh (ventas None None None)))).
Proof.
  exact (proj1 (proj2 (@refresh_then_read_back
    (answering (one_row (SDate (mkdate 2024 6 1)) (SDate (mkdate 2023 2 28))))
    "periodo" (fresh (ventas None None None))
    (one_row (SDate (mkdate 2024 6 1)) (SDate (mkdate 2023 2 28)))
    (mkdate 2024 6 1) (mkdate 2023 2 28)
    eq_refl eq_refl eq_refl eq_refl eq_refl eq_refl))).
Defined.

Lemma last_refresh_wins_witness :
  update_periods (answering (one_row (SText "2024-06-01") (SText "2023-01-01")))
    (PyStr "periodo")
    (fresh (ventas (Some "mes") (Some "1999-01-01") (Some "1998-01-01")))
  = (Return tt,
     mkWorld (ventas (Some "periodo") (Some "2024-06-01") (Some "2023-01-01"))
       [Query "SELECT MAX(periodo), MIN(periodo) FROM prod.ventas" "DWH_TERADATA"]).
Proof.
  exact (@last_refresh_wins
    (answering (one_row (SText "2024-06-01") (SText "2023-01-01")))
    "periodo" (fresh (ventas None None None))
    (mkWorld (ventas (Some "periodo") (Some "2024-06-01") (Some "2023-01-01"))
       [Query "SELECT MAX(periodo), MIN(periodo) FROM prod.ventas" "DWH_TERADATA"])
    (Some "mes") (Some "1999-01-01") (Some "1998-01-01") eq_refl).
Defined.

(** ** What every operation keeps *)

Section Operations.

Variable get_df_from_query : list call -> string -> string -> outcome Tables.Frame.
Variable run_sql_file :
  list call -> string -> string -> option bool -> option dict -> outcome pyobj.

Lemma perform_self (op : operation) (w : world) :
  (forall c, op <> Op_update_periods c) ->
  (forall c, op <> Op_update_dates c) ->
  self (snd (perform get_df_from_query run_sql_file op w)) = self w.
Proof.
  intros Hp Hd.
  destruct op; simpl perform; rewrite ?snd_discard;
    rewrite ?query_data_self, ?compare_period_same, ?compare_date_same,
      ?get_period_datetime_same, ?run_modification_script_self,
      ?insert_if_self, ?delete_if_self, ?get_df_self, ?delete_period_self;
    try reflexivity.
  - exfalso. eapply Hp. reflexivity.
  - exfalso. eapply Hd. reflexivity.
Qed.

Lemma update_periods_identity (column : pyobj) (w : world) :
  same_identity (self w)
    (self (snd (update_periods get_df_from_query column w))).
Proof.
  unfold same_identity.
  destruct column as [| | |c|]; try (repeat split; fail).
  rewrite update_periods_run.
  destruct (get_df_from_query _ _ _) as [df|e]; [|repeat split].
  destruct (empty df); [repeat split|].
  destruct (iloc df 0 0) as [hi|e]; [|repeat split].
  destruct (iloc df 0 1) as [lo|e]; repeat split.
Qed.

Lemma update_dates_identity (column : pyobj) (w : world) :
  same_identity (self w)
    (self (snd (update_dates get_df_from_query column w))).
Proof.
  unfold same_identity.
  destruct column as [| | |c|]; try (repeat split; fail).
  rewrite update_dates_run. cbv zeta.
  destruct (get_df_from_query _ _ _) as [df|e]; [|repeat split].
  destruct (empty df); [repeat split|].
  destruct (iloc df 0 0) as [hi|e]; [|repeat split].
  destruct (iloc df 0 1) as [lo|e]; repeat split.
Qed.

Lemma perform_identity (op : operation) (w : world) :
  same_identity (self w) (self (snd (perform get_df_from_query run_sql_file op w))).
Proof.
  destruct op as [q|c|c|p g m|p g m|m d|f s ps|p f s ps|p f s ps| |p f s];
    try (rewrite perform_self by (intros ? ?; discriminate);
         repeat split; fail).
  - apply update_periods_identity.
  - apply update_dates_identity.
Qed.

Lemma session_identity (ops : list operation) (w : world) :
  same_identity (self w) (self (session get_df_from_query run_sql_file ops w)).
Proof.
  revert w. induction ops as [|op ops IH]; intros w; simpl.
  - repeat split.
  - destruct (IH (snd (perform get_df_from_query run_sql_file op w))) as [H1 [H2 [H3 [H4 H5]]]].
    destruct (perform_identity op w) as [G1 [G2 [G3 [G4 G5]]]].
    unfold same_identity.
    rewrite H1, H2, H3, H4, H5. repeat split; assumption.
Qed.

(** X7.  The identity of a table is fixed at construction: through any sequence
    of operations, with whatever arguments and answers, [name], [schema],
    [dsn], [sql_name] and [motor] keep their value, so that [sql_name] stays
    the schema, a dot and the name, and [motor] stays the engine of [dsn]. *)
Theorem identity_is_fixed (n s d : pyobj) (column : option string)
    (log log' : list call) (t : Table) (ops : list operation) :
  __init__ n s d column log = (Return t, log') ->
  let t' := self (session get_df_from_query run_sql_file ops (mkWorld t log')) in
  same_identity t t'
  /\ sql_name t' = schema t' ++ "." ++ name t'
  /\ engine_of (dsn t') = Some (motor t').
Proof.
  intros Hinit t'.
  pose proof (session_identity ops (mkWorld t log')) as Hid.
  fold t' in Hid. simpl in Hid.
  split; [exact Hid|].
  destruct Hid as [H1 [H2 [H3 [H4 H5]]]].
  rewrite H1, H2, H3, H4, H5.
  unfold __init__ in Hinit.
  destruct n as [| | |n|]; try discriminate.
  destruct s as [| | |s|]; try discriminate.
  destruct d as [| | |d|]; try discriminate.
  unfold engine_of.
  destruct (String.eqb d "DWH_TERADATA") eqn:E1.
  - inversion Hinit; subst. simpl. rewrite E1. split; reflexivity.
  - destruct (String.eqb d "BIGDATA_CDP") eqn:E2; [|discriminate].
    inversion Hinit; subst. simpl. rewrite E1, E2. split; reflexivity.
Qed.

(** *** Calls *)

Lemma no_call (w : world) : one_call_at_most w w.
Proof. left. reflexivity. Qed.

Lemma one_call (w : world) (t : Table) (c : call) :
  call_dsn c = dsn (self w) ->
  one_call_at_most w (mkWorld t (calls w ++ [c])).
Proof. intros H. right. exists c. split; [reflexivity | exact H]. Qed.

Lemma run_modification_script_calls (file : pyobj) (silent : option bool)
    (params : pyobj) (w : world) :
  one_call_at_most w
    (snd (run_modification_script run_sql_file file silent params w)).
Proof.
  destruct file as [| | |f|]; try apply no_call.
  destruct params; try apply no_call; apply one_call; reflexivity.
Qed.

Lemma gated_script_calls (cmp : M world bool) (file : pyobj)
    (silent : option bool) (params : pyobj) (w : world) :
  snd (cmp w) = w ->
  one_call_at_most w
    (snd ((required <- cmp ;;
           if required
           then run_modification_script run_sql_file file silent params ;;
                ret true
           else ret false) w)).
Proof.
  intros Hc. unfold bind at 1.
  destruct (cmp w) as [[[|]|e] w0]; simpl in Hc; subst w0;
    try apply no_call.
  unfold bind, ret.
  pose proof (run_modification_script_calls file silent params w) as H.
  destruct (run_modification_script _ _ _ _ _) as [[v|e] w0]; exact H.
Qed.

Lemma insert_if_calls (period file : pyobj) (silent : option bool)
    (params : pyobj) (w : world) :
  one_call_at_most w (snd (insert_if run_sql_file period file silent params w)).
Proof.
  unfold insert_if.
  destruct period as [| | |p|]; try apply no_call.
  destruct (strptime p); [|apply no_call].
  apply gated_script_calls, compare_period_same.
Qed.

Lemma delete_if_calls (period file : pyobj) (silent : option bool)
    (params : pyobj) (w : world) :
  one_call_at_most w (snd (delete_if run_sql_file period file silent params w)).
Proof.
  unfold delete_if, bind at 1, attr.
  destruct (truthy _); [|apply no_call].
  destruct period as [| | |p|]; try apply no_call.
  destruct (strptime p); [|apply no_call].
  apply gated_script_calls, compare_period_same.
Qed.

Lemma update_periods_calls (column : pyobj) (w : world) :
  one_call_at_most w (snd (update_periods get_df_from_query column w)).
Proof.
  destruct column as [| | |c|]; try apply no_call.
  rewrite update_periods_run.
  destruct (get_df_from_query _ _ _) as [df|e]; [|apply one_call; reflexivity].
  destruct (empty df); [apply one_call; reflexivity|].
  destruct (iloc df 0 0) as [hi|e]; [|apply one_call; reflexivity].
  destruct (iloc df 0 1) as [lo|e]; apply (one_call w); reflexivity.
Qed.

Lemma update_dates_calls (column : pyobj) (w : world) :
  one_call_at_most w (snd (update_dates get_df_from_query column w)).
Proof.
  destruct column as [| | |c|]; try apply no_call.
  rewrite update_dates_run. cbv zeta.
  destruct (get_df_from_query _ _ _) as [df|e]; [|apply one_call; reflexivity].
  destruct (empty df); [apply one_call; reflexivity|].
  destruct (iloc df 0 0) as [hi|e]; [|apply one_call; reflexivity].
  destruct (iloc df 0 1) as [lo|e]; apply (one_call w); reflexivity.
Qed.

Lemma perform_calls (op : operation) (w : world) :
  one_call_at_most w (snd (perform get_df_from_query run_sql_file op w)).
Proof.
  destruct op as [q|c|c|p g m|p g m|m d|f s ps|p f s ps|p f s ps| |p f s];
    simpl perform; rewrite ?snd_discard;
    rewrite ?compare_period_same, ?compare_date_same,
      ?get_period_datetime_same;
    try apply no_call.
  - destruct q; try apply no_call. apply (one_call w); reflexivity.
  - apply update_periods_calls.
  - apply update_dates_calls.
  - apply run_modification_script_calls.
  - apply insert_if_calls.
  - apply delete_if_calls.
  - apply (one_call w); reflexivity.
  - apply (one_call w); reflexivity.
Qed.

(** X8.  Every operation sends at most one query or script, and sends it to the
    table's own data source; over a sequence of operations the log grows by
    at most one call per operation, all of them addressed to that data
    source. *)
Theorem calls_go_to_the_table_source (ops : list operation) (w : world) :
  (forall op, one_call_at_most w (snd (perform get_df_from_query run_sql_file op w)))
  /\ exists sent,
       calls (session get_df_from_query run_sql_file ops w) = (calls w ++ sent)%list
       /\ (List.length sent <= List.length ops)%nat
       /\ Forall (fun c => call_dsn c = dsn (self w)) sent.
Proof.
  split; [intros op; apply perform_calls|].
  revert w. induction ops as [|op ops IH]; intros w; simpl.
  - exists []. rewrite app_nil_r.
    split; [reflexivity|]. split; [simpl; lia | constructor].
  - destruct (IH (snd (perform get_df_from_query run_sql_file op w))) as [sent [Hs [Hl Hf]]].
    destruct (perform_identity op w) as [_ [_ [Hd _]]].
    rewrite Hd in Hf.
    destruct (perform_calls op w) as [Hc | [c [Hc Hcd]]].
    + exists sent. rewrite Hs, Hc.
      split; [reflexivity|]. split; [lia | exact Hf].
    + exists (c :: sent). rewrite Hs, Hc, <- app_assoc. simpl.
      split; [reflexivity|]. split; [lia | constructor; assumption].
Qed.

End Operations.

Lemma identity_is_fixed_witness :
  sql_name
    (self (session (answering (one_row SNull SNull)) quiet_runner
             [Op_update_periods (PyStr "periodo"); Op_update_dates (PyInt 3);
              Op_delete_period "2024-01-01" "delete.sql" None]
             (mkWorld (ventas None None None) [])))
  = "prod.ventas".
Proof.
  destruct (@identity_is_fixed (answering (one_row SNull SNull)) quiet_runner
    (PyStr "ventas") (PyStr "prod") (PyStr "DWH_TERADATA") None [] []
    (ventas None None None)
    [Op_update_periods (PyStr "periodo"); Op_update_dates (PyInt 3);
     Op_delete_period "2024-01-01" "delete.sql" None]
    eq_refl) as [[_ [_ [_ [H _]]]] _].
  exact H.
Defined.

(** ** The date bounds *)

Section DateInvariant.

Variable get_df_from_query : list call -> string -> string -> outcome Tables.Frame.
Variable run_sql_file :
  list call -> string -> string -> option bool -> option dict -> outcome pyobj.
Hypothesis two_columns : two_column_answers get_df_from_query.

Lemma update_dates_writes_both (column : pyobj) (w : world) :
  let t := self (snd (update_dates get_df_from_query column w)) in
  (max_date t = max_date (self w) /\ min_date t = min_date (self w)
   /\ (date_column t = date_column (self w)
       \/ exists c, date_column t = Some c))
  \/ (exists c hi lo,
        column = PyStr c
        /\ max_date t = Some hi /\ min_date t = Some lo
        /\ date_column t = Some c).
Proof.
  cbv zeta.
  destruct column as [| | |c|]; try (left; repeat split; left; reflexivity).
  rewrite update_dates_run. cbv zeta.
  destruct (get_df_from_query _ _ _) as [df|e] eqn:Hq;
    [|left; repeat split; right; eexists; reflexivity].
  destruct (empty df) eqn:He;
    [left; repeat split; right; eexists; reflexivity|].
  destruct (two_columns _ _ _ _ _ Hq) as [Hwf Hlen].
  destruct (@first_row_of_two_columns _ df Hwf Hlen He) as [hi [lo [Hhi Hlo]]].
  rewrite Hhi, Hlo.
  right. exists c, (py_str hi), (py_str lo). repeat split.
Qed.

Lemma perform_keeps_dates_paired (op : operation) (w : world) :
  dates_paired (self w) ->
  dates_paired (self (snd (perform get_df_from_query run_sql_file op w))).
Proof.
  intros [Hpair Hcol].
  destruct op as [q|c|c|p g m|p g m|m d|f s ps|p f s ps|p f s ps| |p f s];
    try (rewrite perform_self by (intros ? ?; discriminate);
         split; assumption).
  - simpl perform.
    destruct (update_periods_dates get_df_from_query c w) as [Hc [Hmax Hmin]].
    unfold dates_paired. rewrite Hc, Hmax, Hmin. split; assumption.
  - simpl perform.
    destruct (update_dates_writes_both c w)
      as [[Hmax [Hmin Hc]] | [col [hi [lo [_ [Hmax [Hmin Hc]]]]]]];
      unfold dates_paired; rewrite Hmax, Hmin.
    + split; [exact Hpair|].
      intros Hset. destruct Hc as [Hc | [c0 Hc]]; rewrite Hc.
      * apply Hcol, Hset.
      * discriminate.
    + rewrite Hc. split; [split; discriminate | discriminate].
Qed.

(** X9.  Provided the data source answers the bounds query with two columns:
    through any sequence of operations on a new table, [max_date] is set
    exactly when [min_date] is, and only on a table whose [date_column] is
    set; only [update_dates] assigns them. *)
Theorem date_bounds_assigned_together (n s d : pyobj)
    (column : option string) (log log' : list call) (t : Table)
    (ops : list operation) :
  __init__ n s d column log = (Return t, log') ->
  dates_paired
    (self (session get_df_from_query run_sql_file ops (mkWorld t log')))
  /\ (forall op w,
        (forall c, op <> Op_update_dates c) ->
        same_dates (self w)
          (self (snd (perform get_df_from_query run_sql_file op w)))).
Proof.
  intros Hinit. split.
  - assert (H0 : dates_paired (self (mkWorld t log'))).
    { unfold __init__ in Hinit.
      destruct n as [| | |n|]; try discriminate.
      destruct s as [| | |s|]; try discriminate.
      destruct d as [| | |d|]; try discriminate.
      destruct (_ || _); [|discriminate].
      inversion Hinit; subst. unfold dates_paired. simpl.
      repeat split; congruence. }
    revert H0. generalize (mkWorld t log'). clear Hinit.
    induction ops as [|op ops IH]; intros w Hw; simpl.
    + exact Hw.
    + apply IH, perform_keeps_dates_paired, Hw.
  - intros op w Hop.
    destruct op as [q|c|c|p g m|p g m|m d0|f s0 ps|p f s0 ps|p f s0 ps| |p f s0];
      try (rewrite perform_self by (intros ? ?; discriminate);
           repeat split; fail).
    + apply update_periods_dates.
    + exfalso. eapply Hop. reflexivity.
Qed.

End DateInvariant.

Lemma date_bounds_assigned_together_witness :
  dates_paired
    (self (session (answering (one_row (SText "2024-06-01") (SText "2023-01-01")))
             quiet_runner
             [Op_update_dates (PyStr "fecha");
              Op_compare_date "2024-07-01" true true]
             (mkWorld (ventas None None None) []))).
Proof.
  exact (proj1 (@date_bounds_assigned_together
    (answering (one_row (SText "2024-06-01") (SText "2023-01-01"))) quiet_runner
    (@answering_two_columns (SText "2024-06-01") (SText "2023-01-01"))
    (PyStr "ventas") (PyStr "prod") (PyStr "DWH_TERADATA") None [] []
    (ventas None None None)
    [Op_update_dates (PyStr "fecha"); Op_compare_date "2024-07-01" true true]
    eq_refl)).
Defined.

(** ** More on conditional execution *)

Section Gates.

Variable get_df_from_query : list call -> string -> string -> outcome Tables.Frame.
Variable run_sql_file :
  list call -> string -> string -> option bool -> option dict -> outcome pyobj.

(** X10.  [insert_if] decides nothing without a usable maximum: when
    [max_period] is unset or empty it raises the not-set [ValueError] of
    [compare_period], when the stored text is no date it raises the format
    [ValueError]; in both cases, and so on every table that was never
    refreshed, no script is run and the file and parameters are not even
    looked at. *)
Theorem insert_if_needs_a_maximum (w : world) (p : string) (dp : date)
    (file params : pyobj) (silent : option bool) :
  strptime p = Some dp ->
  (truthy (max_period (self w)) = None ->
   insert_if run_sql_file (PyStr p) file silent params w
   = (Raise (BoundsNotSetError true), w))
  /\ (forall text,
        truthy (max_period (self w)) = Some text ->
        strptime text = None ->
        insert_if run_sql_file (PyStr p) file silent params w
        = (Raise (ValueError "max period must be in 'YYYY-MM-DD' format."), w))
  /\ (forall n s d column log t log' ops,
        __init__ n s d column log = (Return t, log') ->
        forallb (fun op => negb (is_refresh op)) ops = true ->
        let w0 := session get_df_from_query run_sql_file ops (mkWorld t log') in
        insert_if run_sql_file (PyStr p) file silent params w0
        = (Raise (BoundsNotSetError true), w0)).
Proof.
  intros Hp.
  assert (Hunset : forall w1, truthy (max_period (self w1)) = None ->
            insert_if run_sql_file (PyStr p) file silent params w1
            = (Raise (BoundsNotSetError true), w1)).
  { intros w1 H. unfold insert_if. rewrite Hp.
    unfold bind at 1, compare_period. rewrite Hp.
    unfold bind, attr. rewrite H. reflexivity. }
  split; [apply Hunset|]. split.
  - intros text Ht Hbad. unfold insert_if. rewrite Hp.
    unfold bind at 1, compare_period. rewrite Hp.
    unfold bind, attr. rewrite Ht, Hbad. reflexivity.
  - intros n s d column log t log' ops Hinit Hops w0.
    apply Hunset.
    destruct (@init_fields n s d column log log' t Hinit) as [_ [Hmax _]].
    destruct (@session_without_refresh get_df_from_query run_sql_file ops
                (mkWorld t log') Hops) as [_ [Hmax' _]].
    fold w0 in Hmax'. simpl in Hmax'. rewrite Hmax', Hmax. reflexivity.
Qed.

(** X11.  A decision of [insert_if] does not refresh the bounds: repeating a
    call that ran the script runs the script again. *)
Theorem insert_if_is_repeatable (w : world) (p b file : string) (dp db : date)
    (silent : option bool) (params : option dict) :
  max_period (self w) = Some b ->
  strptime b = Some db ->
  strptime p = Some dp ->
  date_gt dp db = true ->
  let once :=
    insert_if run_sql_file (PyStr p) (PyStr file) silent (of_params params) w in
  let twice :=
    insert_if run_sql_file (PyStr p) (PyStr file) silent (of_params params)
      (snd once) in
  let sent := Script file (dsn (self w)) silent params in
  calls (snd twice) = (calls w ++ [sent; sent])%list
  /\ self (snd twice) = self w
  /\ fst twice
     = then_true (run_sql_file (calls w ++ [sent])%list file (dsn (self w))
                    silent params).
Proof.
  intros Hb Hdb Hp Hgt once twice sent.
  assert (Honce : snd once
                  = mkWorld (self w) (calls w ++ [sent])).
  { subst once. rewrite (@insert_if_run run_sql_file w p b file dp db silent
                           params Hb Hdb Hp), Hgt. reflexivity. }
  subst twice. rewrite Honce.
  rewrite (@insert_if_run run_sql_file (mkWorld (self w) (calls w ++ [sent]))
             p b file dp db silent params Hb Hdb Hp), Hgt.
  simpl. rewrite <- app_assoc. repeat split.
Qed.

(** X12.  Neither gate runs a script for a [period] that is not the text of a
    date: [insert_if] raises a [TypeError] for a value that is not a string
    and the format [ValueError] for other text, [delete_if] raises as well,
    and nothing is sent or changed. *)
Theorem gates_need_a_date (w : world) (period file params : pyobj)
    (silent : option bool) :
  period_is_date period = false ->
  insert_if run_sql_file period file silent params w
  = (Raise (if is_str period
            then ValueError "The 'period' must be in 'YYYY-MM-DD' format."
            else TypeError "'period' argument should be a string"), w)
  /\ delete_if run_sql_file period file silent params w
     = (Raise (match truthy (period_column (self w)) with
               | None => PreconditionError
               | Some _ =>
                   if is_str period
                   then ValueError "The 'period' must be in 'YYYY-MM-DD' format."
                   else TypeError "'period' argument should be a string"
               end), w).
Proof.
  intros H. unfold insert_if, delete_if, bind, attr.
  destruct (truthy (period_column (self w)));
    destruct period as [| | |p|]; try (split; reflexivity);
    simpl in H; destruct (strptime p); try discriminate; split; reflexivity.
Qed.

(** X13.  The script file and the parameters are checked late: when no script
    is to be run, [insert_if] returns [False] whatever they are; when one is
    to be run, a file that is not a string, or parameters that are neither
    [None] nor a dictionary, make it raise a [TypeError] instead of
    returning, and nothing is sent. *)
Theorem script_arguments_checked_late (w : world) (p b : string)
    (dp db : date) (file params : pyobj) (silent : option bool) :
  max_period (self w) = Some b ->
  strptime b = Some db ->
  strptime p = Some dp ->
  (date_gt dp db = false ->
   insert_if run_sql_file (PyStr p) file silent params w = (Return false, w))
  /\ (date_gt dp db = true -> is_str file = false ->
      insert_if run_sql_file (PyStr p) file silent params w
      = (Raise (TypeError "'file' argument must be a string."), w))
  /\ (date_gt dp db = true -> is_str file = true ->
      is_params params = false ->
      insert_if run_sql_file (PyStr p) file silent params w
      = (Raise (TypeError "'params' argument must be a dictionary."), w)).
Proof.
  intros Hb Hdb Hp.
  assert (Hrun : insert_if run_sql_file (PyStr p) file silent params w
                 = if date_gt dp db
                   then (_ <- run_modification_script run_sql_file file silent
                                params ;; ret true) w
                   else (Return false, w)).
  { unfold insert_if. rewrite Hp. unfold bind at 1.
    rewrite (@compare_period_run w p b dp db true true Hp Hb Hdb).
    destruct (date_gt dp db); reflexivity. }
  rewrite Hrun. split; [|split].
  - intros ->. reflexivity.
  - intros -> Hf. destruct file; try reflexivity; discriminate.
  - intros -> Hf Hps. destruct file; try discriminate.
    destruct params; try reflexivity; discriminate.
Qed.

(** X14.  [delete_period] is unconditional: whatever the state of the table, it
    runs the script once, with the bundle, changes no attribute, and hands
    back what the script runner answered; on a table without a period
    column the bundle carries the text [None] as the column.  On a table
    whose minimum is unset [delete_if] raises and runs nothing, while
    [delete_period] still runs the script. *)
Theorem delete_period_is_unconditional (w : world) (p file : string)
    (silent : option bool) :
  let result := delete_period run_sql_file p file silent w in
  self (snd result) = self w
  /\ script_runs (calls (snd result)) = S (script_runs (calls w))
  /\ fst result
     = run_sql_file (calls w) file (dsn (self w)) silent
         (Some (deletion_bundle (self w) p))
  /\ (period_column (self w) = None ->
      In ("column", "None") (deletion_bundle (self w) p))
  /\ (forall dp params,
        strptime p = Some dp ->
        truthy (min_period (self w)) = None ->
        exists e,
          delete_if run_sql_file (PyStr p) (PyStr file) silent
            (of_params params) w = (Raise e, w)).
Proof.
  cbv zeta. split; [reflexivity|]. split.
  - unfold delete_period, bind, attr. simpl.
    rewrite script_runs_app. simpl. lia.
  - split; [reflexivity|]. split.
    + intros H. unfold deletion_bundle. rewrite H. simpl. tauto.
    + intros dp params Hp Hmin.
      rewrite (@delete_if_run run_sql_file w p file dp silent params Hp).
      rewrite Hmin. destruct (truthy (period_column (self w))); eexists;
        reflexivity.
Qed.

End Gates.

Lemma insert_if_needs_a_maximum_witness :
  insert_if quiet_runner (PyStr "2024-02-01") (PyInt 7) None (PyBool true)
    (fresh (ventas None None None))
  = (Raise (BoundsNotSetError true), fresh (ventas None None None)).
Proof.
  exact (proj1 (@insert_if_needs_a_maximum
    (answering no_rows) quiet_runner (fresh (ventas None None None))
    "2024-02-01" (mkdate 2024 2 1) (PyInt 7) (PyBool true) None eq_refl)
    eq_refl).
Defined.

Lemma insert_if_is_repeatable_witness :
  calls (snd (insert_if quiet_runner (PyStr "2024-02-01") (PyStr "insert.sql")
                None PyNone
                (snd (insert_if quiet_runner (PyStr "2024-02-01")
                        (PyStr "insert.sql") None PyNone
                        (fresh (ventas None (Some "2024-01-01")
                                  (Some "2023-01-01")))))))
  = [Script "insert.sql" "DWH_TERADATA" None None;
     Script "insert.sql" "DWH_TERADATA" None None].
Proof.
  exact (proj1 (@insert_if_is_repeatable quiet_runner
    (fresh (ventas None (Some "2024-01-01") (Some "2023-01-01")))
    "2024-02-01" "2024-01-01" "insert.sql" (mkdate 2024 2 1) (mkdate 2024 1 1)
    None None eq_refl eq_refl eq_refl eq_refl)).
Defined.

Lemma gates_need_a_date_witness :
  insert_if quiet_runner (PyStr "2024-02-30") (PyStr "insert.sql") None PyNone
    (fresh (ventas None (Some "2024-01-01") (Some "2023-01-01")))
  = (Raise (ValueError "The 'period' must be in 'YYYY-MM-DD' format."),
     fresh (ventas None (Some "2024-01-01") (Some "2023-01-01"))).
Proof.
  exact (proj1 (@gates_need_a_date quiet_runner
    (fresh (ventas None (Some "2024-01-01") (Some "2023-01-01")))
    (PyStr "2024-02-30") (PyStr "insert.sql") PyNone None eq_refl)).
Defined.

Lemma script_arguments_checked_late_witness :
  insert_if quiet_runner (PyStr "2024-02-01") (PyInt 7) None PyNone
    (fresh (ventas None (Some "2024-01-01") (Some "2023-01-01")))
  = (Raise (TypeError "'file' argument must be a string."),
     fresh (ventas None (Some "2024-01-01") (Some "2023-01-01"))).
Proof.
  exact (proj1 (proj2 (@script_arguments_checked_late quiet_runner
    (fresh (ventas None (Some "2024-01-01") (Some "2023-01-01")))
    "2024-02-01" "2024-01-01" (mkdate 2024 2 1) (mkdate 2024 1 1)
    (PyInt 7) PyNone None eq_refl eq_refl eq_refl)) eq_refl eq_refl).
Defined.

(** ** Construction and trimming *)

Lemma lstrip_head (s : string) : head_is_space (lstrip s) = false.
Proof.
  induction s as [|c rest IH]; simpl; [reflexivity|].
  destruct (is_space c) eqn:Hc; [exact IH | simpl; exact Hc].
Qed.

Lemma lstrip_clean (s : string) : head_is_space s = false -> lstrip s = s.
Proof.
  destruct s as [|c rest]; simpl; [reflexivity|].
  intros ->. reflexivity.
Qed.

Lemma rstrip_last (s : string) : last_is_space (rstrip s) = false.
Proof.
  induction s as [|c rest IH]; simpl; [reflexivity|].
  destruct (rstrip rest) as [|c' r'] eqn:Hr.
  - destruct (is_space c) eqn:Hc; simpl; [reflexivity | exact Hc].
  - simpl in *. exact IH.
Qed.

Lemma rstrip_head (s : string) :
  head_is_space s = false -> head_is_space (rstrip s) = false.
Proof.
  destruct s as [|c rest]; simpl; [reflexivity|].
  intros Hc. destruct (rstrip rest); [rewrite Hc|]; simpl; exact Hc.
Qed.

Lemma rstrip_idem (s : string) : rstrip (rstrip s) = rstrip s.
Proof.
  induction s as [|c rest IH]; simpl; [reflexivity|].
  destruct (rstrip rest) as [|c' r'] eqn:Hr.
  - destruct (is_space c) eqn:Hc; simpl; [reflexivity|].
    rewrite Hc. reflexivity.
  - change (rstrip (String c (String c' r')))
      with (match rstrip (String c' r') with
            | EmptyString =>
                if is_space c then EmptyString else String c EmptyString
            | r => String c r
            end).
    rewrite IH. reflexivity.
Qed.

Lemma strip_idem (s : string) : strip (strip s) = strip s.
Proof.
  unfold strip.
  rewrite (lstrip_clean (rstrip (lstrip s)))
    by (apply rstrip_head, lstrip_head).
  apply rstrip_idem.
Qed.

(** X15.  The stored name and schema neither start nor end with white space,
    and constructing a table again from the attributes of a constructed
    one gives the same table. *)
Theorem stored_names_are_trimmed (n s d : string) (column : option string)
    (log log' : list call) (t : Table) :
  __init__ (PyStr n) (PyStr s) (PyStr d) column log = (Return t, log') ->
  head_is_space (name t) = false /\ last_is_space (name t) = false
  /\ head_is_space (schema t) = false /\ last_is_space (schema t) = false
  /\ __init__ (PyStr (name t)) (PyStr (schema t)) (PyStr (dsn t))
       (period_column t) log
     = (Return t, log).
Proof.
  unfold __init__. intros H.
  destruct (String.eqb d "DWH_TERADATA" || String.eqb d "BIGDATA_CDP") eqn:E;
    [|discriminate].
  inversion H; subst. simpl.
  rewrite E, !strip_idem.
  unfold strip. rewrite !rstrip_last.
  rewrite !(rstrip_head _ (lstrip_head _)).
  repeat split.
Qed.

Lemma stored_names_are_trimmed_witness :
  __init__ (PyStr "ventas") (PyStr "prod") (PyStr "BIGDATA_CDP") (Some "mes") []
  = (Return (mkTable "ventas" "prod" "BIGDATA_CDP" "prod.ventas" "hive"
               (Some "mes") None None None None None), []).
Proof.
  exact (proj2 (proj2 (proj2 (proj2 (@stored_names_are_trimmed
    "  ventas " "prod  " "BIGDATA_CDP" (Some "mes") [] []
    (mkTable "ventas" "prod" "BIGDATA_CDP" "prod.ventas" "hive"
       (Some "mes") None None None None None)
    eq_refl))))).
Defined.

(** * Further properties of process.py *)

(** ** optimize_dtypes *)

Lemma optimize_dtypes_run (df : Frame) :
  NoDup (labels df) ->
  nrows df <> 0%nat ->
  optimize_dtypes df
  = (Return tt,
     mkFrame (nrows df)
       (map (fun lc => (fst lc, narrowed (nrows df) (snd lc))) (columns df))).
Proof.
  intros Hnd Hn. destruct df as [n cols].
  unfold optimize_dtypes, bind, get. simpl.
  apply (optimize_loop n cols [] Hn Hnd).
Qed.

Lemma narrowed_idem (n : nat) (col : Column) :
  narrowed n (narrowed n col) = narrowed n col.
Proof.
  unfold narrowed at 2 3.
  destruct (dtype_eqb (sdtype col) int64) eqn:E64.
  - destruct (_ && _); reflexivity.
  - destruct (dtype_eqb (sdtype col) object) eqn:Eobj.
    + destruct (2 * nunique col <? Z.of_nat n) eqn:Et; [reflexivity|].
      unfold narrowed. rewrite E64, Eobj, Et. reflexivity.
    + unfold narrowed. rewrite E64, Eobj. reflexivity.
Qed.

(** X16.  Running [optimize_dtypes] a second time changes nothing: on a frame
    with rows and distinct labels the frame it leaves is a fixed point. *)
Theorem optimize_dtypes_idempotent (df df' : Frame) :
  NoDup (labels df) ->
  nrows df <> 0%nat ->
  optimize_dtypes df = (Return tt, df') ->
  optimize_dtypes df' = (Return tt, df').
Proof.
  intros Hnd Hn H. rewrite (optimize_dtypes_run df Hnd Hn) in H.
  inversion H as [Hdf]. clear H.
  rewrite optimize_dtypes_run.
  - simpl. rewrite map_map. simpl. do 2 apply f_equal.
    apply map_ext. intros [l c]. simpl. rewrite narrowed_idem. reflexivity.
  - unfold labels in *. simpl. rewrite map_map. simpl. exact Hnd.
  - exact Hn.
Qed.

Lemma optimize_dtypes_idempotent_witness :
  optimize_dtypes
    (mkFrame 2 [("edad", mkSeries int16 [VInt 31; VInt 45]);
                ("plan", mkSeries object [VStr "pre"; VStr "pos"])])
  = (Return tt,
     mkFrame 2 [("edad", mkSeries int16 [VInt 31; VInt 45]);
                ("plan", mkSeries object [VStr "pre"; VStr "pos"])]).
Proof.
  exact (optimize_dtypes_idempotent
    (mkFrame 2 [("edad", mkSeries int64 [VInt 31; VInt 45]);
                ("plan", mkSeries object [VStr "pre"; VStr "pos"])])
    (mkFrame 2 [("edad", mkSeries int16 [VInt 31; VInt 45]);
                ("plan", mkSeries object [VStr "pre"; VStr "pos"])])
    ltac:(repeat constructor; simpl; intuition discriminate)
    ltac:(discriminate) eq_refl).
Defined.

Lemma wrap_range (w z : Z) : 0 < w -> fits w (wrap w z) = true.
Proof.
  intros Hw. unfold fits, wrap.
  assert (Hp : 2 ^ w = 2 * 2 ^ (w - 1)).
  { replace w with (Z.succ (w - 1)) at 1 by lia. apply Z.pow_succ_r. lia. }
  assert (Hpos : 0 < 2 ^ (w - 1)) by (apply Z.pow_pos_nonneg; lia).
  pose proof (Z.mod_pos_bound (z + 2 ^ (w - 1)) (2 ^ w) ltac:(lia)) as Hm.
  apply andb_true_iff. rewrite Z.leb_le, Z.ltb_lt. lia.
Qed.

Lemma ints_astype (d : dtype) (col : Column) :
  d = int16 \/ d = int32 ->
  ints (astype d col) = map (wrap (bits_of d)) (ints col).
Proof.
  intros Hd. unfold ints.
  assert (H : values (astype d col)
              = map (fun c => match c with
                              | VInt z => VInt (wrap (bits_of d) z)
                              | other => other
                              end) (values col))
    by (destruct Hd as [-> | ->]; reflexivity).
  rewrite H. clear H. generalize (values col). intros cells.
  induction cells as [|c cs IH]; simpl; [reflexivity|].
  destruct c; simpl; rewrite IH; reflexivity.
Qed.

Lemma astype_length (d : dtype) (col : Column) :
  List.length (values (astype d col)) = List.length (values col).
Proof.
  destruct d; simpl; rewrite ?length_map; reflexivity.
Qed.

Lemma narrowed_int64 (n : nat) (col : Column) :
  sdtype col = int64 ->
  (sdtype (narrowed n col) = int16 \/ sdtype (narrowed n col) = int32)
  /\ forallb (fits (bits_of (sdtype (narrowed n col)))) (ints (narrowed n col))
     = true.
Proof.
  intros H. unfold narrowed. rewrite H. cbn [dtype_eqb].
  destruct (_ && _).
  - split; [left; reflexivity|].
    rewrite ints_astype by (left; reflexivity). simpl sdtype.
    apply forallb_forall. intros z Hz. apply in_map_iff in Hz.
    destruct Hz as [z0 [<- _]]. apply wrap_range. simpl. lia.
  - split; [right; reflexivity|].
    rewrite ints_astype by (right; reflexivity). simpl sdtype.
    apply forallb_forall. intros z Hz. apply in_map_iff in Hz.
    destruct Hz as [z0 [<- _]]. apply wrap_range. simpl. lia.
Qed.

Lemma narrowed_length (n : nat) (col : Column) :
  List.length (values (narrowed n col)) = List.length (values col).
Proof.
  unfold narrowed.
  destruct (dtype_eqb (sdtype col) int64).
  - destruct (_ && _); apply astype_length.
  - destruct (dtype_eqb (sdtype col) object); [|reflexivity].
    destruct (_ <? _); [apply astype_length | reflexivity].
Qed.

Lemma narrowed_not_int64 (n : nat) (col : Column) :
  sdtype (narrowed n col) <> int64.
Proof.
  unfold narrowed.
  destruct (dtype_eqb (sdtype col) int64) eqn:E64.
  - destruct (_ && _); simpl; discriminate.
  - destruct (dtype_eqb (sdtype col) object) eqn:Eobj.
    + destruct (_ <? _); simpl; [discriminate|].
      destruct (sdtype col); discriminate.
    + destruct (sdtype col); discriminate.
Qed.

Lemma Forall2_map_right {A B} (R : A -> B -> Prop) (f : A -> B) (l : list A) :
  (forall x, R x (f x)) -> Forall2 R l (map f l).
Proof.
  intros H. induction l as [|x l IH]; simpl; constructor; auto.
Qed.

(** X17.  The frame [optimize_dtypes] leaves, for a frame with rows and distinct
    labels: the same labels in the same order, the same number of rows and
    of cells in each column, no 64-bit integer column left, and in each
    column that was a 64-bit one, now of 16 or 32 bits, only integers of
    that width (a value that did not fit has been wrapped into it). *)
Theorem optimized_frame_shape (df : Frame) :
  NoDup (labels df) ->
  nrows df <> 0%nat ->
  let df' := snd (optimize_dtypes df) in
  labels df' = labels df
  /\ nrows df' = nrows df
  /\ Forall (fun lc => sdtype (snd lc) <> int64) (columns df')
  /\ Forall2 (fun lc lc' =>
                List.length (values (snd lc')) = List.length (values (snd lc))
                /\ (sdtype (snd lc) = int64 ->
                    (sdtype (snd lc') = int16 \/ sdtype (snd lc') = int32)
                    /\ forallb (fits (bits_of (sdtype (snd lc'))))
                         (ints (snd lc')) = true))
       (columns df) (columns df').
Proof.
  intros Hnd Hn df'. subst df'. rewrite (optimize_dtypes_run df Hnd Hn).
  simpl. split; [|split; [reflexivity|split]].
  - unfold labels. simpl. rewrite map_map. reflexivity.
  - apply Forall_forall. intros lc Hin. apply in_map_iff in Hin.
    destruct Hin as [[l c] [<- _]]. simpl. apply narrowed_not_int64.
  - apply Forall2_map_right. intros [l c]. simpl.
    split; [apply narrowed_length | apply narrowed_int64].
Qed.

Lemma optimized_frame_shape_witness :
  Forall (fun lc => sdtype (snd lc) <> int64)
    (columns (snd (optimize_dtypes
                     (mkFrame 1 [("n", mkSeries int64 [VInt 3000000000])])))).
Proof.
  exact (proj1 (proj2 (proj2 (optimized_frame_shape
    (mkFrame 1 [("n", mkSeries int64 [VInt 3000000000])])
    ltac:(repeat constructor; simpl; intuition discriminate)
    ltac:(discriminate))))).
Defined.

Lemma object_is_not_int64 (col : Column) :
  is_object col = true -> dtype_eqb (sdtype col) int64 = false.
Proof.
  unfold is_object. destruct (sdtype col); simpl; congruence.
Qed.

Lemma optimize_column_plain (n : nat) (label : string) (col : Column)
    (before after : list (string * Column)) :
  is_object col = false ->
  ~ In label (map fst before) ->
  ~ In label (map fst after) ->
  optimize_column label (mkFrame n (before ++ (label, col) :: after))
  = (Return tt, mkFrame n (before ++ (label, narrowed n col) :: after)).
Proof.
  intros Hobj Hb Ha. unfold optimize_column, bind at 1.
  rewrite (getitem_at _ _ _ _ _ Hb). unfold narrowed.
  unfold is_object in Hobj. rewrite Hobj.
  destruct (dtype_eqb (sdtype col) int64); [|reflexivity].
  destruct (_ && _); apply setitem_at; assumption.
Qed.

Lemma optimize_column_no_rows (label : string) (col : Column)
    (before after : list (string * Column)) :
  is_object col = true ->
  ~ In label (map fst before) ->
  optimize_column label (mkFrame 0 (before ++ (label, col) :: after))
  = (Raise (ZeroDivisionError "division by zero"),
     mkFrame 0 (before ++ (label, col) :: after)).
Proof.
  intros Hobj Hb. unfold optimize_column, bind at 1.
  rewrite (getitem_at _ _ _ _ _ Hb).
  rewrite (object_is_not_int64 col Hobj).
  unfold is_object in Hobj. rewrite Hobj. reflexivity.
Qed.

Lemma optimize_prefix (n : nat) (todo before rest : list (string * Column)) :
  forallb (fun lc => negb (is_object (snd lc))) todo = true ->
  NoDup (map fst (before ++ todo ++ rest)) ->
  for_each (map fst todo) optimize_column (mkFrame n (before ++ todo ++ rest))
  = (Return tt,
     mkFrame n (before
                ++ map (fun lc => (fst lc, narrowed n (snd lc))) todo
                ++ rest)).
Proof.
  revert before.
  induction todo as [|[l c] todo IH]; intros before Hobj Hnd; simpl.
  - reflexivity.
  - simpl in Hobj. apply andb_true_iff in Hobj. destruct Hobj as [Hc Hobj].
    apply negb_true_iff in Hc.
    rewrite map_app in Hnd. simpl in Hnd.
    pose proof (NoDup_remove_2 _ _ _ Hnd) as Hnot.
    assert (Hb : ~ In l (map fst before))
      by (intros H; apply Hnot, in_or_app; left; exact H).
    assert (Ha : ~ In l (map fst (todo ++ rest)))
      by (intros H; apply Hnot, in_or_app; right; exact H).
    unfold bind.
    rewrite (optimize_column_plain n l c before (todo ++ rest) Hc Hb Ha).
    specialize (IH (before ++ [(l, narrowed n c)])%list Hobj).
    rewrite <- !app_assoc in IH. simpl in IH. apply IH.
    rewrite map_app. simpl. exact Hnd.
Qed.

(** X18.  Frames without rows.  A frame with distinct labels and no [object]
    column is processed normally even when it has no rows, and a 64-bit
    integer column without values becomes a 32-bit one; but at the first
    [object] column of a frame without rows [optimize_dtypes] raises
    [ZeroDivisionError], leaving the columns before it converted and the
    others as they were. *)
Theorem optimize_dtypes_without_rows (cols : list (string * Column)) :
  NoDup (map fst cols) ->
  (forall n,
      forallb (fun lc => negb (is_object (snd lc))) cols = true ->
      optimize_dtypes (mkFrame n cols)
      = (Return tt,
         mkFrame n (map (fun lc => (fst lc, narrowed n (snd lc))) cols)))
  /\ (forall before l c after,
        cols = (before ++ (l, c) :: after)%list ->
        forallb (fun lc => negb (is_object (snd lc))) before = true ->
        is_object c = true ->
        optimize_dtypes (mkFrame 0 cols)
        = (Raise (ZeroDivisionError "division by zero"),
           mkFrame 0 (map (fun lc => (fst lc, narrowed 0 (snd lc))) before
                      ++ (l, c) :: after)))
  /\ (forall c,
        sdtype c = int64 -> values c = [] ->
        narrowed 0 c = mkSeries int32 []).
Proof.
  intros Hnd. split; [|split].
  - intros n Hobj. unfold optimize_dtypes, bind, get. simpl.
    pose proof (optimize_prefix n cols [] [] Hobj) as H.
    rewrite !app_nil_r in H. simpl in H. apply H. exact Hnd.
  - intros before l c after -> Hobj Hc.
    unfold optimize_dtypes, bind at 1, get. cbv beta iota. cbn [columns].
    rewrite map_app.
    rewrite (@for_each_app Frame string (map fst before)
               (map fst ((l, c) :: after)) optimize_column).
    pose proof (optimize_prefix 0 before [] ((l, c) :: after) Hobj) as H.
    simpl in H. rewrite (H Hnd). clear H.
    simpl. unfold bind.
    rewrite optimize_column_no_rows; [reflexivity | exact Hc |].
    rewrite map_map. simpl.
    rewrite map_app in Hnd. simpl in Hnd.
    pose proof (NoDup_remove_2 _ _ _ Hnd) as Hnot.
    intros Hin. apply Hnot, in_or_app. left. exact Hin.
  - intros c H64 Hv. unfold narrowed, int_min, int_max, ints, astype.
    rewrite H64, Hv. reflexivity.
Qed.

Lemma optimize_dtypes_without_rows_witness :
  optimize_dtypes
    (mkFrame 0 [("edad", mkSeries int64 []); ("plan", mkSeries object []);
                ("saldo", mkSeries int64 [])])
  = (Raise (ZeroDivisionError "division by zero"),
     mkFrame 0 [("edad", mkSeries int32 []); ("plan", mkSeries object []);
                ("saldo", mkSeries int64 [])]).
Proof.
  exact (proj1 (proj2 (optimize_dtypes_without_rows
    [("edad", mkSeries int64 []); ("plan", mkSeries object []);
     ("saldo", mkSeries int64 [])]
    ltac:(repeat constructor; simpl; intuition discriminate)))
    [("edad", mkSeries int64 [])] "plan" (mkSeries object [])
    [("saldo", mkSeries int64 [])] eq_refl eq_refl eq_refl).
Defined.

(** ** nulls_imputation *)

Lemma setitem_nrows (label : string) (col : Column) (df : Frame) :
  nrows (snd (setitem label col df)) = nrows df.
Proof.
  unfold setitem, modify. simpl. destruct (has_column label df); reflexivity.
Qed.

Lemma write_back_nrows (column : string) (df : Frame)
    (filled : outcome Column) :
  nrows (snd ((c <- lift filled ;; setitem column c) df)) = nrows df.
Proof.
  unfold bind, lift. destruct filled as [c|e]; [|reflexivity].
  apply setitem_nrows.
Qed.

Lemma repeatedly_step {A} (f : A -> outcome A) (k : nat) (a b : A) :
  repeatedly f (S k) a = Return b ->
  exists a', f a = Return a' /\ repeatedly f k a' = Return b.
Proof.
  simpl. destruct (f a) as [a'|e]; [|discriminate].
  intros H. exists a'. split; [reflexivity | exact H].
Qed.

Section ImputationShape.

Variable series_max : Column -> outcome cell.
Variable series_mean : Column -> outcome cell.
Variable times : cell -> cell -> outcome cell.
Variable fillna : cell -> Column -> outcome Column.
Variable value : pyobj.
Variable max_factor mean_factor : cell.

(** The converse of [imputation_loop]: when every listed column is in the
    frame and every imputation the loop comes to returns, the call
    returns. *)
Lemma imputation_loop_returns (listed : list string) (df : Frame)
    (cols' : list (string * Column)) :
  NoDup (labels df) ->
  forallb (fun c => has_column c df) listed = true ->
  Forall2 (column_after
             (imputed series_max series_mean times fillna value max_factor
                mean_factor) listed)
    (columns df) cols' ->
  nulls_imputation series_max series_mean times fillna listed value
    max_factor mean_factor df = (Return tt, mkFrame (nrows df) cols').
Proof.
  unfold nulls_imputation. revert df.
  induction listed as [|c cs IH]; intros df Hnd Hall F; simpl.
  - unfold ret. destruct df as [n cols]. simpl in *. do 2 apply f_equal.
    clear Hnd Hall.
    induction F as [|x y l l' Hxy F IHF]; [reflexivity|].
    destruct x as [a k], y as [a' k'], Hxy as [H1 H2].
    simpl in H1, H2. inversion H2. rewrite IHF, H1. reflexivity.
  - simpl in Hall. apply andb_true_iff in Hall. destruct Hall as [Hc Hall].
    pose proof Hc as Hin. apply has_column_in in Hin.
    unfold labels in Hin, Hnd.
    destruct (first_occurrence c (columns df) Hin)
      as [before [col [after [Hcols Hb]]]].
    destruct df as [n cols]. simpl in Hcols, Hnd, Hin, F |- *. subst cols.
    assert (Ha : ~ In c (map fst after)).
    { rewrite map_app in Hnd. simpl in Hnd.
      pose proof (NoDup_remove_2 _ _ _ Hnd) as Hnot.
      intros H. apply Hnot, in_or_app. right. exact H. }
    apply Forall2_app_inv_l in F.
    destruct F as [b' [rest' [Fb [Fr Heq]]]]. subst cols'.
    inversion Fr as [|x x' a a' Hx Fa]; subst.
    destruct Hx as [Hx1 Hx2]. simpl in Hx1, Hx2.
    rewrite String.eqb_refl in Hx2.
    destruct (repeatedly_step _ _ _ _ Hx2) as [col' [Himp Hrest]].
    unfold bind.
    rewrite (impute_column_at series_max series_mean times fillna value
               max_factor mean_factor n c col before after Hb Ha), Himp.
    apply (IH (mkFrame n (before ++ (c, col') :: after))).
    + unfold labels. simpl. rewrite map_app in *. simpl in *. exact Hnd.
    + apply forallb_forall. intros c' Hc'.
      rewrite forallb_forall in Hall. specialize (Hall c' Hc').
      apply has_column_in. apply has_column_in in Hall.
      unfold labels in *. simpl in *. rewrite map_app in *. exact Hall.
    + simpl. apply Forall2_app.
      * refine (Forall2_weaken_in _ _ _ _ _ Fb).
        intros [l k] y Hl [H1 H2]. split; [exact H1|].
        simpl in *. destruct (String.eqb_spec c l) as [->|_]; [|exact H2].
        exfalso. apply Hb. apply (in_map fst) in Hl. exact Hl.
      * constructor.
        -- split; [exact Hx1 | exact Hrest].
        -- refine (Forall2_weaken_in _ _ _ _ _ Fa).
           intros [l k] y Hl [H1 H2]. split; [exact H1|].
           simpl in *. destruct (String.eqb_spec c l) as [->|_]; [|exact H2].
           exfalso. apply Ha. apply (in_map fst) in Hl. exact Hl.
Qed.

(** X19.  On a frame with distinct labels [nulls_imputation] returns
    normally exactly when every listed column is in the frame and every
    imputation the loop comes to returns; the frame is then the given one
    with each column imputed as many times as its label is listed, the
    unlisted columns being untouched.  With an integer (or boolean)
    [value] one imputation of a column is [fillna(value)] of it, and
    neither the maximum nor the mean is taken. *)
Theorem nulls_imputation_outcome (listed : list string) (df : Frame) :
  NoDup (labels df) ->
  (forall cols',
     forallb (fun c => has_column c df) listed = true ->
     Forall2 (column_after
                (imputed series_max series_mean times fillna value max_factor
                   mean_factor) listed)
       (columns df) cols' ->
     nulls_imputation series_max series_mean times fillna listed value
       max_factor mean_factor df = (Return tt, mkFrame (nrows df) cols'))
  /\ (forall df',
        nulls_imputation series_max series_mean times fillna listed value
          max_factor mean_factor df = (Return tt, df') ->
        forallb (fun c => has_column c df) listed = true
        /\ nrows df' = nrows df
        /\ Forall2 (column_after
                      (imputed series_max series_mean times fillna value
                         max_factor mean_factor) listed)
             (columns df) (columns df'))
  /\ (forall v col,
        as_int value = Some v ->
        imputed series_max series_mean times fillna value max_factor
          mean_factor col = fillna v col).
Proof.
  intros Hnd. split; [|split].
  - intros cols' Hall F. apply imputation_loop_returns; assumption.
  - intros df' Hrun. split.
    + clear Hnd. unfold nulls_imputation in Hrun. revert df Hrun.
      induction listed as [|c cs IH]; intros df Hrun; [reflexivity|].
      simpl in Hrun |- *. unfold bind in Hrun.
      destruct (has_column c df) eqn:Hc.
      2:{ unfold impute_column, bind at 1, get in Hrun. rewrite Hc in Hrun.
          discriminate. }
      simpl.
      pose proof (impute_column_labels series_max series_mean times fillna
                    value max_factor mean_factor c df) as Hlab.
      destruct (impute_column _ _ _ _ _ _ _ c df) as [[[]|e] df1];
        [|discriminate].
      simpl in Hlab. specialize (IH df1 Hrun).
      apply forallb_forall. intros c' Hc'.
      rewrite forallb_forall in IH. specialize (IH c' Hc').
      apply has_column_in. apply has_column_in in IH.
      rewrite <- Hlab. exact IH.
    + apply imputation_loop; assumption.
  - intros v col Hv. unfold imputed. rewrite Hv. reflexivity.
Qed.

Lemma fill_keeps_nrows (reduce : Column -> outcome cell) (factor : cell)
    (column : string) (df : Frame) :
  nrows (snd ((s <- getitem column ;;
               v0 <- lift (reduce s) ;;
               s' <- getitem column ;;
               v <- lift (times v0 factor) ;;
               filled <- lift (fillna v s') ;;
               setitem column filled) df)) = nrows df.
Proof.
  unfold bind at 1.
  pose proof (getitem_same column df) as Hg.
  destruct (getitem column df) as [[s|e] df1]; simpl in Hg; subst df1;
    [|reflexivity].
  unfold bind at 1, lift at 1.
  destruct (reduce s) as [v0|e]; [|reflexivity].
  unfold bind at 1.
  pose proof (getitem_same column df) as Hg.
  destruct (getitem column df) as [[s'|e] df1]; simpl in Hg; subst df1;
    [|reflexivity].
  unfold bind at 1, lift at 1.
  destruct (times v0 factor) as [v|e]; [|reflexivity].
  apply write_back_nrows.
Qed.

Lemma impute_column_nrows (column : string) (df : Frame) :
  nrows (snd (impute_column series_max series_mean times fillna value
                max_factor mean_factor column df)) = nrows df.
Proof.
  unfold impute_column, bind at 1, get.
  destruct (has_column column df) eqn:H; cbn [negb]; [|reflexivity].
  destruct (as_int value) as [v|].
  - unfold bind at 1.
    pose proof (getitem_same column df) as Hg.
    destruct (getitem column df) as [[s|e] df1]; simpl in Hg; subst df1;
      [|reflexivity].
    apply write_back_nrows.
  - destruct (is_text value "max"); [apply fill_keeps_nrows|].
    destruct (is_text value "mean"); [apply fill_keeps_nrows|].
    reflexivity.
Qed.

(** X20.  Whatever the arguments, and whether it returns or raises,
    [nulls_imputation] never adds, drops, renames or reorders a column and
    never changes the number of rows. *)
Theorem nulls_imputation_keeps_shape (listed : list string) (df : Frame) :
  let df' := snd (nulls_imputation series_max series_mean times fillna listed
                    value max_factor mean_factor df) in
  labels df' = labels df /\ nrows df' = nrows df.
Proof.
  cbv zeta. split.
  - apply nulls_imputation_labels.
  - unfold nulls_imputation.
    revert df. induction listed as [|c cs IH]; intros df; simpl.
    + reflexivity.
    + unfold bind. pose proof (impute_column_nrows c df) as Hc.
      destruct (impute_column _ _ _ _ _ _ _ c df) as [[[]|e] df1];
        simpl in Hc.
      * rewrite IH. exact Hc.
      * exact Hc.
Qed.

(** X21.  The order of the checks: an empty list of columns returns normally
    whatever [value] is; otherwise a first column that is not in the frame
    is reported before [value] is looked at, and a [value] that is neither
    an integer nor ['max'] nor ['mean'] is reported at the first column
    that exists.  The frame is unchanged in the three cases. *)
Theorem imputation_checks_in_order (column : string) (rest : list string)
    (df : Frame) :
  nulls_imputation series_max series_mean times fillna [] value max_factor
    mean_factor df = (Return tt, df)
  /\ (has_column column df = false ->
      nulls_imputation series_max series_mean times fillna (column :: rest)
        value max_factor mean_factor df
      = (Raise (UnknownColumnError column), df))
  /\ (has_column column df = true ->
      as_int value = None ->
      is_text value "max" = false ->
      is_text value "mean" = false ->
      nulls_imputation series_max series_mean times fillna (column :: rest)
        value max_factor mean_factor df
      = (Raise (ValueError "The `value` argument should be an integer, 'max', or 'mean'."),
         df)).
Proof.
  split; [reflexivity|]. split.
  - intros H. unfold nulls_imputation. simpl.
    unfold bind at 1, impute_column, bind at 1, get. rewrite H. reflexivity.
  - intros H Hi Hmax Hmean. unfold nulls_imputation. simpl.
    unfold bind at 1, impute_column, bind at 1, get.
    rewrite H, Hi, Hmax, Hmean. reflexivity.
Qed.

(** X22.  With ['max'] as the value, a listed column is replaced by what
    [fillna] returns for it and the product of the column's maximum, taken
    before anything is filled, and [max_factor]; with ['mean'], for the
    product of its mean and [mean_factor].  The other columns are
    untouched. *)
Theorem imputation_by_reduction (n : nat) (column : string)
    (col col' : Column) (before after : list (string * Column))
    (reduced v : cell) :
  ~ In column (map fst before) ->
  ~ In column (map fst after) ->
  (value = PyStr "max"
   /\ series_max col = Return reduced /\ times reduced max_factor = Return v)
  \/ (value = PyStr "mean"
      /\ series_mean col = Return reduced
      /\ times reduced mean_factor = Return v) ->
  fillna v col = Return col' ->
  nulls_imputation series_max series_mean times fillna [column] value
    max_factor mean_factor (mkFrame n (before ++ (column, col) :: after))
  = (Return tt, mkFrame n (before ++ (column, col') :: after)).
Proof.
  intros Hb Ha Hmode Hfill.
  unfold nulls_imputation. simpl. unfold bind at 1.
  rewrite (impute_column_at series_max series_mean times fillna value
             max_factor mean_factor n column col before after Hb Ha).
  unfold imputed.
  destruct Hmode as [[-> [Hr Ht]] | [-> [Hr Ht]]].
  - change (as_int (PyStr "max")) with (@None cell).
    change (is_text (PyStr "max") "max") with true. cbv iota.
    rewrite Hr, Ht, Hfill. reflexivity.
  - change (as_int (PyStr "mean")) with (@None cell).
    change (is_text (PyStr "mean") "max") with false.
    change (is_text (PyStr "mean") "mean") with true. cbv iota.
    rewrite Hr, Ht, Hfill. reflexivity.
Qed.

End ImputationShape.

Lemma nulls_imputation_outcome_witness :
  nulls_imputation int_series_max no_mean int_times plain_fillna
    ["saldo"; "edad"] (PyInt 0) (VInt 2) (VInt 1)
    (mkFrame 2 [("saldo", mkSeries object [VNone; VInt 5]);
                ("plan", mkSeries object [VNone; VStr "pre"]);
                ("edad", mkSeries object [VInt 40; VFloat 9221120237041090560])])
  = (Return tt,
     mkFrame 2 [("saldo", mkSeries object [VInt 0; VInt 5]);
                ("plan", mkSeries object [VNone; VStr "pre"]);
                ("edad", mkSeries object [VInt 40; VInt 0])]).
Proof.
  exact (proj1 (nulls_imputation_outcome int_series_max no_mean int_times
    plain_fillna (PyInt 0) (VInt 2) (VInt 1) ["saldo"; "edad"]
    (mkFrame 2 [("saldo", mkSeries object [VNone; VInt 5]);
                ("plan", mkSeries object [VNone; VStr "pre"]);
                ("edad", mkSeries object [VInt 40; VFloat 9221120237041090560])])
    ltac:(repeat constructor; simpl; intuition discriminate))
    [("saldo", mkSeries object [VInt 0; VInt 5]);
     ("plan", mkSeries object [VNone; VStr "pre"]);
     ("edad", mkSeries object [VInt 40; VInt 0])]
    eq_refl
    ltac:(repeat constructor)).
Defined.

Lemma imputation_by_reduction_witness :
  nulls_imputation int_series_max no_mean int_times plain_fillna ["x"]
    (PyStr "max") (VInt 2) (VInt 1)
    (mkFrame 3 [("x", mkSeries object [VInt 10; VNone; VInt 4])])
  = (Return tt, mkFrame 3 [("x", mkSeries object [VInt 10; VInt 20; VInt 4])]).
Proof.
  exact (imputation_by_reduction int_series_max no_mean int_times
    plain_fillna (PyStr "max") (VInt 2) (VInt 1) 3 "x"
    (mkSeries object [VInt 10; VNone; VInt 4])
    (mkSeries object [VInt 10; VInt 20; VInt 4]) [] [] (VInt 10) (VInt 20)
    ltac:(simpl; tauto) ltac:(simpl; tauto)
    (or_introl (conj eq_refl (conj eq_refl eq_refl))) eq_refl).
Defined.

Lemma imputation_checks_in_order_witness :
  nulls_imputation int_series_max no_mean int_times plain_fillna ["y"; "x"]
    (PyStr "median") (VInt 2) (VInt 1)
    (mkFrame 1 [("x", mkSeries object [VNone])])
  = (Raise (UnknownColumnError "y"), mkFrame 1 [("x", mkSeries object [VNone])]).
Proof.
  exact (proj1 (proj2 (imputation_checks_in_order int_series_max no_mean
    int_times plain_fillna (PyStr "median") (VInt 2) (VInt 1) "y" ["x"]
    (mkFrame 1 [("x", mkSeries object [VNone])]))) eq_refl).
Defined.

(** * Properties of the configuration *)

Section Configuration.

Import ProcessConfig.

Variable open_and_load : string -> reading.
Variable joinpath : string -> string -> string.

(** X23.  What a failed [load_config] leaves.  When the file cannot be read or
    parsed the object is unchanged: a missing file raises
    [FileNotFoundError], malformed JSON raises a [ValueError] that names the
    file.  When the file holds JSON that is not an object, the call raises
    [AttributeError] with [parameters] already replaced and both data source
    names as they were. *)
Theorem load_config_failures (p : Process) :
  let path := joinpath (base_path p) "parameters_proc.json" in
  let result := load_config open_and_load joinpath p in
  (open_and_load path = NoSuchFile ->
   result = (Failed (FileNotFoundError path), p))
  /\ (forall msg,
        open_and_load path = Malformed msg ->
        result
        = (Failed (ProcessConfig.ValueError
                     ("Invalid JSON in " ++ path ++ ": " ++ msg)), p))
  /\ (forall msg,
        open_and_load path = Broken msg ->
        result = (Failed (OtherError msg), p))
  /\ (forall v,
        open_and_load path = Parsed v ->
        type_name v <> "dict" ->
        result
        = (Failed (AttributeError ("'" ++ type_name v
                                   ++ "' object has no attribute 'get'")),
           mkProcess (base_path p) v (dsn_dwh p) (dsn_hive p))).
Proof.
  cbv zeta. unfold load_config, _load_json.
  split; [intros ->; reflexivity|].
  split; [intros msg ->; reflexivity|].
  split; [intros msg ->; reflexivity|].
  intros v -> Hv. destruct v; try reflexivity.
  exfalso. apply Hv. reflexivity.
Qed.

(** X24.  A configuration that is a JSON object always loads, whatever it holds:
    each data source name is the value of its key, or the default when the
    key is absent.  The two defaults are names that [Table] accepts, with
    the engines [teradata] and [hive]; a configured name is not checked, so
    an unknown one is refused only when a table is constructed with it. *)
Theorem load_config_names (p : Process) (items : list (string * jvalue)) :
  open_and_load (joinpath (base_path p) "parameters_proc.json")
  = Parsed (JDict items) ->
  let result := load_config open_and_load joinpath p in
  fst result = Done tt
  /\ base_path (snd result) = base_path p
  /\ parameters (snd result) = JDict items
  /\ py_get (JDict items) "dsn_dwh" (JStr "DWH_TERADATA")
     = Done (dsn_dwh (snd result))
  /\ py_get (JDict items) "dsn_hive" (JStr "BIGDATA_CDP")
     = Done (dsn_hive (snd result))
  /\ (find (fun kv => String.eqb (fst kv) "dsn_dwh") items = None ->
      forall n s column log,
      exists dsn t,
        as_argument (dsn_dwh (snd result)) = Some dsn
        /\ __init__ (PyStr n) (PyStr s) dsn column log = (Return t, log)
        /\ motor t = "teradata")
  /\ (find (fun kv => String.eqb (fst kv) "dsn_hive") items = None ->
      forall n s column log,
      exists dsn t,
        as_argument (dsn_hive (snd result)) = Some dsn
        /\ __init__ (PyStr n) (PyStr s) dsn column log = (Return t, log)
        /\ motor t = "hive")
  /\ (forall key other,
        find (fun kv => String.eqb (fst kv) "dsn_dwh") items
        = Some (key, JStr other) ->
        other <> "DWH_TERADATA" -> other <> "BIGDATA_CDP" ->
        forall n s column log,
        exists dsn,
          as_argument (dsn_dwh (snd result)) = Some dsn
          /\ __init__ (PyStr n) (PyStr s) dsn column log
             = (Raise InvalidConfiguration, log)).
Proof.
  intros Hread. cbv zeta. unfold load_config, _load_json. rewrite Hread.
  cbn [parameters base_path dsn_dwh dsn_hive py_get].
  destruct (find (fun kv => String.eqb (fst kv) "dsn_dwh") items)
    as [[k1 v1]|] eqn:F1;
    destruct (find (fun kv => String.eqb (fst kv) "dsn_hive") items)
      as [[k2 v2]|] eqn:F2;
    cbn [fst snd parameters base_path dsn_dwh dsn_hive];
    (split; [reflexivity|]); (split; [reflexivity|]);
    (split; [reflexivity|]); (split; [reflexivity|]);
    (split; [reflexivity|]);
    (split; [try discriminate|]); try (split; [try discriminate|]).
  all: try (intros _ n s column log; eexists; eexists;
            split; [reflexivity|]; split; reflexivity).
  all: intros key other Hk H1 H2 n s column log;
    first [ discriminate
          | inversion Hk; subst;
            eexists; (split; [reflexivity|]);
            unfold __init__;
            apply String.eqb_neq in H1, H2; rewrite H1, H2; reflexivity ].
Qed.

End Configuration.

Lemma load_config_failures_witness :
  ProcessConfig.load_config no_files plain_join
    (ProcessConfig.mkProcess "/opt/proc" (ProcessConfig.JDict [])
       ProcessConfig.JNull ProcessConfig.JNull)
  = (ProcessConfig.Failed
       (ProcessConfig.FileNotFoundError "/opt/proc/parameters_proc.json"),
     ProcessConfig.mkProcess "/opt/proc" (ProcessConfig.JDict [])
       ProcessConfig.JNull ProcessConfig.JNull).
Proof.
  exact (proj1 (load_config_failures no_files plain_join
    (ProcessConfig.mkProcess "/opt/proc" (ProcessConfig.JDict [])
       ProcessConfig.JNull ProcessConfig.JNull)) eq_refl).
Defined.

Lemma load_config_names_witness :
  ProcessConfig.dsn_dwh
    (snd (ProcessConfig.load_config
            (with_file "/opt/proc/parameters_proc.json"
               (ProcessConfig.JDict
                  [("dsn_hive", ProcessConfig.JStr "BIGDATA_CDP");
                   ("umbral", ProcessConfig.JInt 3)]))
            plain_join
            (ProcessConfig.mkProcess "/opt/proc" (ProcessConfig.JDict [])
               ProcessConfig.JNull ProcessConfig.JNull)))
  = ProcessConfig.JStr "DWH_TERADATA".
Proof.
  destruct (load_config_names
    (with_file "/opt/proc/parameters_proc.json"
       (ProcessConfig.JDict
          [("dsn_hive", ProcessConfig.JStr "BIGDATA_CDP");
           ("umbral", ProcessConfig.JInt 3)]))
    plain_join
    (ProcessConfig.mkProcess "/opt/proc" (ProcessConfig.JDict [])
       ProcessConfig.JNull ProcessConfig.JNull)
    [("dsn_hive", ProcessConfig.JStr "BIGDATA_CDP");
     ("umbral", ProcessConfig.JInt 3)]
    eq_refl) as [_ [_ [_ [H _]]]].
  simpl in H. inversion H. reflexivity.
Defined.
